(** * ensure_services_operated.py: the service manager, modelled and checked

    A shallow embedding of [scripts/ensure_services_operated.py]: the
    [ServiceManager] class and [main].  The script is a sequence of prints,
    shell commands and socket probes; it is modelled in a state monad over a
    [World] that logs them, against a [Host] that answers them.

    Text is Python [str] restricted to ASCII: a character is an [ascii], and
    the string methods below are the ASCII part of Python's (bytes above 127
    are neither white space nor letters nor digits).  The message literals
    keep the script's UTF-8 text; they are only ever appended and printed.

    A value read from JSON is kept whole, whatever its type: the script
    stores what [json.loads] gives it, and what is not a string raises where
    the script treats it as one.  A call that can raise has an [outcome].

    [main] starts from what the argument parser did; Ctrl-C arrives at a
    prompt only; standard output takes every line; the logs of a [World] are
    latest first. *)

From Stdlib Require Import ZArith Ascii String List Bool Lia.
From stdpp Require Import base option gmap strings list fin_maps pretty.

Local Open Scope string_scope.
Local Open Scope Z_scope.

(** What a call comes to: it returns, or it raises an [Exception], kept by
    the text that [str(e)] gives. *)
Inductive outcome (A : Type) :=
| Return (value : A)
| Raise (text : string).

Arguments Return {A} value.
Arguments Raise {A} text.

(** ** Python's [str] methods used by the script *)

Module Py.

(** [s.isascii()] *)
Fixpoint isascii (s : string) : bool :=
  match s with
  | EmptyString => true
  | String c s' => (nat_of_ascii c <? 128)%nat && isascii s'
  end.

(** [c.isspace()] on ASCII: tab, LF, VT, FF, CR, FS, GS, RS, US, space. *)
Definition isspace (c : ascii) : bool :=
  let n := nat_of_ascii c in
  ((9 <=? n) && (n <=? 13) || (28 <=? n) && (n <=? 32))%nat.

Fixpoint lstrip (s : string) : string :=
  match s with
  | String c s' => if isspace c then lstrip s' else s
  | EmptyString => EmptyString
  end.

Fixpoint rstrip (s : string) : string :=
  match s with
  | String c s' =>
      match rstrip s' with
      | EmptyString => if isspace c then EmptyString else String c EmptyString
      | kept => String c kept
      end
  | EmptyString => EmptyString
  end.

(** [s.strip()] *)
Definition strip (s : string) : string := rstrip (lstrip s).

(** [s.split(sep)] for a one-character separator: empty fields are kept,
    and the empty string splits into one empty field. *)
Fixpoint split_on (sep : ascii) (s : string) : list string :=
  match s with
  | EmptyString => [EmptyString]
  | String c s' =>
      if Ascii.eqb c sep then EmptyString :: split_on sep s'
      else match split_on sep s' with
           | field :: fields => String c field :: fields
           | [] => [String c EmptyString]
           end
  end.

Definition newline : ascii := ascii_of_nat 10.

(** [s.split()]: the maximal runs of characters that are not white space. *)
Fixpoint split (s : string) : list string :=
  match s with
  | EmptyString => []
  | String c s' =>
      if isspace c then split s'
      else match s' with
           | EmptyString => [String c EmptyString]
           | String c' _ =>
               if isspace c' then String c EmptyString :: split s'
               else match split s' with
                    | word :: words => String c word :: words
                    | [] => [String c EmptyString]
                    end
           end
  end.

Fixpoint startswith (prefix s : string) : bool :=
  match prefix, s with
  | EmptyString, _ => true
  | String _ _, EmptyString => false
  | String a prefix', String b s' => Ascii.eqb a b && startswith prefix' s'
  end.

(** [needle in hay] *)
Fixpoint contains (needle hay : string) : bool :=
  startswith needle hay ||
  match hay with
  | EmptyString => false
  | String _ hay' => contains needle hay'
  end.

Definition lower_char (c : ascii) : ascii :=
  let n := nat_of_ascii c in
  if ((65 <=? n) && (n <=? 90))%nat then ascii_of_nat (n + 32) else c.

(** [s.lower()] *)
Fixpoint lower (s : string) : string :=
  match s with
  | EmptyString => EmptyString
  | String c s' => String (lower_char c) (lower s')
  end.

Definition is_digit (c : ascii) : bool :=
  let n := nat_of_ascii c in ((48 <=? n) && (n <=? 57))%nat.

Fixpoint all_digits (s : string) : bool :=
  match s with
  | EmptyString => true
  | String c s' => is_digit c && all_digits s'
  end.

(** [s.isdigit()] on ASCII text: not empty, and the digits 0 to 9 only. *)
Definition isdigit (s : string) : bool :=
  negb (String.eqb s EmptyString) && all_digits s.

Fixpoint int_go (acc : Z) (s : string) : Z :=
  match s with
  | EmptyString => acc
  | String c s' => int_go (10 * acc + (Z.of_nat (nat_of_ascii c) - 48)) s'
  end.

(** The digits beyond which the interpreter may refuse to convert
    ([sys.int_info.str_digits_check_threshold]). *)
Definition str_digits_check_threshold : nat := 640.

(** [int(s)] on a string of ASCII digits (leading zeros count as digits).
    With a limit set ([sys.get_int_max_str_digits()], 0 for none), a string
    of more digits than the limit, and than the threshold, is refused. *)
Definition int (max_str_digits : nat) (s : string) : outcome Z :=
  let digits := String.length s in
  if ((str_digits_check_threshold <? digits) && (0 <? max_str_digits)
      && (max_str_digits <? digits))%nat
  then Raise ("Exceeds the limit (" +:+ pretty max_str_digits
              +:+ " digits) for integer string conversion: value has "
              +:+ pretty digits
              +:+ " digits; use sys.set_int_max_str_digits() to increase the limit")
  else Return (int_go 0 s).

(** Truth value of a string: [if s:]. *)
Definition truthy (s : string) : bool := negb (String.eqb s EmptyString).

(** Truth value of a value that is a string or [None]. *)
Definition truthy_opt (o : option string) : bool :=
  match o with
  | Some s => truthy s
  | None => false
  end.

(** [x or ""] for a value that is a string or [None]. *)
Definition or_empty (o : option string) : string :=
  match o with
  | Some s => if truthy s then s else EmptyString
  | None => EmptyString
  end.

(** [str(x)] inside an f-string, for a value that is a string or [None]. *)
Definition format_opt (o : option string) : string :=
  match o with
  | Some s => s
  | None => "None"
  end.

End Py.

(** ** The world the script runs in *)

(** What the shell did with one command line handed to [subprocess.run]:
    the process ran and exited, or the call raised some other [Exception]
    (the shell could not be spawned, the output could not be decoded). *)
Inductive proc :=
| Exited (returncode : Z) (out err : string)
| SpawnFailed (message : string).

(** [sock.connect_ex]: an error number (0: connected), or a raised exception. *)
Inductive conn :=
| Errno (code : Z)
| SocketError (message : string).

(** A [float]: the number [n] times 2 to the [e], the negative zero, an
    infinity, or the one not-a-number of the decoder. *)
Inductive float64 :=
| Finite (n e : Z)
| NegZero
| Infinite (negative : bool)
| NaN.

(** A value as [json.loads] returns it. *)
#[warnings="-register-all"] Inductive pyjson :=
| PyNone
| PyBool (b : bool)
| PyInt (n : Z)
| PyFloat (x : float64)
| PyStr (s : string)
| PyList (elements : list pyjson)
| PyDict (items : gmap string pyjson).

(** [type(v).__name__] *)
Definition type_name (v : pyjson) : string :=
  match v with
  | PyNone => "NoneType"
  | PyBool _ => "bool"
  | PyInt _ => "int"
  | PyFloat _ => "float"
  | PyStr _ => "str"
  | PyList _ => "list"
  | PyDict _ => "dict"
  end.

(** Truth value: [if v:]. *)
Definition truth (v : pyjson) : bool :=
  match v with
  | PyNone => false
  | PyBool b => b
  | PyInt n => negb (n =? 0)
  | PyFloat (Finite n _) => negb (n =? 0)
  | PyFloat NegZero => false
  | PyFloat (Infinite _) => true
  | PyFloat NaN => true
  | PyStr s => Py.truthy s
  | PyList elements => negb (length elements =? 0)%nat
  | PyDict items => negb (size items =? 0)%nat
  end.

(** The keys of a dict, up to the equality a dict takes them by: a string;
    a number by its value, whatever its type ([True], [1] and [1.0] are one
    key), written [n] times 2 to the [e] with [n] odd, or 0 and 0; an
    infinity; not-a-number; [None]. *)
Inductive pykey :=
| KNone
| KStr (s : string)
| KNum (n e : Z)
| KInf (negative : bool)
| KNaN.

#[global] Instance pykey_eq_dec : EqDecision pykey := ltac:(solve_decision).

#[global] Instance pykey_countable : Countable pykey :=
  inj_countable'
    (fun k => match k with
              | KNone => inl (inl tt)
              | KStr s => inl (inr s)
              | KNum n e => inr (inl (n, e))
              | KInf negative => inr (inr (Some negative))
              | KNaN => inr (inr None)
              end)
    (fun c => match c with
              | inl (inl _) => KNone
              | inl (inr s) => KStr s
              | inr (inl (n, e)) => KNum n e
              | inr (inr (Some negative)) => KInf negative
              | inr (inr None) => KNaN
              end)
    ltac:(intros []; reflexivity).

Fixpoint odd_part (p : positive) (e : Z) : positive * Z :=
  match p with
  | xO p' => odd_part p' (e + 1)
  | _ => (p, e)
  end.

Definition number_key (n e : Z) : pykey :=
  match n with
  | Z0 => KNum 0 0
  | Zpos p => let (q, e') := odd_part p e in KNum (Zpos q) e'
  | Zneg p => let (q, e') := odd_part p e in KNum (Zneg q) e'
  end.

(** The key [v] is in a dict; [None] when [hash(v)] raises [TypeError]:
    lists and dicts are not hashable. *)
Definition key_of (v : pyjson) : option pykey :=
  match v with
  | PyNone => Some KNone
  | PyBool b => Some (number_key (if b then 1 else 0) 0)
  | PyInt n => Some (number_key n 0)
  | PyFloat (Finite n e) => Some (number_key n e)
  | PyFloat NegZero => Some (number_key 0 0)
  | PyFloat (Infinite negative) => Some (KInf negative)
  | PyFloat NaN => Some KNaN
  | PyStr s => Some (KStr s)
  | PyList _ => None
  | PyDict _ => None
  end.

(** The text of the [AttributeError] for a method the value does not have. *)
Definition no_attribute (v : pyjson) (method : string) : string :=
  "'" +:+ type_name v +:+ "' object has no attribute '" +:+ method +:+ "'".

(** The text of the [TypeError] for a dict key that cannot be hashed. *)
Definition unhashable (v : pyjson) : string :=
  "unhashable type: '" +:+ type_name v +:+ "'".

Inductive decoded :=
| Loaded (value : pyjson)
| JSONDecodeError
| LoadFailed (message : string).

(** A path as [pathlib] keeps it: the anchor (root or drive) and the
    components below it. *)
Record Path := {
  anchor : string;
  parts : list string
}.

(** [p / child] *)
Definition joinpath (p : Path) (child : string) : Path :=
  {| anchor := anchor p; parts := (parts p ++ [child])%list |}.

(** [p.name] *)
Definition path_name (p : Path) : string := List.last (parts p) EmptyString.

Fixpoint join (sep : string) (parts : list string) : string :=
  match parts with
  | [] => EmptyString
  | [part] => part
  | part :: rest => part +:+ sep +:+ join sep rest
  end.

(** [str(p)] *)
Definition path_str (windows : bool) (p : Path) : string :=
  match anchor p, parts p with
  | EmptyString, [] => "."
  | root, components => root +:+ join (if windows then "\" else "/") components
  end.

(** The machine: every answer may depend on the commands run so far
    (latest first). *)
Record Host := {
  script_dir_of_file : Path;          (* Path(__file__).parent *)
  script_dir_parent : Path;           (* Path(__file__).parent.parent *)
  platform_system : string;           (* platform.system() *)
  shell : list string -> string -> proc;
  path_exists : list string -> Path -> bool;
  connect_ex : list string -> Z -> conn;
  json_loads : string -> decoded;
  int_max_str_digits : nat            (* sys.get_int_max_str_digits(), 0: no limit *)
}.

(** One read from the terminal: a line, or Ctrl-C at the prompt. *)
Inductive key :=
| Line (text : string)
| CtrlC.

Record World := {
  calls : list string;     (* commands handed to the shell, latest first *)
  printed : list string;   (* what the script wrote to stdout, latest first *)
  probed : list Z;         (* ports a socket was opened to, latest first *)
  stdin : list key         (* what the operator is still going to type *)
}.

Definition M (A : Type) : Type := World -> A * World.

Definition ret {A} (a : A) : M A := fun w => (a, w).

Definition bind {A B} (m : M A) (k : A -> M B) : M B :=
  fun w => let (a, w') := m w in k a w'.

Declare Scope io_scope.
Delimit Scope io_scope with io.
Notation "x <- c1 ;; c2" := (bind c1 (fun x => c2))
  (at level 100, c1 at next level, right associativity) : io_scope.
Notation "c1 ;; c2" := (bind c1 (fun _ => c2))
  (at level 100, right associativity) : io_scope.
Local Open Scope io_scope.

Definition print (line : string) : M unit :=
  fun w => (tt, {| calls := calls w; printed := line :: printed w;
                   probed := probed w; stdin := stdin w |}).

Definition when (b : bool) (m : M unit) : M unit := if b then m else ret tt.

Fixpoint for_each {A} (l : list A) (body : A -> M unit) : M unit :=
  match l with
  | [] => ret tt
  | x :: l' => body x;; for_each l' body
  end.

Fixpoint fold_each {A S} (l : list A) (s : S) (body : S -> A -> M S) : M S :=
  match l with
  | [] => ret s
  | x :: l' => s' <- body s x;; fold_each l' s' body
  end.

(** A loop whose body may raise: the exception ends it. *)
Fixpoint try_each {A} (l : list A) (body : A -> M (outcome unit)) : M (outcome unit) :=
  match l with
  | [] => ret (Return tt)
  | x :: l' =>
      r <- body x;;
      match r with
      | Return _ => try_each l' body
      | Raise e => ret (Raise e)
      end
  end.

Fixpoint try_fold {A S} (l : list A) (s : S) (body : S -> A -> M (outcome S))
  : M (outcome S) :=
  match l with
  | [] => ret (Return s)
  | x :: l' =>
      r <- body s x;;
      match r with
      | Return s' => try_fold l' s' body
      | Raise e => ret (Raise e)
      end
  end.

(** [input(prompt)]: the prompt goes to stdout; at the end of the input the
    call raises [EOFError]. *)
Inductive input_result :=
| Typed (text : string)
| KeyboardInterrupt
| EOFError.

Definition input (prompt : string) : M input_result :=
  fun w =>
    let out := prompt :: printed w in
    match stdin w with
    | [] => (EOFError, {| calls := calls w; printed := out;
                          probed := probed w; stdin := [] |})
    | Line text :: rest => (Typed text, {| calls := calls w; printed := out;
                                            probed := probed w; stdin := rest |})
    | CtrlC :: rest => (KeyboardInterrupt, {| calls := calls w; printed := out;
                                               probed := probed w; stdin := rest |})
    end.

(** ** subprocess.run *)

Inductive run_outcome :=
| Completed (returncode : Z) (stdout stderr : option string)
| CalledProcessError (returncode : Z) (stdout stderr : option string)
| OtherException (message : string).

(** Output that is not captured is [None]; with [check], a non-zero exit
    raises [CalledProcessError], which carries the same three values. *)
Definition subprocess_run (p : proc) (check capture_output : bool) : run_outcome :=
  match p with
  | Exited returncode out err =>
      let stdout := if capture_output then Some out else None in
      let stderr := if capture_output then Some err else None in
      if check && negb (returncode =? 0)
      then CalledProcessError returncode stdout stderr
      else Completed returncode stdout stderr
  | SpawnFailed message => OtherException message
  end.

(** ** class Colors *)

Module Colors.
Definition esc : string := String (ascii_of_nat 27) EmptyString.
Definition RED : string := esc +:+ "[0;31m".
Definition GREEN : string := esc +:+ "[0;32m".
Definition YELLOW : string := esc +:+ "[1;33m".
Definition BLUE : string := esc +:+ "[0;34m".
Definition PURPLE : string := esc +:+ "[0;35m".
Definition CYAN : string := esc +:+ "[0;36m".
Definition NC : string := esc +:+ "[0m".
End Colors.

(** ** class ServiceManager *)

Record ServiceManager := {
  script_dir : Path;
  project_root : Path;
  compose_file : Path;
  is_windows : bool;
  services : list (string * string);        (* key -> display name, in order *)
  service_mapping : gmap string string      (* container name -> key *)
}.

Definition registry : list (string * string) :=
  [ ("page-server", "Page Server (Next.js)");
    ("api-server", "API Server (FastAPI)");
    ("db-server", "Database Server (PostgreSQL)");
    ("nginx", "Nginx (Reverse Proxy)");
    ("redis", "Redis (Cache)") ].

Definition aliases : gmap string string :=
  list_to_map
    [ ("servers-page-server-1", "page-server");
      ("servers-api-server-1", "api-server");
      ("servers-db-server-1", "db-server");
      ("servers-nginx-1", "nginx");
      ("servers-redis-1", "redis") ].

(** [key in d] and [d[key]] on an ordered dict. *)
Definition has_key (d : list (string * string)) (k : string) : bool :=
  existsb (fun entry => String.eqb (fst entry) k) d.

Fixpoint item (d : list (string * string)) (k : string) : string :=
  match d with
  | [] => EmptyString
  | (k', v) :: d' => if String.eqb k' k then v else item d' k
  end.

Definition keys (d : list (string * string)) : list string := map fst d.

Definition status_words : list string := ["Up"; "Running"; "Started"].
Definition running_states : list string := ["up"; "running"; "started"].

(** [any(running_state in state.lower() for running_state in [...])] *)
Definition is_running (state : string) : bool :=
  existsb (fun running_state => Py.contains running_state (Py.lower state))
          running_states.

(** [any(status_word in line for status_word in [...])] *)
Definition has_status_word (line : string) : bool :=
  existsb (fun status_word => Py.contains status_word line) status_words.

Definition ports : list (Z * string) :=
  [ (80, "nginx");
    (5173, "page-server");
    (8002, "api-server");
    (15432, "db-server (외부)");
    (16379, "redis (외부)") ].

Definition rule : string := "==================================".

(** [ServiceManager.__init__] *)
Definition init (host : Host) : M ServiceManager :=
  let script_dir := script_dir_of_file host in
  let project_root := script_dir_parent host in
  let compose_file :=
    joinpath (joinpath project_root "servers") "docker-compose.dev.yml" in
  let is_windows := String.eqb (platform_system host) "Windows" in
  print ("📁 스크립트 디렉토리: " +:+ path_str is_windows script_dir);;
  print ("📁 프로젝트 루트: " +:+ path_str is_windows project_root);;
  print ("📁 Docker Compose 파일: " +:+ path_str is_windows compose_file);;
  print rule;;
  ret {| script_dir := script_dir;
         project_root := project_root;
         compose_file := compose_file;
         is_windows := is_windows;
         services := registry;
         service_mapping := aliases |}.

Section Methods.

Variable host : Host.
Variable self : ServiceManager.

(** [str(path)] in an f-string. *)
Definition fmt (p : Path) : string := path_str (is_windows self) p.

Definition exists_ (p : Path) : M bool :=
  fun w => (path_exists host (calls w) p, w).

(** The call of [subprocess.run]: the command reaches the shell and is
    logged, whatever comes of it. *)
Definition spawn (command : string) (check capture_output : bool) : M run_outcome :=
  fun w =>
    (subprocess_run (shell host (calls w) command) check capture_output,
     {| calls := command :: calls w; printed := printed w;
        probed := probed w; stdin := stdin w |}).

Definition run_command (command : string) (check capture_output : bool)
  : M (Z * option string * option string) :=
  outcome <- (if is_windows self
              then spawn command check capture_output
              else spawn command check capture_output);;
  match outcome with
  | Completed returncode stdout stderr => ret (returncode, stdout, stderr)
  | CalledProcessError returncode stdout stderr =>
      ret (returncode, Some (Py.or_empty stdout), Some (Py.or_empty stderr))
  | OtherException message => ret (-1, Some EmptyString, Some message)
  end.

Definition check_docker : M bool :=
  print "🔍 Docker 설치 및 실행 확인...";;
  r <- run_command "docker --version" false false;;
  let '(returncode, stdout, stderr) := r in
  if returncode =? 0 then
    print "✅ Docker 설치됨";;
    r <- run_command "docker info" false false;;
    let '(returncode, stdout, stderr) := r in
    if returncode =? 0 then
      print "✅ Docker 상태: 정상";;
      ret true
    else
      print "❌ Docker 서비스가 실행되지 않음";;
      ret false
  else
    print "❌ Docker가 설치되지 않음";;
    ret false.

Definition check_compose_file : M bool :=
  present <- exists_ (compose_file self);;
  if negb present then
    print ("❌ Docker Compose 파일을 찾을 수 없습니다: " +:+ fmt (compose_file self));;
    ret false
  else
    print ("✅ Docker Compose 파일 확인: " +:+ fmt (compose_file self));;
    ret true.

Definition compose (arguments : string) : string :=
  "docker compose -f " +:+ fmt (compose_file self) +:+ " " +:+ arguments.

(** The tail shared by build, run, stop, remove and down: success is exit
    code 0; otherwise the failure line and, if there is any, the error
    text. *)
Definition report (r : Z * option string * option string)
    (ok_line failed_line : string) : M bool :=
  let '(returncode, stdout, stderr) := r in
  if returncode =? 0 then
    print ok_line;;
    ret true
  else
    print failed_line;;
    when (Py.truthy_opt stderr) (print ("오류: " +:+ Py.format_opt stderr));;
    ret false.

Definition build_service (service : string) : M bool :=
  print ("🔨 " +:+ service +:+ " 빌드 중..");;
  let command := compose ("build " +:+ service) in
  r <- run_command command true false;;
  report r ("✅ " +:+ service +:+ " 빌드 완료") ("❌ " +:+ service +:+ " 빌드 실패").

Definition run_service (service : string) : M bool :=
  print ("🚀 " +:+ service +:+ " 실행 중..");;
  let command := compose ("up -d " +:+ service) in
  r <- run_command command true false;;
  report r ("✅ " +:+ service +:+ " 실행 완료") ("❌ " +:+ service +:+ " 실행 실패").

Definition stop_service (service : string) : M bool :=
  print ("🛑 " +:+ service +:+ " 중지 중..");;
  let command := compose ("stop " +:+ service) in
  r <- run_command command true false;;
  report r ("✅ " +:+ service +:+ " 중지 완료") ("❌ " +:+ service +:+ " 중지 실패").

Definition remove_service (service : string) : M bool :=
  print ("🗑️ " +:+ service +:+ " 제거 중..");;
  let command := compose ("rm -f " +:+ service) in
  r <- run_command command true false;;
  report r ("✅ " +:+ service +:+ " 제거 완료") ("❌ " +:+ service +:+ " 제거 실패").

(** The loop of the structured pass over the lines of [ps --format json].
    [json.JSONDecodeError] is caught inside the loop ([continue]); any other
    exception leaves the loop for the handler around it, with the entries
    made so far: [AttributeError] when the value decoded is not a dict and
    has no [get], [TypeError] when the service name cannot be a key.  The
    second component is that exception's text. *)
Fixpoint json_lines (lines : list string) (status : gmap pykey pyjson)
  : gmap pykey pyjson * option string :=
  match lines with
  | [] => (status, None)
  | line :: rest =>
      if Py.truthy (Py.strip line) then
        match json_loads host (Py.strip line) with
        | Loaded (PyDict container) =>
            let service_name := default (PyStr EmptyString) (container !! "Service") in
            let state := default (PyStr EmptyString) (container !! "State") in
            if truth service_name then
              match key_of service_name with
              | Some key => json_lines rest (<[key := state]> status)
              | None => (status, Some (unhashable service_name))
              end
            else json_lines rest status
        | Loaded other => (status, Some (no_attribute other "get"))
        | JSONDecodeError => json_lines rest status
        | LoadFailed message => (status, Some message)
        end
      else json_lines rest status
  end.

(** The body of the loop of the plain-text pass. *)
Definition text_line (status : gmap pykey pyjson) (line : string)
  : gmap pykey pyjson :=
  if Py.truthy (Py.strip line) then
    let parts := Py.split line in
    if (2 <=? length parts)%nat then
      let service_name := hd EmptyString parts in
      if has_status_word line then
        match service_mapping self !! service_name with
        | Some mapped_key => <[KStr mapped_key := PyStr "Up"]> status
        | None => <[KStr service_name := PyStr "Up"]> status
        end
      else status
    else status
  else status.

Definition text_lines (lines : list string) (status : gmap pykey pyjson)
  : gmap pykey pyjson :=
  fold_left text_line lines status.

Definition lines_of (stdout : string) : list string :=
  Py.split_on Py.newline (Py.strip stdout).

(** [if not status] *)
Definition is_empty (status : gmap pykey pyjson) : bool :=
  (size status =? 0)%nat.

(** Method 1 of [get_service_status]: the structured pass. *)
Definition structured_pass : M (gmap pykey pyjson) :=
  let command := compose "ps --format json" in
  r <- run_command command true true;;
  let '(returncode, stdout, stderr) := r in
  if (returncode =? 0) && Py.truthy_opt stdout then
    (* stdout is a string here, and not empty *)
    let '(status, raised) := json_lines (lines_of (Py.or_empty stdout)) ∅ in
    match raised with
    | Some e => print ("⚠️ JSON 파싱 오류: " +:+ e);; ret status
    | None => ret status
    end
  else ret ∅.

(** The fallback of [get_service_status]: the plain-text pass. *)
Definition text_pass (status : gmap pykey pyjson) : M (gmap pykey pyjson) :=
  print "📋 일반 형식으로 서비스 상태 확인 중..";;
  let command := compose "ps" in
  r <- run_command command true true;;
  let '(returncode, stdout, stderr) := r in
  if (returncode =? 0) && Py.truthy_opt stdout
  then ret (text_lines (tl (lines_of (Py.or_empty stdout))) status)
  else ret status.

Definition get_service_status : M (gmap pykey pyjson) :=
  print "🔍 서비스 상태 확인 중..";;
  status <- structured_pass;;
  if is_empty status then text_pass status else ret status.

(** The line [show_service_status] prints for one registered service.  A
    state that is not a [str] has no [lower]: the call raises. *)
Definition status_line (status : gmap pykey pyjson)
    (entry : string * string) : outcome string :=
  let '(service, service_name) := entry in
  match status !! KStr service with
  | Some (PyStr state) =>
      Return (if is_running state
              then "✅ " +:+ service_name +:+ ": " +:+ state
              else "❌ " +:+ service_name +:+ ": " +:+ state)
  | Some state => Raise (no_attribute state "lower")
  | None => Return ("⏸️ " +:+ service_name +:+ ": 중지됨")
  end.

(** [show_service_status], from the status on. *)
Definition show_status (status : gmap pykey pyjson) : M (outcome unit) :=
  print "📋 서비스 상태:";;
  print rule;;
  shown <- try_each (services self) (fun entry =>
             match status_line status entry with
             | Return line => print line;; ret (Return tt)
             | Raise e => ret (Raise e)
             end);;
  match shown with
  | Return _ => print rule;; ret (Return tt)
  | Raise e => ret (Raise e)
  end.

Definition show_service_status : M (outcome unit) :=
  status <- get_service_status;;
  show_status status.

Definition stop_all_services : M bool :=
  print "🛑 모든 서비스 중지 중..";;
  let command := compose "down --remove-orphans" in
  r <- run_command command true false;;
  report r "✅ 모든 서비스 중지 완료" "❌ 서비스 중지 실패".

Definition required_files : list Path :=
  [ joinpath (joinpath (project_root self) "servers") "docker-compose.dev.yml";
    joinpath (joinpath (joinpath (project_root self) "servers") "page_server")
             "Dockerfile.dev";
    joinpath (joinpath (joinpath (project_root self) "servers") "api_server")
             "pyproject.toml";
    joinpath (joinpath (joinpath (joinpath (project_root self) "servers")
                                 "page_server") "nginx") "nginx.conf" ].

(** The loop over the required files; [false] is the early [return False]. *)
Fixpoint check_files (files : list Path) : M bool :=
  match files with
  | [] => ret true
  | file_path :: rest =>
      present <- exists_ file_path;;
      if present then
        print ("✅ " +:+ path_name file_path +:+ " 존재");;
        check_files rest
      else
        print ("❌ " +:+ path_name file_path +:+ " 없음");;
        ret false
  end.

Definition test_basic_environment : M bool :=
  print "🧪 기본 환경 테스트 시작...";;
  print rule;;
  print "📁 파일 구조 테스트 중..";;
  files_ok <- check_files required_files;;
  if files_ok then
    print "🔍 Docker Compose 문법 테스트 중..";;
    let command := compose "config" in
    r <- run_command command false false;;
    let '(returncode, stdout, stderr) := r in
    if returncode =? 0 then
      print "✅ Docker Compose 문법 정상";;
      print rule;;
      print "✅ 기본 환경 테스트 완료";;
      ret true
    else
      print "❌ Docker Compose 문법 오류";;
      when (Py.truthy_opt stderr) (print ("오류: " +:+ Py.format_opt stderr));;
      ret false
  else ret false.

(** [service in status and any(... in status[service].lower() ...)] *)
Definition reported_up (status : gmap pykey pyjson) (service : string) : outcome bool :=
  match status !! KStr service with
  | Some (PyStr state) => Return (is_running state)
  | Some state => Raise (no_attribute state "lower")
  | None => Return false
  end.

(** One socket: created, given a timeout of one second, connected, closed. *)
Definition probe (port : Z) : M conn :=
  fun w =>
    (connect_ex host (calls w) port,
     {| calls := calls w; printed := printed w;
        probed := port :: probed w; stdin := stdin w |}).

Definition test_port (entry : Z * string) : M unit :=
  let '(port, service_name) := entry in
  result <- probe port;;
  match result with
  | Errno code =>
      if code =? 0
      then print ("✅ " +:+ service_name +:+ " (포트 " +:+ pretty port +:+ ") 연결됨")
      else print ("❌ " +:+ service_name +:+ " (포트 " +:+ pretty port +:+ ") 연결 실패")
  | SocketError e =>
      print ("⚠️ " +:+ service_name +:+ " (포트 " +:+ pretty port +:+ ") 테스트 오류: " +:+ e)
  end.

Definition test_services : M (outcome bool) :=
  print "🧪 서비스 테스트 시작...";;
  print rule;;
  print "🔍 컨테이너 상태 테스트 중..";;
  status <- get_service_status;;
  print "📋 각 서비스 상태:";;
  checked <-
    try_fold (keys (services self)) true (fun all_running service =>
      match reported_up status service with
      | Return true =>
          print ("✅ " +:+ service +:+ " 실행 중");;
          ret (Return all_running)
      | Return false =>
          print ("❌ " +:+ service +:+ " 실행 실패");;
          ret (Return false)
      | Raise e => ret (Raise e)
      end);;
  match checked with
  | Raise e => ret (Raise e)
  | Return all_running =>
      if negb all_running then
        print "❌ 일부 서비스 실행 실패";;
        ret (Return false)
      else
        print rule;;
        print "🔍 포트 연결 테스트 중..";;
        for_each ports test_port;;
        print rule;;
        print "✅ 서비스 테스트 완료";;
        ret (Return true)
  end.

(** In both bring-up workflows, what the service check after the start
    returns only decides the warning; what it raises goes up. *)
Definition run_all_services : M (outcome bool) :=
  print "🚀 전체 서비스 실행 중..";;
  print "🧪 기본 환경 테스트 실행 중..";;
  env_ok <- test_basic_environment;;
  if negb env_ok then
    print "❌ 기본 환경 테스트 실패 - 실행을 중단합니다";;
    ret (Return false)
  else
    print "🔨 전체 서비스 빌드 중..";;
    built <- build_service EmptyString;;
    if negb built then
      print "❌ 전체 서비스 빌드 실패";;
      ret (Return false)
    else
      print "🚀 전체 서비스 실행 중..";;
      started <- run_service EmptyString;;
      if negb started then
        print "❌ 전체 서비스 실행 실패";;
        ret (Return false)
      else
        print "🔍 서비스 실행 상태 확인 중..";;
        tested <- test_services;;
        match tested with
        | Raise e => ret (Raise e)
        | Return tested =>
            when (negb tested) (print "⚠️ 일부 서비스 테스트 실패 - 로그를 확인하세요");;
            print "✅ 전체 서비스 실행 완료";;
            ret (Return true)
        end.

Definition run_single_service (service : string) : M (outcome bool) :=
  if negb (has_key (services self) service) then
    print ("❌ 알 수 없는 서비스: " +:+ service);;
    ret (Return false)
  else
    let service_name := item (services self) service in
    print ("🚀 " +:+ service_name +:+ " 실행 중..");;
    print "🧪 기본 환경 테스트 실행 중..";;
    env_ok <- test_basic_environment;;
    if negb env_ok then
      print "❌ 기본 환경 테스트 실패 - 실행을 중단합니다";;
      ret (Return false)
    else
      built <- build_service service;;
      if negb built then ret (Return false)
      else
        started <- run_service service;;
        if negb started then ret (Return false)
        else
          print "🔍 서비스 실행 상태 확인 중..";;
          tested <- test_services;;
          match tested with
          | Raise e => ret (Raise e)
          | Return tested =>
              when (negb tested) (print "⚠️ 일부 서비스 테스트 실패 - 로그를 확인하세요");;
              ret (Return true)
          end.

Definition show_logs (service : option string) : M unit :=
  command <-
    (if Py.truthy_opt service then
       print ("📋 " +:+ Py.format_opt service +:+ " 로그:");;
       ret (compose ("logs --tail=20 " +:+ Py.format_opt service))
     else
       print "📋 전체 서비스 로그:";;
       ret (compose "logs --tail=20"));;
  r <- run_command command true true;;
  let '(returncode, stdout, stderr) := r in
  if (returncode =? 0) && Py.truthy_opt stdout then
    print (Py.format_opt stdout)
  else
    print "❌ 로그를 가져올 수 없습니다";;
    when (Py.truthy_opt stderr) (print ("오류: " +:+ Py.format_opt stderr)).

(** [enumerate(self.services.items(), 1)], printed. *)
Fixpoint print_numbered (i : Z) (entries : list (string * string)) : M unit :=
  match entries with
  | [] => ret tt
  | (service, service_name) :: rest =>
      print (pretty i +:+ ". " +:+ service_name);;
      print_numbered (i + 1) rest
  end.

Definition eof_message : string := "EOF when reading a line".

(** [show_service_selection_menu].  Whatever is raised inside its [try] is
    reported there: [ValueError] from [int], [IndexError] from the list,
    what the workflow raises, [EOFError] at the prompt. *)
Definition show_service_selection_menu : M unit :=
  print (Colors.CYAN +:+ "📋 서비스 선택:" +:+ Colors.NC);;
  print rule;;
  print_numbered 1 (services self);;
  print "0. 뒤로 가기";;
  print rule;;
  typed <- input "선택하세요 (0-5): ";;
  match typed with
  | Typed text =>
      let choice := Py.strip text in
      if String.eqb choice "0" then ret tt
      else if Py.isdigit choice then
        match Py.int (int_max_str_digits host) choice with
        | Return number =>
            if (1 <=? number) && (number <=? 5) then
              let service_list := keys (services self) in
              match nth_error service_list (Z.to_nat (number - 1)) with
              | Some selected_service =>
                  r <- run_single_service selected_service;;
                  match r with
                  | Return _ => ret tt
                  | Raise e => print ("❌ 오류가 발생했습니다: " +:+ e)
                  end
              | None => print ("❌ 오류가 발생했습니다: " +:+ "list index out of range")
              end
            else print "❌ 잘못된 선택입니다."
        | Raise e => print ("❌ 오류가 발생했습니다: " +:+ e)
        end
      else print "❌ 잘못된 선택입니다."
  | KeyboardInterrupt => print (String Py.newline "뒤로 돌아갑니다.")
  | EOFError => print ("❌ 오류가 발생했습니다: " +:+ eof_message)
  end.

Fixpoint repeat_string (s : string) (n : nat) : string :=
  match n with
  | O => EmptyString
  | S n' => s +:+ repeat_string s n'
  end.

(** A call whose value is not used. *)
Definition discard {A} (r : outcome A) : outcome unit :=
  match r with
  | Return _ => Return tt
  | Raise e => Raise e
  end.

(** What a menu choice other than "0" runs. *)
Definition menu_action (choice : string) : M (outcome unit) :=
  if String.eqb choice "1" then r <- run_all_services;; ret (discard r)
  else if String.eqb choice "2" then show_service_selection_menu;; ret (Return tt)
  else if String.eqb choice "3" then show_service_status
  else if String.eqb choice "4" then r <- test_services;; ret (discard r)
  else if String.eqb choice "5" then show_logs None;; ret (Return tt)
  else if String.eqb choice "6" then _ <- stop_all_services;; ret (Return tt)
  else print "❌ 잘못된 선택입니다. 다시 선택해주세요.";; ret (Return tt).

Definition print_menu : M unit :=
  print (Colors.CYAN +:+ "🏥 병원 근무자 관리 시스템 서비스 운영" +:+ Colors.NC);;
  print rule;;
  print (Colors.YELLOW +:+ "📋 메뉴 선택:" +:+ Colors.NC);;
  print "1. 전체 서비스 실행";;
  print "2. 개별 서비스 실행";;
  print "3. 서비스 상태 확인";;
  print "4. 서비스 테스트";;
  print "5. 서비스 로그 확인";;
  print "6. 모든 서비스 중지";;
  print "0. 종료";;
  print rule.

(** How one turn of a [while True] loop ends. *)
Inductive turn :=
| Break
| Continue.

Definition interrupted : M turn :=
  print (String Py.newline (String Py.newline "👋 프로그램을 종료합니다."));;
  ret Break.

(** One turn of the loop of [show_menu].  [KeyboardInterrupt] leaves the
    loop; any [Exception] is reported and the loop goes on: [EOFError] at a
    prompt, and what the chosen operation raises, which skips the wait for
    Enter. *)
Definition menu_turn : M turn :=
  print_menu;;
  typed <- input "선택하세요 (0-6): ";;
  match typed with
  | Typed text =>
      let choice := Py.strip text in
      if String.eqb choice "0" then
        print "👋 프로그램을 종료합니다.";;
        ret Break
      else
        done <- menu_action choice;;
        match done with
        | Raise e =>
            print ("❌ 오류가 발생했습니다: " +:+ e);;
            ret Continue
        | Return _ =>
            typed <- input (String Py.newline "계속하려면 Enter를 누르세요...");;
            match typed with
            | Typed _ =>
                print (String Py.newline
                         (repeat_string "=" 50 +:+ String Py.newline EmptyString));;
                ret Continue
            | KeyboardInterrupt => interrupted
            | EOFError =>
                print ("❌ 오류가 발생했습니다: " +:+ eof_message);;
                ret Continue
            end
        end
  | KeyboardInterrupt => interrupted
  | EOFError =>
      print ("❌ 오류가 발생했습니다: " +:+ eof_message);;
      ret Continue
  end.

(** [show_menu]: the [while True] loop, one turn per unit of fuel; [None]
    is a loop still running when the fuel is spent. *)
Fixpoint show_menu (fuel : nat) : M (option unit) :=
  match fuel with
  | O => ret None
  | S fuel' =>
      next <- menu_turn;;
      match next with
      | Break => ret (Some tt)
      | Continue => show_menu fuel'
      end
  end.

End Methods.

(** ** main *)

(** The namespace [parser.parse_args()] returns. *)
Record Args := {
  all : bool;
  page_server : bool;
  api_server : bool;
  db_server : bool;
  nginx : bool;
  redis : bool;
  stop : bool;
  status : bool;
  logs : bool
}.

(** What [parser.parse_args()] does with the command line: it returns the
    namespace, or it ends the process ([SystemExit]): with status 0 after
    writing the help text to stdout, or with status 2 after a usage error
    (the message goes to stderr). *)
Inductive parsed :=
| Namespace (args : Args)
| Help (text : string)
| UsageError.

(** The status of a process whose [main] returned, or let an exception go
    (the interpreter prints the traceback and exits with 1). *)
Definition exit_status {A} (r : outcome A) : Z :=
  match r with
  | Return _ => 0
  | Raise _ => 1
  end.

(** [main].  The result is the status the process exits with; [None] when
    the menu is still running after [fuel] turns. *)
Definition main (host : Host) (cli : parsed) (fuel : nat) : M (option Z) :=
  match cli with
  | Help text => print text;; ret (Some 0)
  | UsageError => ret (Some 2)
  | Namespace args =>
      manager <- init host;;
      docker_ok <- check_docker host manager;;
      if negb docker_ok then
        print "❌ Docker가 실행되지 않았습니다. Docker를 시작한 후 다시 시도해주세요.";;
        ret (Some 1)
      else
        compose_ok <- check_compose_file host manager;;
        if negb compose_ok then
          print "❌ Docker Compose 파일을 찾을 수 없습니다.";;
          ret (Some 1)
        else if all args then
          r <- run_all_services host manager;; ret (Some (exit_status r))
        else if page_server args then
          r <- run_single_service host manager "page-server";; ret (Some (exit_status r))
        else if api_server args then
          r <- run_single_service host manager "api-server";; ret (Some (exit_status r))
        else if db_server args then
          r <- run_single_service host manager "db-server";; ret (Some (exit_status r))
        else if nginx args then
          r <- run_single_service host manager "nginx";; ret (Some (exit_status r))
        else if redis args then
          r <- run_single_service host manager "redis";; ret (Some (exit_status r))
        else if stop args then
          _ <- stop_all_services host manager;; ret (Some 0)
        else if status args then
          r <- show_service_status host manager;; ret (Some (exit_status r))
        else if logs args then
          show_logs host manager None;; ret (Some 0)
        else
          left <- show_menu host manager fuel;;
          match left with
          | Some _ => ret (Some 0)
          | None => ret None
          end
  end.

(** ** A decoder and a machine to run the model on

    [Json.loads] reads JSON text as [json.loads] does, for the examples:
    objects, arrays, strings with their escapes, numbers and the literals.
    It takes integers of any length and nesting of any depth; the
    statements that hold for every [Host] do not depend on it. *)

Module Json.

Definition quote : ascii := ascii_of_nat 34.
Definition backslash : ascii := ascii_of_nat 92.

Definition is_ws (c : ascii) : bool :=
  let n := nat_of_ascii c in
  ((n =? 32) || (n =? 9) || (n =? 10) || (n =? 13))%nat.

Fixpoint skip_ws (s : string) : string :=
  match s with
  | String c s' => if is_ws c then skip_ws s' else s
  | EmptyString => EmptyString
  end.

Definition unescape (c : ascii) : option ascii :=
  let n := nat_of_ascii c in
  if (n =? 34)%nat then Some c               (* quote *)
  else if (n =? 92)%nat then Some c          (* backslash *)
  else if (n =? 47)%nat then Some c          (* slash *)
  else if (n =? 98)%nat then Some (ascii_of_nat 8)
  else if (n =? 102)%nat then Some (ascii_of_nat 12)
  else if (n =? 110)%nat then Some (ascii_of_nat 10)
  else if (n =? 114)%nat then Some (ascii_of_nat 13)
  else if (n =? 116)%nat then Some (ascii_of_nat 9)
  else None.

Definition hex_digit (c : ascii) : option Z :=
  let n := Z.of_nat (nat_of_ascii c) in
  if (48 <=? n) && (n <=? 57) then Some (n - 48)
  else if (65 <=? n) && (n <=? 70) then Some (n - 55)
  else if (97 <=? n) && (n <=? 102) then Some (n - 87)
  else None.

(** Four hexadecimal digits at the head of [s], and what follows them. *)
Definition hex4 (s : string) : option (Z * string) :=
  match s with
  | String a (String b (String c (String d rest))) =>
      match hex_digit a, hex_digit b, hex_digit c, hex_digit d with
      | Some x, Some y, Some z, Some t => Some (((x * 16 + y) * 16 + z) * 16 + t, rest)
      | _, _, _, _ => None
      end
  | _ => None
  end.

Definition byte (n : Z) : string := String (ascii_of_nat (Z.to_nat n)) EmptyString.

(** The UTF-8 bytes of a code point. *)
Definition utf8 (cp : Z) : string :=
  if cp <? 128 then byte cp
  else if cp <? 2048 then byte (192 + cp / 64) +:+ byte (128 + cp mod 64)
  else if cp <? 65536 then
    byte (224 + cp / 4096) +:+ byte (128 + (cp / 64) mod 64) +:+ byte (128 + cp mod 64)
  else
    byte (240 + cp / 262144) +:+ byte (128 + (cp / 4096) mod 64)
      +:+ byte (128 + (cp / 64) mod 64) +:+ byte (128 + cp mod 64).

(** The character a [\u] escape stands for, from its four digits on; a
    high surrogate takes the low surrogate escaped right after it. *)
Definition escaped_unit (s : string) : option (string * string) :=
  match hex4 s with
  | Some (unit, rest) =>
      if (55296 <=? unit) && (unit <=? 56319) then
        match rest with
        | String b (String u rest') =>
            if Ascii.eqb b backslash && Ascii.eqb u "u"%char then
              match hex4 rest' with
              | Some (low, rest'') =>
                  if (56320 <=? low) && (low <=? 57343)
                  then Some (utf8 (65536 + (unit - 55296) * 1024 + (low - 56320)), rest'')
                  else Some (utf8 unit, rest)
              | None => Some (utf8 unit, rest)
              end
            else Some (utf8 unit, rest)
        | _ => Some (utf8 unit, rest)
        end
      else Some (utf8 unit, rest)
  | None => None
  end.

(** The text of a string after its opening quote, and what follows the
    closing one. *)
Fixpoint string_body (fuel : nat) (s : string) : option (string * string) :=
  match fuel with
  | O => None
  | S fuel' =>
      match s with
      | EmptyString => None
      | String c rest =>
          if Ascii.eqb c quote then Some (EmptyString, rest)
          else if Ascii.eqb c backslash then
            match rest with
            | String e rest' =>
                if Ascii.eqb e "u"%char then
                  match escaped_unit rest' with
                  | Some (bytes, rest'') =>
                      match string_body fuel' rest'' with
                      | Some (text, after) => Some (bytes +:+ text, after)
                      | None => None
                      end
                  | None => None
                  end
                else
                  match unescape e, string_body fuel' rest' with
                  | Some c', Some (text, after) => Some (String c' text, after)
                  | _, _ => None
                  end
            | EmptyString => None
            end
          else if (nat_of_ascii c <? 32)%nat then None
          else match string_body fuel' rest with
               | Some (text, after) => Some (String c text, after)
               | None => None
               end
      end
  end.

Fixpoint digits (s : string) : string * string :=
  match s with
  | String c s' =>
      if Py.is_digit c then let (ds, after) := digits s' in (String c ds, after)
      else (EmptyString, s)
  | EmptyString => (EmptyString, EmptyString)
  end.

(** An optional minus, then 0 or a digit from 1 to 9 and more digits: the
    sign and the digits. *)
Definition integer_part (s : string) : option (bool * string * string) :=
  let (negative, s1) :=
    match s with
    | String "-"%char s' => (true, s')
    | _ => (false, s)
    end in
  match s1 with
  | String "0"%char s2 => Some (negative, "0", s2)
  | _ => let (ds, s2) := digits s1 in
         if Py.truthy ds then Some (negative, ds, s2) else None
  end.

(** Optionally, a point and digits: the digits. *)
Definition fraction_part (s : string) : string * string :=
  match s with
  | String "."%char s' =>
      let (ds, after) := digits s' in
      if Py.truthy ds then (ds, after) else (EmptyString, s)
  | _ => (EmptyString, s)
  end.

(** Optionally, e or E, a sign and digits: the exponent. *)
Definition exponent_part (s : string) : option Z * string :=
  match s with
  | String e s' =>
      if Ascii.eqb e "e"%char || Ascii.eqb e "E"%char then
        let (negative, s1) :=
          match s' with
          | String "-"%char s'' => (true, s'')
          | String "+"%char s'' => (false, s'')
          | _ => (false, s')
          end in
        let (ds, after) := digits s1 in
        if Py.truthy ds
        then (Some (if negative then - Py.int_go 0 ds else Py.int_go 0 ds), after)
        else (None, s)
      else (None, s)
  | EmptyString => (None, s)
  end.

(** The [float] nearest to [coefficient] times 10 to the [exponent], a tie
    going to the even one: what [float] makes of a decimal. *)
Definition decimal_float (negative : bool) (coefficient exponent : Z) : float64 :=
  let zero := if negative then NegZero else Finite 0 0 in
  let magnitude := Z.of_nat (String.length (pretty coefficient)) + exponent in
  if coefficient =? 0 then zero
  else if magnitude <? -330 then zero
  else if 310 <? magnitude then Infinite negative
  else
    let num := if 0 <=? exponent then coefficient * 10 ^ exponent else coefficient in
    let den := if 0 <=? exponent then 1 else 10 ^ (- exponent) in
    let reaches (b : Z) :=
      if 0 <=? b then den * 2 ^ b <=? num else den <=? num * 2 ^ (- b) in
    let b0 := Z.log2 num - Z.log2 den in
    let b := if reaches b0 then b0 else b0 - 1 in
    let e := Z.max (b - 52) (-1074) in
    let scaled := if 0 <=? e then num else num * 2 ^ (- e) in
    let unit := if 0 <=? e then den * 2 ^ e else den in
    let q := scaled / unit in
    let r := scaled mod unit in
    let nearest :=
      if (unit <? 2 * r) || ((unit =? 2 * r) && Z.odd q) then q + 1 else q in
    if nearest =? 0 then zero
    else if 1024 <=? Z.log2 nearest + e then Infinite negative
    else Finite (if negative then - nearest else nearest) e.

Definition number (s : string) : option (pyjson * string) :=
  match integer_part s with
  | Some (negative, int, s1) =>
      let (frac, s2) := fraction_part s1 in
      let (exp, s3) := exponent_part s2 in
      match Py.truthy frac, exp with
      | false, None =>
          Some (PyInt (if negative then - Py.int_go 0 int else Py.int_go 0 int), s3)
      | _, _ =>
          Some (PyFloat (decimal_float negative (Py.int_go 0 (int +:+ frac))
                           (default 0 exp - Z.of_nat (String.length frac))), s3)
      end
  | None => None
  end.

Definition literal (s : string) : option (pyjson * string) :=
  if Py.startswith "null" s then Some (PyNone, String.substring 4 (String.length s - 4) s)
  else if Py.startswith "true" s then Some (PyBool true, String.substring 4 (String.length s - 4) s)
  else if Py.startswith "false" s then Some (PyBool false, String.substring 5 (String.length s - 5) s)
  else if Py.startswith "NaN" s then Some (PyFloat NaN, String.substring 3 (String.length s - 3) s)
  else if Py.startswith "Infinity" s then Some (PyFloat (Infinite false), String.substring 8 (String.length s - 8) s)
  else if Py.startswith "-Infinity" s then Some (PyFloat (Infinite true), String.substring 9 (String.length s - 9) s)
  else number s.

(** A value at the head of [s] (no white space before it), and the rest. *)
Fixpoint value (fuel : nat) (s : string) : option (pyjson * string) :=
  match fuel with
  | O => None
  | S fuel' =>
      match s with
      | String "{"%char rest =>
          match skip_ws rest with
          | String "}"%char after => Some (PyDict ∅, after)
          | inner => members fuel' inner ∅
          end
      | String "["%char rest =>
          match skip_ws rest with
          | String "]"%char after => Some (PyList [], after)
          | inner => elements fuel' inner []
          end
      | String c rest =>
          if Ascii.eqb c quote then
            match string_body (String.length rest) rest with
            | Some (text, after) => Some (PyStr text, after)
            | None => None
            end
          else literal s
      | EmptyString => None
      end
  end

(** The elements of an array from the head of one on, up to the bracket. *)
with elements (fuel : nat) (s : string) (seen : list pyjson) : option (pyjson * string) :=
  match fuel with
  | O => None
  | S fuel' =>
      match value fuel' s with
      | Some (v, after) =>
          match skip_ws after with
          | String ","%char more => elements fuel' (skip_ws more) (v :: seen)
          | String "]"%char more => Some (PyList (rev (v :: seen)), more)
          | _ => None
          end
      | None => None
      end
  end

(** The members of an object from the head of a key on, up to the brace; a
    later member replaces an earlier one of the same name. *)
with members (fuel : nat) (s : string) (seen : gmap string pyjson)
  : option (pyjson * string) :=
  match fuel with
  | O => None
  | S fuel' =>
      match s with
      | String c rest =>
          if Ascii.eqb c quote then
            match string_body (String.length rest) rest with
            | Some (name, after) =>
                match skip_ws after with
                | String ":"%char more =>
                    match value fuel' (skip_ws more) with
                    | Some (v, after') =>
                        match skip_ws after' with
                        | String ","%char more' =>
                            members fuel' (skip_ws more') (<[name := v]> seen)
                        | String "}"%char more' =>
                            Some (PyDict (<[name := v]> seen), more')
                        | _ => None
                        end
                    | None => None
                    end
                | _ => None
                end
            | None => None
            end
          else None
      | EmptyString => None
      end
  end.

Definition loads (s : string) : decoded :=
  match value (2 * String.length s + 2) (skip_ws s) with
  | Some (v, after) =>
      match skip_ws after with
      | EmptyString => Loaded v
      | _ => JSONDecodeError
      end
  | None => JSONDecodeError
  end.

End Json.

(** The script started as [python scripts/ensure_services_operated.py] from
    the project root, on Linux, with [Json.loads] as its decoder and the
    interpreter's usual limit on the digits of an integer. *)
Module Sample.

Definition machine (answer : list string -> string -> proc)
    (present : Path -> bool) (connect : Z -> conn) : Host :=
  {| script_dir_of_file := {| anchor := EmptyString; parts := ["scripts"] |};
     script_dir_parent := {| anchor := EmptyString; parts := [] |};
     platform_system := "Linux";
     shell := answer;
     path_exists := fun _ => present;
     connect_ex := fun _ => connect;
     json_loads := Json.loads;
     int_max_str_digits := 4300 |}.

(** What [ServiceManager()] is on that machine. *)
Definition manager : ServiceManager :=
  {| script_dir := {| anchor := EmptyString; parts := ["scripts"] |};
     project_root := {| anchor := EmptyString; parts := [] |};
     compose_file :=
       {| anchor := EmptyString; parts := ["servers"; "docker-compose.dev.yml"] |};
     is_windows := false;
     services := registry;
     service_mapping := aliases |}.

(** A world in which nothing has happened yet, with the keys to be typed. *)
Definition fresh (keys : list key) : World :=
  {| calls := []; printed := []; probed := []; stdin := keys |}.

Definition ps_json : string :=
  "docker compose -f servers/docker-compose.dev.yml ps --format json".
Definition ps_text : string :=
  "docker compose -f servers/docker-compose.dev.yml ps".
Definition logs_all : string :=
  "docker compose -f servers/docker-compose.dev.yml logs --tail=20".

Definition q : string := String Json.quote EmptyString.
Definition nl : string := String Py.newline EmptyString.

(** One line of [ps --format json]: an object with the two fields. *)
Definition container (service state : string) : string :=
  "{" +:+ q +:+ "Service" +:+ q +:+ ":" +:+ q +:+ service +:+ q +:+ ","
      +:+ q +:+ "State" +:+ q +:+ ":" +:+ q +:+ state +:+ q +:+ "}".

(** A machine on which every command exits with code 0 and prints
    [output], every file is there and every port answers. *)
Definition obliging (output : string) : Host :=
  machine (fun _ _ => Exited 0 output EmptyString) (fun _ => true) (fun _ => Errno 0).

(** A machine on which the two [ps] commands print what is given and every
    other command exits with [code]. *)
Definition with_ps (json text : string) (code : Z) : Host :=
  machine (fun _ command =>
             if String.eqb command ps_json then Exited 0 json EmptyString
             else if String.eqb command ps_text then Exited 0 text EmptyString
             else Exited code EmptyString EmptyString)
          (fun _ => true) (fun _ => Errno 111).

(** A machine with the orchestrator installed and running, on which every
    [docker compose] command fails. *)
Definition broken : Host :=
  machine (fun _ command =>
             if String.eqb command "docker --version" || String.eqb command "docker info"
             then Exited 0 EmptyString EmptyString
             else Exited 1 EmptyString "no configuration file provided: not found")
          (fun _ => true) (fun _ => Errno 111).

(** No flag on the command line, [--all], and [--status]. *)
Definition no_flag : Args :=
  {| all := false; page_server := false; api_server := false; db_server := false;
     nginx := false; redis := false; stop := false; status := false; logs := false |}.

Definition flag_all : Args :=
  {| all := true; page_server := false; api_server := false; db_server := false;
     nginx := false; redis := false; stop := false; status := false; logs := false |}.


(** One line of [ps --format json] whose service name is a list. *)
Definition listed_service (service state : string) : string :=
  "{" +:+ q +:+ "Service" +:+ q +:+ ":[" +:+ q +:+ service +:+ q +:+ "],"
      +:+ q +:+ "State" +:+ q +:+ ":" +:+ q +:+ state +:+ q +:+ "}".

(** One line of [ps --format json] with a state that is not a string, as
    an orchestrator that counts its states might print it. *)
Definition numbered_state (service : string) (state : Z) : string :=
  "{" +:+ q +:+ "Service" +:+ q +:+ ":" +:+ q +:+ service +:+ q +:+ ","
      +:+ q +:+ "State" +:+ q +:+ ":" +:+ pretty state +:+ "}".

End Sample.

(** ** Vocabulary of the statements *)

(** The world after one more printed line. *)
Definition say (line : string) (w : World) : World := snd (print line w).

(** The world after a command was handed to the shell. *)
Definition logged (command : string) (w : World) : World :=
  {| calls := command :: calls w; printed := printed w;
     probed := probed w; stdin := stdin w |}.

(** The triple [run_command] makes of what [subprocess.run] did. *)
Definition triple (outcome : run_outcome) : Z * option string * option string :=
  match outcome with
  | Completed returncode stdout stderr => (returncode, stdout, stderr)
  | CalledProcessError returncode stdout stderr =>
      (returncode, Some (Py.or_empty stdout), Some (Py.or_empty stderr))
  | OtherException message => (-1, Some EmptyString, Some message)
  end.

(** The process ran and exited with code 0. *)
Definition exits_0 (p : proc) : bool :=
  match p with
  | Exited returncode _ _ => returncode =? 0
  | SpawnFailed _ => false
  end.

(** Some workflow was selected on the command line. *)
Definition selected (args : Args) : bool :=
  all args || page_server args || api_server args || db_server args || nginx args
  || redis args || stop args || status args || logs args.

(** A computation that reads nothing from the terminal. *)
Definition keeps_stdin {A} (m : M A) : Prop :=
  forall w, stdin (snd (m w)) = stdin w.

(** A string of white space only. *)
Fixpoint blank (s : string) : bool :=
  match s with
  | EmptyString => true
  | String c s' => Py.isspace c && blank s'
  end.

(** A container name translated through the alias table, or kept as it is. *)
Definition canonical (self : ServiceManager) (name : string) : string :=
  default name (service_mapping self !! name).

(** The reading of the plain-text pass that takes every line, however many
    tokens it has: the first token is the container, a status word anywhere
    marks it up. *)
Definition marks_every_line (self : ServiceManager)
    (status : gmap pykey pyjson) (line : string) : gmap pykey pyjson :=
  if has_status_word line
  then <[KStr (canonical self (hd EmptyString (Py.split line))) := PyStr "Up"]> status
  else status.

(** Worlds that differ in what was printed only. *)
Definition same_events (w w' : World) : Prop :=
  calls w' = calls w /\ probed w' = probed w /\ stdin w' = stdin w.

(** A computation that leaves one of the logs of the world as it was. *)
Definition keeps {X A} (f : World -> X) (m : M A) : Prop :=
  forall w, f (snd (m w)) = f w.

(** The output of a command that the status passes read: the process exited
    with code 0 and printed something. *)
Definition usable (p : proc) : option string :=
  match p with
  | Exited returncode out _ =>
      if (returncode =? 0) && Py.truthy out then Some out else None
  | SpawnFailed _ => None
  end.

(** The values of the calls before the first that raised, and the text of
    that one. *)
Fixpoint until_raise {A} (results : list (outcome A)) : list A * option string :=
  match results with
  | [] => ([], None)
  | Return value :: rest =>
      let (values, raised) := until_raise rest in (value :: values, raised)
  | Raise e :: _ => ([], Some e)
  end.

(** A status in which the state of every registered service is a string,
    where there is one. *)
Definition strings_only (self : ServiceManager) (status : gmap pykey pyjson) : bool :=
  forallb (fun service =>
             match status !! KStr service with
             | Some (PyStr _) => true
             | Some _ => false
             | None => true
             end)
          (keys (services self)).

(** A line the structured pass gets over: blank, not decodable, or an
    object whose service name is false or can be a key. *)
Definition harmless (host : Host) (line : string) : bool :=
  negb (Py.truthy (Py.strip line)) ||
  match json_loads host (Py.strip line) with
  | Loaded (PyDict container) =>
      let service_name := default (PyStr EmptyString) (container !! "Service") in
      negb (truth service_name) || bool_decide (is_Some (key_of service_name))
  | JSONDecodeError => true
  | _ => false
  end.

(** The key an object line names, if it names one. *)
Definition named_service (host : Host) (line : string) : option pykey :=
  if Py.truthy (Py.strip line) then
    match json_loads host (Py.strip line) with
    | Loaded (PyDict container) =>
        let service_name := default (PyStr EmptyString) (container !! "Service") in
        if truth service_name then key_of service_name else None
    | _ => None
    end
  else None.

(** The state an object line gives, the empty string if it gives none. *)
Definition given_state (host : Host) (line : string) : pyjson :=
  match json_loads host (Py.strip line) with
  | Loaded (PyDict container) => default (PyStr EmptyString) (container !! "State")
  | _ => PyStr EmptyString
  end.

(** The commands of the script. *)
Definition config_command (self : ServiceManager) : string := compose self "config".
Definition build_command (self : ServiceManager) (service : string) : string :=
  compose self ("build " +:+ service).
Definition up_command (self : ServiceManager) (service : string) : string :=
  compose self ("up -d " +:+ service).
Definition ps_json_command (self : ServiceManager) : string :=
  compose self "ps --format json".
Definition ps_command (self : ServiceManager) : string := compose self "ps".


(** The number the selection menu takes from a choice: digits that [int]
    converts to a number from 1 to 5. *)
Definition chosen_number (host : Host) (choice : string) : option Z :=
  if Py.isdigit choice then
    match Py.int (int_max_str_digits host) choice with
    | Return number => if (1 <=? number) && (number <=? 5) then Some number else None
    | Raise _ => None
    end
  else None.

(** What the structured pass yields after the commands of [history], and
    the commands a status query runs then (latest first). *)
Definition structured_status (host : Host) (self : ServiceManager)
    (history : list string) : gmap pykey pyjson :=
  match usable (shell host history (ps_json_command self)) with
  | Some out => fst (json_lines host (lines_of out) ∅)
  | None => ∅
  end.

Definition status_commands (host : Host) (self : ServiceManager)
    (history : list string) : list string :=
  if is_empty (structured_status host self history)
  then [ps_command self; ps_json_command self]
  else [ps_json_command self].

(** The status a query returns after the commands of [history]. *)
Definition status_after (host : Host) (self : ServiceManager)
    (history : list string) : gmap pykey pyjson :=
  if is_empty (structured_status host self history) then
    match usable (shell host (ps_json_command self :: history) (ps_command self)) with
    | Some out => text_lines self (tl (lines_of out)) ∅
    | None => ∅
    end
  else structured_status host self history.

(** The key a line of the plain-text output marks up, if it marks one: the
    line has two tokens or more and a status word; the key is the first
    token through the alias table. *)
Definition mark (self : ServiceManager) (line : string) : option string :=
  if (2 <=? length (Py.split line))%nat && has_status_word line
  then Some (canonical self (hd EmptyString (Py.split line)))
  else None.

(** The lines [print_numbered] prints, first to last. *)
Fixpoint numbered (i : Z) (entries : list (string * string)) : list string :=
  match entries with
  | [] => []
  | (_, service_name) :: rest =>
      (pretty i +:+ ". " +:+ service_name) :: numbered (i + 1) rest
  end.

(** * Properties *)

(** ** White space, [strip] and [split] *)

Lemma split_blank (s : string) : blank s = true -> Py.split s = [].
Proof.
  induction s as [|c s IH]; simpl; [reflexivity|].
  intros H. apply andb_prop in H as [Hc Hs]. rewrite Hc. auto.
Qed.

Lemma lstrip_blank (s : string) : Py.lstrip s = EmptyString -> blank s = true.
Proof.
  induction s as [|c s IH]; simpl; [reflexivity|].
  destruct (Py.isspace c); [exact IH | discriminate].
Qed.

Lemma rstrip_blank (s : string) : Py.rstrip s = EmptyString -> blank s = true.
Proof.
  induction s as [|c s IH]; simpl; [reflexivity|].
  destruct (Py.rstrip s) eqn:E; [|discriminate].
  destruct (Py.isspace c); [auto | discriminate].
Qed.

Lemma blank_lstrip (s : string) : blank (Py.lstrip s) = true -> blank s = true.
Proof.
  induction s as [|c s IH]; simpl; [reflexivity|].
  destruct (Py.isspace c) eqn:E; simpl; [exact IH|].
  rewrite E. discriminate.
Qed.

(** A line with a token is not blank for [strip]. *)
Lemma strip_of_tokens (s : string) :
  Py.split s <> [] -> Py.truthy (Py.strip s) = true.
Proof.
  intros H. unfold Py.truthy, Py.strip.
  destruct (String.eqb_spec (Py.rstrip (Py.lstrip s)) EmptyString) as [E|E];
    [|reflexivity].
  exfalso. apply H, split_blank, blank_lstrip, rstrip_blank, E.
Qed.

(** ** Substrings *)

Lemma startswith_spec (prefix s : string) :
  Py.startswith prefix s = true <-> exists rest, s = prefix +:+ rest.
Proof.
  revert s. induction prefix as [|a prefix IH]; intros s; simpl.
  - split; [intros _; exists s; reflexivity | reflexivity].
  - destruct s as [|b s]; [split; [discriminate | intros [rest H]; discriminate]|].
    rewrite andb_true_iff, IH. split.
    + intros [Hab [rest ->]]. apply Ascii.eqb_eq in Hab as ->. exists rest. reflexivity.
    + intros [rest H]. inversion H; subst. split; [apply Ascii.eqb_refl | eauto].
Qed.

(** [needle in hay] is the substring test. *)
Lemma contains_spec (needle hay : string) :
  Py.contains needle hay = true <->
  exists before after, hay = before +:+ needle +:+ after.
Proof.
  induction hay as [|c hay IH].
  - simpl. rewrite orb_false_r, startswith_spec. split.
    + intros [rest H]. exists EmptyString, rest. exact H.
    + intros (before & after & H). destruct before; [eauto | discriminate].
  - cbn [Py.contains]. rewrite orb_true_iff, startswith_spec, IH. split.
    + intros [[rest H] | (before & after & H)].
      * exists EmptyString, rest. exact H.
      * exists (String c before), after. simpl. rewrite H. reflexivity.
    + intros (before & after & H). destruct before as [|b before].
      * left. exists after. exact H.
      * right. inversion H; subst. eauto.
Qed.

(** A state counts as running when its lower-case form contains "up",
    "running" or "started". *)
Lemma is_running_spec (state : string) :
  is_running state = true <->
  exists word before after,
    In word ["up"; "running"; "started"] /\
    Py.lower state = before +:+ word +:+ after.
Proof.
  unfold is_running, running_states. rewrite existsb_exists. split.
  - intros (word & Hin & H). apply contains_spec in H as (before & after & H). eauto.
  - intros (word & before & after & Hin & H). exists word. split; [exact Hin|].
    apply contains_spec. eauto.
Qed.

(** A line has a status word when it contains "Up", "Running" or "Started"
    as they are written. *)
Lemma has_status_word_spec (line : string) :
  has_status_word line = true <->
  exists word before after,
    In word ["Up"; "Running"; "Started"] /\ line = before +:+ word +:+ after.
Proof.
  unfold has_status_word, status_words. rewrite existsb_exists. split.
  - intros (word & Hin & H). apply contains_spec in H as (before & after & H). eauto.
  - intros (word & before & after & Hin & H). exists word. split; [exact Hin|].
    apply contains_spec. eauto.
Qed.

(** ** The monad *)

Lemma bind_eq {A B} (m : M A) (k : A -> M B) (w : World) :
  bind m k w = k (fst (m w)) (snd (m w)).
Proof. unfold bind. destruct (m w). reflexivity. Qed.

Lemma print_eq (line : string) (w : World) : print line w = (tt, say line w).
Proof. reflexivity. Qed.

Lemma calls_say (line : string) (w : World) : calls (say line w) = calls w.
Proof. reflexivity. Qed.

Lemma probed_say (line : string) (w : World) : probed (say line w) = probed w.
Proof. reflexivity. Qed.

Lemma stdin_say (line : string) (w : World) : stdin (say line w) = stdin w.
Proof. reflexivity. Qed.

Lemma printed_say (line : string) (w : World) :
  printed (say line w) = line :: printed w.
Proof. reflexivity. Qed.

Lemma calls_logged (command : string) (w : World) :
  calls (logged command w) = command :: calls w.
Proof. reflexivity. Qed.

Lemma probed_logged (command : string) (w : World) : probed (logged command w) = probed w.
Proof. reflexivity. Qed.

Lemma stdin_logged (command : string) (w : World) : stdin (logged command w) = stdin w.
Proof. reflexivity. Qed.

Lemma printed_logged (command : string) (w : World) :
  printed (logged command w) = printed w.
Proof. reflexivity. Qed.

Create Rewrite HintDb world.
#[local] Hint Rewrite calls_say probed_say stdin_say printed_say
  calls_logged probed_logged stdin_logged printed_logged : world.

Lemma same_events_refl (w : World) : same_events w w.
Proof. repeat split. Qed.

Lemma same_events_trans (w1 w2 w3 : World) :
  same_events w1 w2 -> same_events w2 w3 -> same_events w1 w3.
Proof. unfold same_events. intros (-> & -> & ->) (-> & -> & ->). repeat split. Qed.

Lemma same_events_say (line : string) (w : World) : same_events w (say line w).
Proof. repeat split. Qed.

Lemma same_events_when (b : bool) (line : string) (w : World) :
  same_events w (snd (when b (print line) w)).
Proof. destruct b; repeat split. Qed.

(** [report] prints and decides on the exit code alone. *)
Lemma report_eq (r : Z * option string * option string) (ok_line failed_line : string)
    (w : World) :
  fst (report r ok_line failed_line w) = (fst (fst r) =? 0) /\
  same_events w (snd (report r ok_line failed_line w)).
Proof.
  destruct r as [[returncode stdout] stderr]. unfold report. simpl.
  destruct (returncode =? 0); rewrite !bind_eq; simpl; [repeat split|].
  split; [reflexivity|].
  eapply same_events_trans; [apply same_events_say | apply same_events_when].
Qed.

(** ** run_command *)

Lemma run_command_eq (host : Host) (self : ServiceManager) (command : string)
    (check capture_output : bool) (w : World) :
  run_command host self command check capture_output w
  = (triple (subprocess_run (shell host (calls w) command) check capture_output),
     logged command w).
Proof.
  unfold run_command, bind, spawn, logged.
  destruct (is_windows self);
    destruct (subprocess_run (shell host (calls w) command) check capture_output);
    reflexivity.
Qed.

(** What [run_command] returns when the process exits with code 0. *)
Lemma run_command_exit_0 (host : Host) (self : ServiceManager) (command : string)
    (check capture_output : bool) (w : World) (out err : string) :
  shell host (calls w) command = Exited 0 out err ->
  fst (run_command host self command check capture_output w)
  = (0, if capture_output then Some out else None,
        if capture_output then Some err else None).
Proof.
  intros H. rewrite run_command_eq, H. simpl. rewrite andb_false_r. reflexivity.
Qed.

Lemma or_empty_Some (s : string) : Py.or_empty (Some s) = s.
Proof.
  unfold Py.or_empty, Py.truthy.
  destruct (String.eqb_spec s EmptyString); subst; reflexivity.
Qed.

Lemma triple_exited (returncode : Z) (out err : string) (check capture_output : bool) :
  triple (subprocess_run (Exited returncode out err) check capture_output)
  = if capture_output then (returncode, Some out, Some err)
    else if check && negb (returncode =? 0)
         then (returncode, Some EmptyString, Some EmptyString)
         else (returncode, None, None).
Proof.
  destruct capture_output, check, (returncode =? 0) eqn:E;
    cbn -[Py.or_empty]; rewrite ?E; cbn -[Py.or_empty];
    rewrite ?or_empty_Some; reflexivity.
Qed.

Lemma triple_checked (p : proc) (capture_output : bool) :
  (fst (fst (triple (subprocess_run p true capture_output))) =? 0) = exits_0 p.
Proof.
  destruct p as [returncode out err|message]; simpl; [|reflexivity].
  destruct (returncode =? 0) eqn:E; simpl; rewrite ?E; reflexivity.
Qed.

(** C6, amended: [run_command] always returns its triple, and the command
    always reaches the shell.  When the call raises, the triple is -1, the
    empty string and the text of the exception.  When the process exits,
    the first field is its exit code; captured output fills the other two;
    and after a non-zero exit under [check], output that was not captured
    is the empty string. *)
Theorem run_command_fields (host : Host) (self : ServiceManager) (command : string)
    (check capture_output : bool) (w : World) :
  snd (run_command host self command check capture_output w) = logged command w /\
  match shell host (calls w) command with
  | SpawnFailed message =>
      fst (run_command host self command check capture_output w)
      = (-1, Some EmptyString, Some message)
  | Exited returncode out err =>
      if capture_output then
        fst (run_command host self command check capture_output w)
        = (returncode, Some out, Some err)
      else if check && negb (returncode =? 0) then
        fst (run_command host self command check capture_output w)
        = (returncode, Some EmptyString, Some EmptyString)
      else
        fst (fst (fst (run_command host self command check capture_output w)))
        = returncode
  end.
Proof.
  rewrite run_command_eq. split; [reflexivity|].
  destruct (shell host (calls w) command) as [returncode out err|message];
    [|reflexivity].
  rewrite triple_exited.
  destruct capture_output; [reflexivity|].
  destruct (check && negb (returncode =? 0)); reflexivity.
Qed.

(** C6 as stated fails: when the call raises, the third field is the text
    of the exception, not the empty string. *)
Lemma raised_text_is_kept :
  let host := Sample.machine (fun _ _ => SpawnFailed "[Errno 12] Cannot allocate memory")
                             (fun _ => true) (fun _ => Errno 0) in
  fst (run_command host Sample.manager "docker info" false false (Sample.fresh []))
  = (-1, Some EmptyString, Some "[Errno 12] Cannot allocate memory") /\
  snd (fst (run_command host Sample.manager "docker info" false false (Sample.fresh [])))
  <> Some EmptyString.
Proof. split; [reflexivity | discriminate]. Qed.

(** ** build, run, stop *)

(** The shape the four one-command operations share. *)
Lemma one_command (host : Host) (self : ServiceManager)
    (line command ok_line failed_line : string) (w : World) :
  let m := (print line;;
            r <- run_command host self command true false;;
            report r ok_line failed_line)%io in
  fst (m w) = exits_0 (shell host (calls w) command) /\
  calls (snd (m w)) = command :: calls w /\
  probed (snd (m w)) = probed w /\
  stdin (snd (m w)) = stdin w.
Proof.
  intros m. unfold m. rewrite !bind_eq, print_eq. simpl.
  rewrite run_command_eq. simpl.
  destruct (report_eq (triple (subprocess_run (shell host (calls w) command) true false))
              ok_line failed_line (logged command (say line w)))
    as (Hr & Hc & Hp & Hs).
  rewrite Hr, Hc, Hp, Hs, triple_checked. repeat split.
Qed.

Lemma build_service_events (host : Host) (self : ServiceManager) (service : string)
    (w : World) :
  fst (build_service host self service w)
  = exits_0 (shell host (calls w) (compose self ("build " +:+ service))) /\
  calls (snd (build_service host self service w))
  = compose self ("build " +:+ service) :: calls w /\
  probed (snd (build_service host self service w)) = probed w /\
  stdin (snd (build_service host self service w)) = stdin w.
Proof. apply one_command. Qed.

Lemma run_service_events (host : Host) (self : ServiceManager) (service : string)
    (w : World) :
  fst (run_service host self service w)
  = exits_0 (shell host (calls w) (compose self ("up -d " +:+ service))) /\
  calls (snd (run_service host self service w))
  = compose self ("up -d " +:+ service) :: calls w /\
  probed (snd (run_service host self service w)) = probed w /\
  stdin (snd (run_service host self service w)) = stdin w.
Proof. apply one_command. Qed.

Lemma stop_service_events (host : Host) (self : ServiceManager) (service : string)
    (w : World) :
  fst (stop_service host self service w)
  = exits_0 (shell host (calls w) (compose self ("stop " +:+ service))) /\
  calls (snd (stop_service host self service w))
  = compose self ("stop " +:+ service) :: calls w /\
  probed (snd (stop_service host self service w)) = probed w /\
  stdin (snd (stop_service host self service w)) = stdin w.
Proof. apply one_command. Qed.

(** C7, amended: build, start and stop hand any key to the orchestrator,
    registered or not (the empty key stands for all services): each is one
    command and returns true exactly when it exits with code 0.  Only the
    single-service workflow rejects a key that is not registered, and it
    does so before any command. *)
Theorem low_level_operations_take_any_key (host : Host) (self : ServiceManager)
    (service : string) (w : World) :
  (fst (build_service host self service w)
     = exits_0 (shell host (calls w) (compose self ("build " +:+ service))) /\
   calls (snd (build_service host self service w))
     = compose self ("build " +:+ service) :: calls w) /\
  (fst (run_service host self service w)
     = exits_0 (shell host (calls w) (compose self ("up -d " +:+ service))) /\
   calls (snd (run_service host self service w))
     = compose self ("up -d " +:+ service) :: calls w) /\
  (fst (stop_service host self service w)
     = exits_0 (shell host (calls w) (compose self ("stop " +:+ service))) /\
   calls (snd (stop_service host self service w))
     = compose self ("stop " +:+ service) :: calls w) /\
  (has_key (services self) service = false ->
   run_single_service host self service w
   = (Return false, say ("❌ 알 수 없는 서비스: " +:+ service) w)).
Proof.
  split; [|split; [|split]].
  - split; apply build_service_events.
  - split; apply run_service_events.
  - split; apply stop_service_events.
  - intros H. unfold run_single_service. rewrite H. reflexivity.
Qed.

Lemma low_level_operations_take_any_key_witness :
  has_key (services Sample.manager) "ghost" = false /\
  run_single_service (Sample.obliging EmptyString) Sample.manager "ghost" (Sample.fresh [])
  = (Return false, say "❌ 알 수 없는 서비스: ghost" (Sample.fresh [])).
Proof.
  split; [reflexivity|].
  apply (low_level_operations_take_any_key (Sample.obliging EmptyString) Sample.manager
           "ghost" (Sample.fresh [])).
  reflexivity.
Defined.

(** C7 as stated fails: "ghost" is not registered, and building it runs the
    orchestrator and returns true when that exits with code 0. *)
Lemma build_of_unregistered_key_runs :
  has_key (services Sample.manager) "ghost" = false /\
  fst (build_service (Sample.obliging EmptyString) Sample.manager "ghost" (Sample.fresh []))
  = true /\
  calls (snd (build_service (Sample.obliging EmptyString) Sample.manager "ghost"
                (Sample.fresh [])))
  = ["docker compose -f servers/docker-compose.dev.yml build ghost"].
Proof. repeat split. Qed.

(** ** The structured pass *)

(** A line that does not decode is skipped. *)
Lemma json_lines_undecodable (host : Host) (line : string) (rest : list string)
    (status : gmap pykey pyjson) :
  json_loads host (Py.strip line) = JSONDecodeError ->
  json_lines host (line :: rest) status = json_lines host rest status.
Proof.
  intros H. simpl. rewrite H. destruct (Py.truthy (Py.strip line)); reflexivity.
Qed.

(** A line that is not blank and decodes to an object with a service name
    that can be a key adds its entry, when the loop gets to it. *)
Lemma json_lines_object (host : Host) (line : string) (rest : list string)
    (status : gmap pykey pyjson) (container : gmap string pyjson)
    (service_name : pyjson) (key : pykey) :
  Py.truthy (Py.strip line) = true ->
  json_loads host (Py.strip line) = Loaded (PyDict container) ->
  container !! "Service" = Some service_name ->
  truth service_name = true ->
  key_of service_name = Some key ->
  json_lines host (line :: rest) status
  = json_lines host rest
      (<[key := default (PyStr EmptyString) (container !! "State")]> status).
Proof.
  intros Hline Hload Hservice Hname Hkey. simpl.
  rewrite Hline, Hload, Hservice. simpl. rewrite Hname, Hkey. reflexivity.
Qed.

(** A line that decodes to something that is not an object ends the loop:
    the lines after it are not looked at. *)
Lemma json_lines_other (host : Host) (line : string) (rest : list string)
    (status : gmap pykey pyjson) (value : pyjson) :
  Py.truthy (Py.strip line) = true ->
  json_loads host (Py.strip line) = Loaded value ->
  (forall container, value <> PyDict container) ->
  json_lines host (line :: rest) status = (status, Some (no_attribute value "get")).
Proof.
  intros Hline Hload Hother. simpl. rewrite Hline, Hload.
  destruct value; try reflexivity. exfalso. eapply Hother. reflexivity.
Qed.

(** So does an object whose service name cannot be a key. *)
Lemma json_lines_unhashable (host : Host) (line : string) (rest : list string)
    (status : gmap pykey pyjson) (container : gmap string pyjson)
    (service_name : pyjson) :
  Py.truthy (Py.strip line) = true ->
  json_loads host (Py.strip line) = Loaded (PyDict container) ->
  container !! "Service" = Some service_name ->
  truth service_name = true ->
  key_of service_name = None ->
  json_lines host (line :: rest) status = (status, Some (unhashable service_name)).
Proof.
  intros Hline Hload Hservice Hname Hkey. simpl.
  rewrite Hline, Hload, Hservice. simpl. rewrite Hname, Hkey. reflexivity.
Qed.

(** The plain-text command is run exactly when the structured pass leaves
    no entry. *)
Lemma fallback_iff_no_entry (host : Host) (self : ServiceManager) (w : World) :
  let w0 := say "🔍 서비스 상태 확인 중.." w in
  let status := fst (structured_pass host self w0) in
  calls (snd (structured_pass host self w0)) = compose self "ps --format json" :: calls w /\
  calls (snd (get_service_status host self w))
  = if is_empty status
    then compose self "ps" :: compose self "ps --format json" :: calls w
    else compose self "ps --format json" :: calls w.
Proof.
  intros w0 status.
  assert (calls (snd (structured_pass host self w0))
          = compose self "ps --format json" :: calls w) as Hjson.
  { unfold structured_pass. rewrite bind_eq, run_command_eq. cbn [fst snd].
    destruct (triple _) as [[returncode stdout] stderr].
    destruct ((returncode =? 0) && Py.truthy_opt stdout); [|reflexivity].
    destruct (json_lines host _ ∅) as [st [e|]]; reflexivity. }
  split; [exact Hjson|].
  unfold get_service_status. rewrite !bind_eq, print_eq. cbn [fst snd].
  fold w0. fold status. destruct (is_empty status); [|exact Hjson].
  unfold text_pass. rewrite !bind_eq, print_eq, run_command_eq. cbn [fst snd].
  destruct (triple _) as [[returncode stdout] stderr].
  destruct ((returncode =? 0) && Py.truthy_opt stdout); cbn [fst snd ret];
    autorewrite with world; rewrite Hjson; reflexivity.
Qed.

(** C1, where the code departs from it.  The structured pass stops at the
    first line that decodes to a value other than an object: the lookup of
    'Service' raises, the handler around the loop reports it, and the lines
    after it are not read.  So the object line under an array line adds no
    entry; and the one-line array of the repository's own test
    ([test_get_service_status_success], which expects "page-server" to be
    "Up") gives the empty status. *)
Theorem structured_pass_stops_at_other_value :
  let object_line := Sample.container "page-server" "Up" in
  let two_lines := "[]" +:+ Sample.nl +:+ object_line in
  let array_line :=
    "[{" +:+ Sample.q +:+ "Service" +:+ Sample.q +:+ ": "
         +:+ Sample.q +:+ "page-server" +:+ Sample.q +:+ ", "
         +:+ Sample.q +:+ "State" +:+ Sample.q +:+ ": "
         +:+ Sample.q +:+ "Up" +:+ Sample.q +:+ "}]" in
  Json.loads object_line
  = Loaded (PyDict {[ "Service" := PyStr "page-server"; "State" := PyStr "Up" ]}) /\
  fst (get_service_status (Sample.obliging object_line) Sample.manager (Sample.fresh []))
  = {[ KStr "page-server" := PyStr "Up" ]} /\
  json_lines (Sample.obliging two_lines) (lines_of two_lines) ∅
  = (∅, Some "'list' object has no attribute 'get'") /\
  fst (get_service_status (Sample.obliging two_lines) Sample.manager (Sample.fresh []))
  = ∅ /\
  get_service_status (Sample.obliging array_line) Sample.manager (Sample.fresh [])
  = (∅, {| calls := [Sample.ps_text; Sample.ps_json];
           printed := ["📋 일반 형식으로 서비스 상태 확인 중..";
                       "⚠️ JSON 파싱 오류: 'list' object has no attribute 'get'";
                       "🔍 서비스 상태 확인 중.."];
           probed := []; stdin := [] |}).
Proof.
  intros object_line two_lines array_line.
  repeat split; vm_compute; reflexivity.
Qed.

(** ** The plain-text pass *)

Lemma text_line_entries (self : ServiceManager) (status : gmap pykey pyjson)
    (line : string) :
  (forall k v, status !! k = Some v -> v = PyStr "Up") ->
  forall k v, text_line self status line !! k = Some v -> v = PyStr "Up".
Proof.
  intros Hst k v. unfold text_line.
  destruct (Py.truthy (Py.strip line)); [|apply Hst].
  destruct (2 <=? length (Py.split line))%nat; [|apply Hst].
  destruct (has_status_word line); [|apply Hst].
  destruct (service_mapping self !! hd EmptyString (Py.split line)) as [mapped|];
    intros H; apply lookup_insert_Some in H as [[_ <-]|[_ H]];
    try reflexivity; eapply Hst; eauto.
Qed.

Lemma text_lines_entries (self : ServiceManager) (lines : list string) :
  forall status : gmap pykey pyjson,
    (forall k v, status !! k = Some v -> v = PyStr "Up") ->
    forall k v, text_lines self lines status !! k = Some v -> v = PyStr "Up".
Proof.
  unfold text_lines.
  induction lines as [|line lines IH]; simpl; intros status Hst; [exact Hst|].
  apply IH. apply text_line_entries, Hst.
Qed.

Lemma text_pass_entries (host : Host) (self : ServiceManager) (w : World) :
  forall k v, fst (text_pass host self ∅ w) !! k = Some v -> v = PyStr "Up".
Proof.
  intros k v. unfold text_pass, bind.
  destruct (print _ w) as [u w1].
  destruct (run_command host self _ true true w1) as [[[returncode stdout] stderr] w2].
  destruct ((returncode =? 0) && Py.truthy_opt stdout); simpl.
  - apply text_lines_entries. intros k' v' H. rewrite lookup_empty in H. discriminate.
  - rewrite lookup_empty. discriminate.
Qed.

Lemma is_empty_true (status : gmap pykey pyjson) :
  is_empty status = true -> status = ∅.
Proof.
  unfold is_empty. intros H. apply Nat.eqb_eq in H. apply map_size_empty_iff, H.
Qed.

Lemma is_empty_empty : is_empty ∅ = true.
Proof. reflexivity. Qed.

Lemma is_empty_insert (status : gmap pykey pyjson) (key : pykey) (state : pyjson) :
  is_empty (<[key := state]> status) = false.
Proof.
  destruct (is_empty (<[key := state]> status)) eqn:E; [|reflexivity].
  apply is_empty_true in E. exfalso. exact (insert_non_empty status key state E).
Qed.

(** C10: in the plain-text fallback every entry written is "Up": when the
    structured pass leaves no entry, every entry of the status returned has
    the value "Up"; a line without "Up", "Running" or "Started" writes
    nothing; and a line of fewer than two tokens writes nothing. *)
Theorem fallback_entries_are_up (host : Host) (self : ServiceManager) :
  (forall w k v,
      is_empty (fst (structured_pass host self (say "🔍 서비스 상태 확인 중.." w))) = true ->
      fst (get_service_status host self w) !! k = Some v -> v = PyStr "Up") /\
  (forall status line,
      has_status_word line = false -> text_line self status line = status) /\
  (forall status line,
      (length (Py.split line) < 2)%nat -> text_line self status line = status).
Proof.
  split; [|split].
  - intros w k v. unfold get_service_status, bind, say.
    destruct (print _ w) as [u w0]. simpl.
    destruct (structured_pass host self w0) as [status w1]. simpl.
    intros Hempty. rewrite Hempty.
    apply is_empty_true in Hempty. subst status.
    apply text_pass_entries.
  - intros status line H. unfold text_line. rewrite H.
    destruct (Py.truthy (Py.strip line)); [|reflexivity].
    destruct (2 <=? length (Py.split line))%nat; reflexivity.
  - intros status line H. unfold text_line.
    destruct (Py.truthy (Py.strip line)); [|reflexivity].
    destruct (Nat.leb_spec 2 (length (Py.split line))); [lia | reflexivity].
Qed.

Lemma fallback_entries_are_up_witness :
  let host := Sample.with_ps EmptyString
                ("NAME STATUS" +:+ Sample.nl +:+ "servers-page-server-1 Up 2 hours") 0 in
  (fst (get_service_status host Sample.manager (Sample.fresh [])) !! KStr "page-server"
     = Some (PyStr "Up") /\
   forall v, fst (get_service_status host Sample.manager (Sample.fresh []))
               !! KStr "page-server" = Some v -> v = PyStr "Up") /\
  text_line Sample.manager ∅ "servers-nginx-1   Exited (0)" = ∅ /\
  text_line Sample.manager ∅ "servers-nginx-1(Up)" = ∅.
Proof.
  intros host.
  destruct (fallback_entries_are_up host Sample.manager) as (A & B & C).
  split; [split|split].
  - vm_compute. reflexivity.
  - intros v. apply A. vm_compute. reflexivity.
  - apply B. vm_compute. reflexivity.
  - apply C. vm_compute. lia.
Defined.

Lemma text_line_of_tokens (self : ServiceManager) (status : gmap pykey pyjson)
    (line : string) :
  (2 <= length (Py.split line))%nat ->
  text_line self status line = marks_every_line self status line.
Proof.
  intros H. unfold text_line, marks_every_line, canonical.
  rewrite strip_of_tokens by (destruct (Py.split line); simpl in H; [lia | discriminate]).
  destruct (Nat.leb_spec 2 (length (Py.split line))); [|lia].
  destruct (has_status_word line); [|reflexivity].
  destruct (service_mapping self !! hd EmptyString (Py.split line)); reflexivity.
Qed.

Lemma text_line_few_tokens (self : ServiceManager) (status : gmap pykey pyjson)
    (line : string) :
  (length (Py.split line) < 2)%nat -> text_line self status line = status.
Proof.
  intros H. unfold text_line.
  destruct (Py.truthy (Py.strip line)); [|reflexivity].
  destruct (Nat.leb_spec 2 (length (Py.split line))); [lia | reflexivity].
Qed.

(** C2, amended: in the plain-text fallback every line after the header
    with at least two tokens is handled as the claim says.  The pass folds
    the loop body over the lines after the header; on such a line the first
    token is the container name, "Up", "Running" or "Started" anywhere in
    the line marks the service up, and the name goes through the alias
    table, or is kept if it has no alias.  A line of fewer than two tokens
    writes nothing. *)
Theorem fallback_line_with_tokens (host : Host) (self : ServiceManager) :
  (forall status line,
      (2 <= length (Py.split line))%nat ->
      text_line self status line
      = if has_status_word line
        then <[KStr (default (hd EmptyString (Py.split line))
                             (service_mapping self !! hd EmptyString (Py.split line)))
               := PyStr "Up"]> status
        else status) /\
  (forall status w out err,
      shell host (calls w) (compose self "ps") = Exited 0 out err ->
      Py.truthy out = true ->
      fst (text_pass host self status w)
      = fold_left (text_line self) (tl (Py.split_on Py.newline (Py.strip out))) status) /\
  (forall status line,
      (length (Py.split line) < 2)%nat -> text_line self status line = status).
Proof.
  split; [|split].
  - intros status line H. apply text_line_of_tokens, H.
  - intros status w out err Hps Hout. unfold text_pass, bind.
    destruct (print _ w) as [u w1] eqn:Hprint.
    assert (calls w1 = calls w) as Hcalls by (inversion Hprint; reflexivity).
    rewrite <- Hcalls in Hps.
    pose proof (run_command_exit_0 host self _ true true w1 out err Hps) as Hrun.
    destruct (run_command host self _ true true w1) as [[[returncode stdout] stderr] w2].
    simpl in Hrun. inversion Hrun; subst. simpl. rewrite Hout. reflexivity.
  - intros status line H. apply text_line_few_tokens, H.
Qed.

Lemma fallback_line_with_tokens_witness :
  let text := "NAME   STATUS" +:+ Sample.nl +:+
              "servers-page-server-1   Up 2 hours" +:+ Sample.nl +:+
              "scratch-1   Running" in
  text_line Sample.manager ∅ "servers-page-server-1   Up 2 hours"
    = {[ KStr "page-server" := PyStr "Up" ]} /\
  fst (text_pass (Sample.obliging text) Sample.manager ∅ (Sample.fresh []))
    = {[ KStr "page-server" := PyStr "Up"; KStr "scratch-1" := PyStr "Up" ]} /\
  text_line Sample.manager ∅ "Up" = ∅.
Proof.
  intros text.
  destruct (fallback_line_with_tokens (Sample.obliging text) Sample.manager) as (A & B & C).
  split; [|split].
  - rewrite A by (vm_compute; lia). reflexivity.
  - rewrite (B ∅ (Sample.fresh []) text EmptyString) by (vm_compute; reflexivity).
    reflexivity.
  - apply C. vm_compute. lia.
Defined.

(** C2 as stated fails on a line of one token: "servers-nginx-1(Up)" has a
    first token and contains "Up", and writes no entry. *)
Lemma one_token_line_is_dropped :
  let line := "servers-nginx-1(Up)" in
  Py.split line = [line] /\
  has_status_word line = true /\
  marks_every_line Sample.manager ∅ line = {[ KStr line := PyStr "Up" ]} /\
  text_line Sample.manager ∅ line = ∅ /\
  text_line Sample.manager ∅ line <> marks_every_line Sample.manager ∅ line.
Proof.
  intros line. repeat split; try reflexivity.
  intros H. apply (f_equal is_empty) in H. vm_compute in H. discriminate H.
Qed.

(** ** Loops that may raise *)

Lemma until_raise_cons {A} (r : outcome A) (results : list (outcome A)) :
  until_raise (r :: results)
  = match r with
    | Return value =>
        (value :: fst (until_raise results), snd (until_raise results))
    | Raise e => ([], Some e)
    end.
Proof. destruct r; [|reflexivity]. simpl. destruct (until_raise results); reflexivity. Qed.

(** When no call raised, the values are those of all the calls, in order. *)
Lemma until_raise_all {A} (results : list (outcome A)) :
  snd (until_raise results) = None ->
  map Return (fst (until_raise results)) = results.
Proof.
  induction results as [|r results IH]; [reflexivity|].
  rewrite until_raise_cons. destruct r as [value|e]; cbn [fst snd map]; [|discriminate].
  intros H. rewrite IH by exact H. reflexivity.
Qed.

(** What raises in a status: a state of a registered service that is not a
    string. *)
Lemma status_line_raises (status : gmap pykey pyjson) (entries : list (string * string)) :
  snd (until_raise (map (status_line status) entries)) = None <->
  forallb (fun service =>
             match status !! KStr service with
             | Some (PyStr _) => true
             | Some _ => false
             | None => true
             end)
          (keys entries) = true.
Proof.
  induction entries as [|[service service_name] entries IH]; [split; reflexivity|].
  cbn [map keys fst forallb]. rewrite until_raise_cons. unfold status_line at 1.
  destruct (status !! KStr service) as [[]|]; cbn [snd andb];
    try exact IH; split; discriminate.
Qed.

Lemma reported_up_raises (status : gmap pykey pyjson) (l : list string) :
  snd (until_raise (map (reported_up status) l)) = None <->
  forallb (fun service =>
             match status !! KStr service with
             | Some (PyStr _) => true
             | Some _ => false
             | None => true
             end)
          l = true.
Proof.
  induction l as [|service l IH]; [split; reflexivity|].
  cbn [map forallb]. rewrite until_raise_cons. unfold reported_up at 1.
  destruct (status !! KStr service) as [[]|]; cbn [snd andb];
    try exact IH; split; discriminate.
Qed.

(** ** show_service_status *)

Lemma try_each_print {A} (f : A -> outcome string) (l : list A) :
  forall w : World,
    let m := try_each l (fun x =>
               match f x with
               | Return line => print line;; ret (Return tt)
               | Raise e => ret (Raise e)
               end)%io in
    fst (m w) = match snd (until_raise (map f l)) with
                | None => Return tt
                | Some e => Raise e
                end /\
    printed (snd (m w)) = (rev (fst (until_raise (map f l))) ++ printed w)%list /\
    same_events w (snd (m w)).
Proof.
  induction l as [|x l IH]; intros w; cbn [try_each map].
  - repeat split.
  - rewrite until_raise_cons, bind_eq. destruct (f x) as [line|e].
    + rewrite bind_eq, print_eq. cbn [fst snd ret].
      destruct (IH (say line w)) as (Hr & Hp & He). split; [exact Hr|]. split.
      * rewrite Hp. cbn [rev]. rewrite <- app_assoc. reflexivity.
      * eapply same_events_trans; [apply same_events_say | exact He].
    + cbn [fst snd ret rev app]. repeat split.
Qed.

(** C3, amended: [show_service_status] prints one line for every registered
    service, in registry order, whatever strings the status holds.  The
    line reads running (the state with a check mark) when the state, in
    lower case, contains "up", "running" or "started"; a service with any
    other state is shown with a cross and that state; a service the status
    does not hold is shown as stopped.  The last two lines differ.  A state
    that is not a string has no [lower]: the display ends there with that
    error, after the lines of the services before it; this is the only
    thing that raises.  (The log is latest first: the closing rule, the
    lines in reverse, the opening rule, the heading.) *)
Theorem show_service_status_lines (host : Host) (self : ServiceManager) (w : World) :
  let status := fst (get_service_status host self w) in
  let w1 := snd (get_service_status host self w) in
  let result := fst (show_service_status host self w) in
  let final := snd (show_service_status host self w) in
  match until_raise (map (status_line status) (services self)) with
  | (lines, None) =>
      result = Return tt /\
      map Return lines = map (status_line status) (services self) /\
      printed final
      = (rule :: rev lines ++ rule :: "📋 서비스 상태:" :: printed w1)%list
  | (lines, Some e) =>
      result = Raise e /\
      printed final = (rev lines ++ rule :: "📋 서비스 상태:" :: printed w1)%list
  end /\
  same_events w1 final /\
  (forall service service_name,
      status_line status (service, service_name)
      = match status !! KStr service with
        | Some (PyStr state) =>
            Return (if existsb (fun word => Py.contains word (Py.lower state))
                               ["up"; "running"; "started"]
                    then "✅ " +:+ service_name +:+ ": " +:+ state
                    else "❌ " +:+ service_name +:+ ": " +:+ state)
        | Some state =>
            Raise ("'" +:+ type_name state +:+ "' object has no attribute 'lower'")
        | None => Return ("⏸️ " +:+ service_name +:+ ": 중지됨")
        end) /\
  (strings_only self status = true <->
   snd (until_raise (map (status_line status) (services self))) = None).
Proof.
  intros status w1 result final. unfold result, final, show_service_status.
  rewrite bind_eq. fold status w1. unfold show_status.
  do 2 (rewrite bind_eq, print_eq; cbn [fst snd]). rewrite bind_eq.
  destruct (try_each_print (status_line status) (services self)
              (say rule (say "📋 서비스 상태:" w1))) as (Hr & Hp & He).
  cbv zeta in Hr, Hp, He. rewrite Hr.
  pose proof (until_raise_all (map (status_line status) (services self))) as Hall.
  assert (same_events w1 (say rule (say "📋 서비스 상태:" w1))) as Hsay
    by (eapply same_events_trans; apply same_events_say).
  destruct (until_raise (map (status_line status) (services self))) as [lines [e|]] eqn:E;
    cbn [fst snd] in *.
  - split; [split; [reflexivity | exact Hp]|].
    split; [eapply same_events_trans; [exact Hsay | exact He]|].
    split; [intros service service_name; unfold status_line;
            destruct (status !! KStr service) as [[]|]; reflexivity|].
    unfold strings_only. rewrite <- status_line_raises, E. cbn [snd].
    split; discriminate.
  - rewrite bind_eq, print_eq. cbn [fst snd ret].
    split; [split; [reflexivity|]; split; [apply Hall; reflexivity|];
            rewrite printed_say, Hp; reflexivity|].
    split; [eapply same_events_trans; [exact Hsay|];
            eapply same_events_trans; [exact He | apply same_events_say]|].
    split; [intros service service_name; unfold status_line;
            destruct (status !! KStr service) as [[]|]; reflexivity|].
    unfold strings_only. rewrite <- status_line_raises, E. cbn [snd].
    split; reflexivity.
Qed.

Lemma show_service_status_lines_witness :
  let host := Sample.obliging (Sample.container "nginx" "exited") in
  strings_only Sample.manager (fst (get_service_status host Sample.manager (Sample.fresh [])))
  = true /\
  snd (until_raise
         (map (status_line (fst (get_service_status host Sample.manager (Sample.fresh []))))
              (services Sample.manager)))
  = None /\
  printed (snd (show_service_status host Sample.manager (Sample.fresh [])))
  = ["==================================";
     "⏸️ Redis (Cache): 중지됨";
     "❌ Nginx (Reverse Proxy): exited";
     "⏸️ Database Server (PostgreSQL): 중지됨";
     "⏸️ API Server (FastAPI): 중지됨";
     "⏸️ Page Server (Next.js): 중지됨";
     "==================================";
     "📋 서비스 상태:";
     "🔍 서비스 상태 확인 중.."].
Proof.
  intros host.
  pose proof (show_service_status_lines host Sample.manager (Sample.fresh []))
    as (A & _ & _ & B).
  split; [reflexivity|]. split; [apply B; reflexivity|].
  vm_compute. reflexivity.
Defined.

(** C3 as stated fails: a service with the state "Exited" and a service the
    status does not hold are not shown alike. *)
Lemma exited_and_absent_differ :
  status_line {[ KStr "page-server" := PyStr "Exited" ]}
    ("page-server", "Page Server (Next.js)")
  = Return "❌ Page Server (Next.js): Exited" /\
  status_line ∅ ("page-server", "Page Server (Next.js)")
  = Return "⏸️ Page Server (Next.js): 중지됨" /\
  show_status Sample.manager {[ KStr "page-server" := PyStr "Exited" ]} (Sample.fresh [])
  <> show_status Sample.manager ∅ (Sample.fresh []).
Proof.
  split; [|split]; try (vm_compute; reflexivity).
  vm_compute. discriminate.
Qed.

Lemma registry_keys_distinct : NoDup (keys registry).
Proof. apply (bool_decide_unpack _). vm_compute. exact I. Qed.

(** ** test_services *)

Lemma status_loop (status : gmap pykey pyjson) (l : list string) :
  forall (all_running : bool) (w : World),
    let m := try_fold l all_running (fun all_running service =>
               match reported_up status service with
               | Return true =>
                   print ("✅ " +:+ service +:+ " 실행 중");;
                   ret (Return all_running)
               | Return false =>
                   print ("❌ " +:+ service +:+ " 실행 실패");;
                   ret (Return false)
               | Raise e => ret (Raise e)
               end)%io in
    fst (m w) = match snd (until_raise (map (reported_up status) l)) with
                | None =>
                    Return (all_running
                            && forallb id (fst (until_raise (map (reported_up status) l))))
                | Some e => Raise e
                end /\
    same_events w (snd (m w)).
Proof.
  induction l as [|service l IH]; intros all_running w; cbn [try_fold map].
  - cbn. rewrite andb_true_r. split; [reflexivity | apply same_events_refl].
  - rewrite until_raise_cons, bind_eq. destruct (reported_up status service) as [[|]|e].
    + rewrite bind_eq, print_eq. cbn [fst snd ret].
      destruct (IH all_running (say ("✅ " +:+ service +:+ " 실행 중") w)) as [Hr He].
      split; [exact Hr|].
      eapply same_events_trans; [apply same_events_say | exact He].
    + rewrite bind_eq, print_eq. cbn [fst snd ret].
      destruct (IH false (say ("❌ " +:+ service +:+ " 실행 실패") w)) as [Hr He].
      split.
      * rewrite Hr. destruct (snd (until_raise _)); [reflexivity|].
        cbn [forallb id andb]. rewrite andb_false_r. reflexivity.
      * eapply same_events_trans; [apply same_events_say | exact He].
    + cbn [fst snd ret]. split; [reflexivity | apply same_events_refl].
Qed.

Lemma test_port_events (host : Host) (entry : Z * string) (w : World) :
  calls (snd (test_port host entry w)) = calls w /\
  probed (snd (test_port host entry w)) = fst entry :: probed w /\
  stdin (snd (test_port host entry w)) = stdin w.
Proof.
  destruct entry as [port service_name]. unfold test_port.
  rewrite bind_eq. unfold probe at 1. simpl.
  destruct (connect_ex host (calls w) port) as [code|e]; [destruct (code =? 0)|];
    repeat split.
Qed.




(** ** The bring-up workflows *)

(** C4: both bring-up workflows run the environment check, then build, then
    start.  When the check returns false the workflow returns false and
    runs no command after it.  When build returns false the workflow
    returns false and start is not run; when start returns false the
    workflow returns false.  When all three return true the workflow
    returns true, whatever the service check after the start returns; what
    that check raises (a state that is not a string) the workflow raises. *)
Theorem bring_up_sequence (host : Host) (self : ServiceManager) (service : string)
    (w : World) :
  has_key (services self) service = true ->
  (let w0 := say "🧪 기본 환경 테스트 실행 중.." (say "🚀 전체 서비스 실행 중.." w) in
   let env_ok := fst (test_basic_environment host self w0) in
   let w1 := snd (test_basic_environment host self w0) in
   let built := fst (build_service host self EmptyString (say "🔨 전체 서비스 빌드 중.." w1)) in
   let w2 := snd (build_service host self EmptyString (say "🔨 전체 서비스 빌드 중.." w1)) in
   let started := fst (run_service host self EmptyString (say "🚀 전체 서비스 실행 중.." w2)) in
   let w3 := snd (run_service host self EmptyString (say "🚀 전체 서비스 실행 중.." w2)) in
   let tested := fst (test_services host self (say "🔍 서비스 실행 상태 확인 중.." w3)) in
   let result := fst (run_all_services host self w) in
   let final := snd (run_all_services host self w) in
   calls w2 = compose self "build " :: calls w1 /\
   calls w3 = compose self "up -d " :: calls w2 /\
   if negb env_ok then
     result = Return false /\ calls final = calls w1 /\ probed final = probed w1
   else if negb built then
     result = Return false /\ calls final = calls w2 /\ probed final = probed w2
   else if negb started then
     result = Return false /\ calls final = calls w3 /\ probed final = probed w3
   else match tested with
        | Return _ => result = Return true
        | Raise e => result = Raise e
        end) /\
  (let w0 := say "🧪 기본 환경 테스트 실행 중.."
               (say ("🚀 " +:+ item (services self) service +:+ " 실행 중..") w) in
   let env_ok := fst (test_basic_environment host self w0) in
   let w1 := snd (test_basic_environment host self w0) in
   let built := fst (build_service host self service w1) in
   let w2 := snd (build_service host self service w1) in
   let started := fst (run_service host self service w2) in
   let w3 := snd (run_service host self service w2) in
   let tested := fst (test_services host self (say "🔍 서비스 실행 상태 확인 중.." w3)) in
   let result := fst (run_single_service host self service w) in
   let final := snd (run_single_service host self service w) in
   calls w2 = compose self ("build " +:+ service) :: calls w1 /\
   calls w3 = compose self ("up -d " +:+ service) :: calls w2 /\
   if negb env_ok then
     result = Return false /\ calls final = calls w1 /\ probed final = probed w1
   else if negb built then
     result = Return false /\ calls final = calls w2 /\ probed final = probed w2
   else if negb started then
     result = Return false /\ calls final = calls w3 /\ probed final = probed w3
   else match tested with
        | Return _ => result = Return true
        | Raise e => result = Raise e
        end).
Proof.
  intros Hkey. split.
  - intros w0 env_ok w1 built w2 started w3 tested result final.
    split; [exact (proj1 (proj2 (build_service_events host self EmptyString _)))|].
    split; [exact (proj1 (proj2 (run_service_events host self EmptyString _)))|].
    unfold result, final, run_all_services.
    rewrite !bind_eq, !print_eq. cbn [fst snd]. fold w0. fold env_ok w1.
    destruct env_ok; cbn [negb].
    + rewrite !bind_eq, !print_eq. cbn [fst snd]. fold built w2.
      destruct built; cbn [negb].
      * rewrite !bind_eq, !print_eq. cbn [fst snd]. fold started w3.
        destruct started; cbn [negb].
        -- rewrite bind_eq, print_eq. cbn [fst snd]. rewrite bind_eq. fold tested.
           destruct tested; [rewrite !bind_eq|]; reflexivity.
        -- rewrite !bind_eq, !print_eq. repeat split.
      * rewrite !bind_eq, !print_eq. repeat split.
    + rewrite !bind_eq, !print_eq. repeat split.
  - intros w0 env_ok w1 built w2 started w3 tested result final.
    split; [exact (proj1 (proj2 (build_service_events host self service _)))|].
    split; [exact (proj1 (proj2 (run_service_events host self service _)))|].
    unfold result, final, run_single_service. rewrite Hkey. cbn [negb].
    rewrite !bind_eq, !print_eq. cbn [fst snd]. fold w0. fold env_ok w1.
    destruct env_ok; cbn [negb].
    + rewrite !bind_eq. fold built w2.
      destruct built; cbn [negb].
      * rewrite !bind_eq. fold started w3.
        destruct started; cbn [negb].
        -- rewrite bind_eq, print_eq. cbn [fst snd]. rewrite bind_eq. fold tested.
           destruct tested; [rewrite !bind_eq|]; reflexivity.
        -- repeat split.
      * repeat split.
    + rewrite !bind_eq, !print_eq. repeat split.
Qed.

Lemma bring_up_sequence_witness :
  has_key (services Sample.manager) "api-server" = true /\
  fst (test_services (Sample.obliging EmptyString) Sample.manager
         (snd (run_service (Sample.obliging EmptyString) Sample.manager "api-server"
                 (snd (build_service (Sample.obliging EmptyString) Sample.manager "api-server"
                         (snd (test_basic_environment (Sample.obliging EmptyString)
                                 Sample.manager (Sample.fresh []))))))))
  = Return false /\
  fst (run_all_services (Sample.obliging EmptyString) Sample.manager (Sample.fresh []))
  = Return true /\
  fst (run_single_service (Sample.obliging EmptyString) Sample.manager "api-server"
         (Sample.fresh []))
  = Return true.
Proof.
  split; [reflexivity|]. split; [vm_compute; reflexivity|].
  destruct (bring_up_sequence (Sample.obliging EmptyString) Sample.manager "api-server"
              (Sample.fresh []) eq_refl) as [(_ & _ & A) (_ & _ & B)].
  split; [exact A | exact B].
Defined.

(** ** show_logs *)

(** C9, amended: [show_logs] asks for the last 20 lines of the service, or
    of all services when the key is None or empty.  It prints the captured
    output as it is when the command exits with code 0 and the output is
    not empty; in every other case (a failed command, or no output) it
    prints the error line, followed by the error text if there is any. *)
Theorem show_logs_prints (host : Host) (self : ServiceManager)
    (service : option string) (w : World) :
  let header :=
    if Py.truthy_opt service
    then "📋 " +:+ Py.format_opt service +:+ " 로그:"
    else "📋 전체 서비스 로그:" in
  let command :=
    if Py.truthy_opt service
    then compose self ("logs --tail=20 " +:+ Py.format_opt service)
    else compose self "logs --tail=20" in
  let final := snd (show_logs host self service w) in
  let complaint (text : string) :=
    ((if Py.truthy text then ["오류: " +:+ text] else [])
       ++ "❌ 로그를 가져올 수 없습니다" :: header :: printed w)%list in
  calls final = command :: calls w /\
  match shell host (calls w) command with
  | Exited returncode out err =>
      if (returncode =? 0) && Py.truthy out
      then printed final = out :: header :: printed w
      else printed final = complaint err
  | SpawnFailed message => printed final = complaint message
  end.
Proof.
  intros header command final complaint.
  unfold final, complaint, header, command, show_logs.
  destruct (Py.truthy_opt service); rewrite !bind_eq; simpl;
    rewrite run_command_eq; cbn -[triple subprocess_run].
  all: match goal with
       | |- context [shell ?h ?history ?c] =>
           destruct (shell h history c) as [returncode out err|message]
       end.
  all: try (rewrite triple_exited; cbn -[Py.truthy];
            destruct (returncode =? 0), (Py.truthy out), (Py.truthy err);
            split; reflexivity).
  all: cbn -[Py.truthy]; destruct (Py.truthy message); split; reflexivity.
Qed.

(** C9 as stated fails: the command exits with code 0 and prints nothing,
    and [show_logs] prints the error line. *)
Lemma no_output_is_reported_as_failure :
  shell (Sample.obliging EmptyString) [] Sample.logs_all = Exited 0 EmptyString EmptyString /\
  show_logs (Sample.obliging EmptyString) Sample.manager None (Sample.fresh [])
  = (tt, {| calls := [Sample.logs_all];
            printed := ["❌ 로그를 가져올 수 없습니다"; "📋 전체 서비스 로그:"];
            probed := []; stdin := [] |}).
Proof. split; reflexivity. Qed.


(** ** What reads the terminal *)

Lemma keeps_ret {A} (a : A) : keeps_stdin (ret a).
Proof. intros w. reflexivity. Qed.

Lemma keeps_print (line : string) : keeps_stdin (print line).
Proof. intros w. reflexivity. Qed.

Lemma keeps_bind {A B} (m : M A) (k : A -> M B) :
  keeps_stdin m -> (forall a, keeps_stdin (k a)) -> keeps_stdin (bind m k).
Proof. intros Hm Hk w. rewrite bind_eq, Hk, Hm. reflexivity. Qed.

Lemma keeps_when (b : bool) (m : M unit) : keeps_stdin m -> keeps_stdin (when b m).
Proof. intros Hm. destruct b; [exact Hm | apply keeps_ret]. Qed.

Lemma keeps_for_each {A} (l : list A) (body : A -> M unit) :
  (forall x, keeps_stdin (body x)) -> keeps_stdin (for_each l body).
Proof.
  intros Hbody. induction l as [|x l IH]; simpl; [apply keeps_ret|].
  apply keeps_bind; [apply Hbody | intros _; exact IH].
Qed.

Lemma keeps_fold_each {A S} (l : list A) (body : S -> A -> M S) :
  (forall s x, keeps_stdin (body s x)) -> forall s, keeps_stdin (fold_each l s body).
Proof.
  intros Hbody. induction l as [|x l IH]; intros s; simpl; [apply keeps_ret|].
  apply keeps_bind; [apply Hbody | intros s'; apply IH].
Qed.

Lemma keeps_try_each {A} (l : list A) (body : A -> M (outcome unit)) :
  (forall x, keeps_stdin (body x)) -> keeps_stdin (try_each l body).
Proof.
  intros Hbody. induction l as [|x l IH]; simpl; [apply keeps_ret|].
  apply keeps_bind; [apply Hbody | intros [u|e]; [exact IH | apply keeps_ret]].
Qed.

Lemma keeps_try_fold {A S} (l : list A) (body : S -> A -> M (outcome S)) :
  (forall s x, keeps_stdin (body s x)) -> forall s, keeps_stdin (try_fold l s body).
Proof.
  intros Hbody. induction l as [|x l IH]; intros s; simpl; [apply keeps_ret|].
  apply keeps_bind; [apply Hbody | intros [s'|e]; [apply IH | apply keeps_ret]].
Qed.

Lemma keeps_exists (host : Host) (p : Path) : keeps_stdin (exists_ host p).
Proof. intros w. reflexivity. Qed.

Lemma keeps_probe (host : Host) (port : Z) : keeps_stdin (probe host port).
Proof. intros w. reflexivity. Qed.

Lemma keeps_run_command (host : Host) (self : ServiceManager) (command : string)
    (check capture_output : bool) :
  keeps_stdin (run_command host self command check capture_output).
Proof. intros w. rewrite run_command_eq. reflexivity. Qed.

Create HintDb stdin_kept discriminated.
#[local] Hint Constants Opaque : stdin_kept.
#[local] Hint Variables Opaque : stdin_kept.

(** Takes a computation apart down to the prints, commands and probes, and
    to the methods already dealt with. *)
Ltac keeps :=
  repeat lazymatch goal with
    | |- keeps_stdin (ret _) => apply keeps_ret
    | |- keeps_stdin (print _) => apply keeps_print
    | |- keeps_stdin (bind _ _) => apply keeps_bind; [|intros ?]
    | |- keeps_stdin (when _ _) => apply keeps_when
    | |- keeps_stdin (for_each _ _) => apply keeps_for_each; intros ?
    | |- keeps_stdin (fold_each _ _ _) => apply keeps_fold_each; intros ? ?
    | |- keeps_stdin (try_each _ _) => apply keeps_try_each; intros ?
    | |- keeps_stdin (try_fold _ _ _) => apply keeps_try_fold; intros ? ?
    | |- keeps_stdin (run_command _ _ _ _ _) => apply keeps_run_command
    | |- keeps_stdin (exists_ _ _) => apply keeps_exists
    | |- keeps_stdin (probe _ _) => apply keeps_probe
    | |- keeps_stdin (if ?b then _ else _) => destruct b
    | |- keeps_stdin (match ?x with _ => _ end) => destruct x
    | |- keeps_stdin _ => solve [auto 1 with stdin_kept nocore]
    end.

Lemma keeps_report (r : Z * option string * option string) (ok_line failed_line : string) :
  keeps_stdin (report r ok_line failed_line).
Proof. unfold report. keeps. Qed.
#[local] Hint Resolve keeps_report : stdin_kept.

Lemma keeps_build_service (host : Host) (self : ServiceManager) (service : string) :
  keeps_stdin (build_service host self service).
Proof. unfold build_service. keeps. Qed.
#[local] Hint Resolve keeps_build_service : stdin_kept.

Lemma keeps_run_service (host : Host) (self : ServiceManager) (service : string) :
  keeps_stdin (run_service host self service).
Proof. unfold run_service. keeps. Qed.
#[local] Hint Resolve keeps_run_service : stdin_kept.

Lemma keeps_stop_all_services (host : Host) (self : ServiceManager) :
  keeps_stdin (stop_all_services host self).
Proof. unfold stop_all_services. keeps. Qed.
#[local] Hint Resolve keeps_stop_all_services : stdin_kept.

Lemma keeps_get_service_status (host : Host) (self : ServiceManager) :
  keeps_stdin (get_service_status host self).
Proof. unfold get_service_status, structured_pass, text_pass. keeps. Qed.
#[local] Hint Resolve keeps_get_service_status : stdin_kept.

Lemma keeps_show_service_status (host : Host) (self : ServiceManager) :
  keeps_stdin (show_service_status host self).
Proof.
  unfold show_service_status, show_status. keeps.
Qed.
#[local] Hint Resolve keeps_show_service_status : stdin_kept.

Lemma keeps_check_files (host : Host) (files : list Path) :
  keeps_stdin (check_files host files).
Proof. induction files as [|file_path files IH]; simpl; keeps. Qed.
#[local] Hint Resolve keeps_check_files : stdin_kept.

Lemma keeps_test_basic_environment (host : Host) (self : ServiceManager) :
  keeps_stdin (test_basic_environment host self).
Proof. unfold test_basic_environment. keeps. Qed.
#[local] Hint Resolve keeps_test_basic_environment : stdin_kept.

Lemma keeps_test_port (host : Host) (entry : Z * string) :
  keeps_stdin (test_port host entry).
Proof. intros w. apply test_port_events. Qed.
#[local] Hint Resolve keeps_test_port : stdin_kept.

Lemma keeps_test_services (host : Host) (self : ServiceManager) :
  keeps_stdin (test_services host self).
Proof. unfold test_services. keeps. Qed.
#[local] Hint Resolve keeps_test_services : stdin_kept.

Lemma keeps_run_all_services (host : Host) (self : ServiceManager) :
  keeps_stdin (run_all_services host self).
Proof.
  unfold run_all_services. keeps.
Qed.
#[local] Hint Resolve keeps_run_all_services : stdin_kept.

Lemma keeps_run_single_service (host : Host) (self : ServiceManager) (service : string) :
  keeps_stdin (run_single_service host self service).
Proof.
  unfold run_single_service. keeps.
Qed.
#[local] Hint Resolve keeps_run_single_service : stdin_kept.

Lemma keeps_show_logs (host : Host) (self : ServiceManager) (service : option string) :
  keeps_stdin (show_logs host self service).
Proof. unfold show_logs. keeps. Qed.
#[local] Hint Resolve keeps_show_logs : stdin_kept.

Lemma keeps_print_numbered (entries : list (string * string)) :
  forall i, keeps_stdin (print_numbered i entries).
Proof. induction entries as [|[service service_name] entries IH]; intros i; simpl; keeps. Qed.
#[local] Hint Resolve keeps_print_numbered : stdin_kept.

Lemma keeps_print_menu : keeps_stdin print_menu.
Proof. unfold print_menu. keeps. Qed.
#[local] Hint Resolve keeps_print_menu : stdin_kept.

(** ** The menu *)

Lemma input_stdin (prompt : string) (w : World) :
  match fst (input prompt w) with
  | EOFError => stdin w = [] /\ stdin (snd (input prompt w)) = []
  | _ => length (stdin w) = S (length (stdin (snd (input prompt w))))
  end.
Proof. unfold input. destruct (stdin w) as [|[text|] rest]; simpl; auto. Qed.

Lemma input_stdin_le (prompt : string) (w : World) :
  (length (stdin (snd (input prompt w))) <= length (stdin w))%nat.
Proof.
  pose proof (input_stdin prompt w) as H.
  destruct (fst (input prompt w)); [lia | lia |].
  destruct H as [-> ->]. lia.
Qed.

Lemma selection_menu_stdin (host : Host) (self : ServiceManager) (w : World) :
  (length (stdin (snd (show_service_selection_menu host self w))) <= length (stdin w))%nat.
Proof.
  unfold show_service_selection_menu. rewrite !bind_eq, !print_eq. cbn [fst snd].
  match goal with
  | |- context [input ?p ?w'] =>
      assert (stdin w' = stdin w) as Hw
        by (autorewrite with world;
            rewrite (keeps_print_numbered (services self) 1); reflexivity);
      pose proof (input_stdin_le p w') as Hle; rewrite Hw in Hle;
      destruct (fst (input p w')) as [text| |]
  end.
  - cbv zeta. destruct (String.eqb (Py.strip text) "0"); [exact Hle|].
    destruct (Py.isdigit (Py.strip text)); [|exact Hle].
    destruct (Py.int (int_max_str_digits host) (Py.strip text)) as [number|e];
      [|exact Hle].
    destruct ((1 <=? number) && (number <=? 5)); [|exact Hle].
    destruct (nth_error (keys (services self)) (Z.to_nat (number - 1)))
      as [selected_service|]; [|exact Hle].
    rewrite bind_eq.
    pose proof (keeps_run_single_service host self selected_service) as Hrun.
    destruct (fst (run_single_service host self selected_service _));
      cbn [ret snd print stdin]; rewrite Hrun; exact Hle.
  - exact Hle.
  - exact Hle.
Qed.

Lemma menu_action_stdin (host : Host) (self : ServiceManager) (choice : string)
    (w : World) :
  (length (stdin (snd (menu_action host self choice w))) <= length (stdin w))%nat.
Proof.
  unfold menu_action.
  repeat match goal with
         | |- context [if String.eqb choice ?c then _ else _] =>
             destruct (String.eqb choice c)
         end;
    try (rewrite bind_eq; cbn [ret snd]; apply selection_menu_stdin);
    try (apply Nat.eq_le_incl; f_equal;
         match goal with |- stdin (snd (?m w)) = _ => revert w; change (keeps_stdin m) end;
         keeps).
Qed.

(** A turn that goes on has read a key, unless there was none left. *)
Lemma menu_turn_stdin (host : Host) (self : ServiceManager) (w : World) :
  match fst (menu_turn host self w) with
  | Break => True
  | Continue =>
      (stdin w = [] /\ stdin (snd (menu_turn host self w)) = []) \/
      (length (stdin (snd (menu_turn host self w))) < length (stdin w))%nat
  end.
Proof.
  unfold menu_turn. rewrite !bind_eq.
  set (w1 := snd (print_menu w)).
  assert (stdin w1 = stdin w) as Hw1 by apply keeps_print_menu.
  pose proof (input_stdin "선택하세요 (0-6): " w1) as Hin. rewrite Hw1 in Hin.
  destruct (fst (input "선택하세요 (0-6): " w1)) as [text| |].
  - destruct (String.eqb (Py.strip text) "0"); [rewrite ?bind_eq; exact I|].
    rewrite ?bind_eq.
    set (w2 := snd (input "선택하세요 (0-6): " w1)) in *.
    set (w3 := snd (menu_action host self (Py.strip text) w2)).
    pose proof (menu_action_stdin host self (Py.strip text) w2) as Hact. fold w3 in Hact.
    destruct (fst (menu_action host self (Py.strip text) w2)) as [done|e].
    * rewrite bind_eq.
      pose proof (input_stdin_le (String Py.newline "계속하려면 Enter를 누르세요...") w3)
        as Hle.
      destruct (fst (input (String Py.newline "계속하려면 Enter를 누르세요...") w3));
        unfold interrupted; rewrite ?bind_eq; cbn [fst snd ret].
      -- right. rewrite print_eq. cbn [snd]. autorewrite with world. lia.
      -- exact I.
      -- right. rewrite print_eq. cbn [snd]. autorewrite with world. lia.
    * rewrite bind_eq, print_eq. cbn [fst snd ret]. right.
      autorewrite with world. lia.
  - unfold interrupted. rewrite ?bind_eq. exact I.
  - rewrite ?bind_eq, print_eq. cbn [fst snd ret]. left.
    autorewrite with world. destruct Hin as [H1 H2]. split; assumption.
Qed.

(** At the end of the input the loop never ends. *)
Lemma show_menu_at_eof (host : Host) (self : ServiceManager) (fuel : nat) :
  forall w, stdin w = [] -> fst (show_menu host self fuel w) = None.
Proof.
  induction fuel as [|fuel IH]; intros w Hw; [reflexivity|].
  cbn [show_menu]. rewrite bind_eq.
  pose proof (menu_turn_stdin host self w) as Hturn.
  assert (fst (menu_turn host self w) = Continue) as Hcont.
  { unfold menu_turn. rewrite !bind_eq.
    assert (stdin (snd (print_menu w)) = []) as H
      by (rewrite (keeps_print_menu w); exact Hw).
    unfold input at 1. rewrite H. reflexivity. }
  rewrite Hcont in *. apply IH.
  destruct Hturn as [[_ H]|H]; [exact H|]. rewrite Hw in H. cbn [length] in H. lia.
Qed.

(** Once the menu was left, more fuel changes nothing. *)
Lemma show_menu_more_fuel (host : Host) (self : ServiceManager) (fuel extra : nat) :
  forall w,
    fst (show_menu host self fuel w) = Some tt ->
    show_menu host self (fuel + extra) w = show_menu host self fuel w.
Proof.
  induction fuel as [|fuel IH]; intros w H; [discriminate|].
  cbn [show_menu Nat.add] in *. rewrite bind_eq in H. rewrite !bind_eq.
  destruct (fst (menu_turn host self w)); [reflexivity|]. apply IH, H.
Qed.


(** ** The status a query returns *)

Lemma checked_and_captured (p : proc) :
  (fst (fst (triple (subprocess_run p true true))) =? 0)
  && Py.truthy_opt (snd (fst (triple (subprocess_run p true true))))
  = match usable p with Some _ => true | None => false end /\
  forall out, usable p = Some out ->
              Py.or_empty (snd (fst (triple (subprocess_run p true true)))) = out.
Proof.
  destruct p as [returncode out err|message]; [|split; [reflexivity | discriminate]].
  rewrite triple_exited. cbn [fst snd usable Py.truthy_opt].
  destruct ((returncode =? 0) && Py.truthy out); split; try reflexivity; try discriminate.
  intros out' H. inversion H; subst. apply or_empty_Some.
Qed.

Lemma structured_pass_value (host : Host) (self : ServiceManager) (w : World) :
  fst (structured_pass host self w)
  = match usable (shell host (calls w) (ps_json_command self)) with
    | Some out => fst (json_lines host (lines_of out) ∅)
    | None => ∅
    end.
Proof.
  unfold structured_pass, ps_json_command. rewrite bind_eq, run_command_eq. cbn [fst snd].
  destruct (checked_and_captured (shell host (calls w) (compose self "ps --format json")))
    as [Hguard Hout].
  destruct (triple _) as [[returncode stdout] stderr]. cbn [fst snd] in Hguard, Hout.
  rewrite Hguard.
  destruct (usable _) as [out|]; [|reflexivity].
  rewrite (Hout out eq_refl).
  destruct (json_lines host (lines_of out) ∅) as [status [e|]]; reflexivity.
Qed.

Lemma text_pass_value (host : Host) (self : ServiceManager)
    (status : gmap pykey pyjson) (w : World) :
  fst (text_pass host self status w)
  = match usable (shell host (calls w) (ps_command self)) with
    | Some out => text_lines self (tl (lines_of out)) status
    | None => status
    end.
Proof.
  unfold text_pass, ps_command. rewrite !bind_eq, print_eq, run_command_eq. cbn [fst snd].
  autorewrite with world.
  destruct (checked_and_captured (shell host (calls w) (compose self "ps")))
    as [Hguard Hout].
  destruct (triple _) as [[returncode stdout] stderr]. cbn [fst snd] in Hguard, Hout.
  rewrite Hguard.
  destruct (usable _) as [out|]; [|reflexivity].
  rewrite (Hout out eq_refl). reflexivity.
Qed.

Lemma get_service_status_value (host : Host) (self : ServiceManager) (w : World) :
  fst (get_service_status host self w) = status_after host self (calls w).
Proof.
  unfold status_after, structured_status, get_service_status.
  rewrite !bind_eq, print_eq. cbn [fst snd].
  pose proof (structured_pass_value host self (say "🔍 서비스 상태 확인 중.." w)) as Hs.
  pose proof (fallback_iff_no_entry host self w) as [Hcalls _].
  autorewrite with world in Hs. rewrite <- Hs.
  destruct (is_empty (fst (structured_pass host self (say "🔍 서비스 상태 확인 중.." w))))
    eqn:Hempty; [|reflexivity].
  rewrite text_pass_value. unfold ps_json_command. rewrite Hcalls.
  apply is_empty_true in Hempty. rewrite Hempty. reflexivity.
Qed.

(** ** What raises, and what does not *)



Lemma test_services_value (host : Host) (self : ServiceManager) (w : World) :
  let status := status_after host self (calls w) in
  fst (test_services host self w)
  = match snd (until_raise (map (reported_up status) (keys (services self)))) with
    | None =>
        Return (forallb id (fst (until_raise (map (reported_up status)
                                                   (keys (services self))))))
    | Some e => Raise e
    end.
Proof.
  intros status. unfold test_services.
  do 3 (rewrite bind_eq, print_eq; cbn [fst snd]).
  rewrite bind_eq, get_service_status_value. autorewrite with world. fold status.
  rewrite bind_eq, print_eq. cbn [fst snd]. rewrite bind_eq.
  match goal with
  | |- context [try_fold ?l true ?body ?w'] =>
      destruct (status_loop status l true w') as [Hr _];
      cbv zeta in Hr; cbn [andb] in Hr; rewrite Hr
  end.
  destruct (snd (until_raise _)); [reflexivity|].
  destruct (forallb id _); cbn [negb]; rewrite !bind_eq; reflexivity.
Qed.




(** ** main *)

Lemma keeps_check_docker (host : Host) (self : ServiceManager) :
  keeps_stdin (check_docker host self).
Proof. unfold check_docker. keeps. Qed.

Lemma keeps_check_compose_file (host : Host) (self : ServiceManager) :
  keeps_stdin (check_compose_file host self).
Proof. unfold check_compose_file. keeps. Qed.

Lemma keeps_init (host : Host) : keeps_stdin (init host).
Proof. unfold init. keeps. Qed.

(** The two probes of [check_docker], the second only after the first. *)
Lemma check_docker_result (host : Host) (self : ServiceManager) (w : World) :
  fst (check_docker host self w)
  = exits_0 (shell host (calls w) "docker --version")
    && exits_0 (shell host ("docker --version" :: calls w) "docker info").
Proof.
  unfold check_docker. rewrite !bind_eq, print_eq, run_command_eq. cbn [fst snd].
  autorewrite with world.
  destruct (shell host (calls w) "docker --version") as [returncode out err|message];
    cbn [subprocess_run triple andb exits_0]; [|reflexivity].
  destruct (returncode =? 0); [|reflexivity].
  rewrite !bind_eq, print_eq, run_command_eq. cbn [fst snd andb].
  autorewrite with world.
  destruct (shell host ("docker --version" :: calls w) "docker info")
    as [returncode' out' err'|message'];
    cbn [subprocess_run triple andb exits_0]; [|reflexivity].
  destruct (returncode' =? 0); reflexivity.
Qed.

Lemma check_compose_file_result (host : Host) (self : ServiceManager) (w : World) :
  fst (check_compose_file host self w) = path_exists host (calls w) (compose_file self).
Proof.
  unfold check_compose_file. rewrite bind_eq. unfold exists_ at 1 2. cbn [fst snd].
  destruct (path_exists host (calls w) (compose_file self)); reflexivity.
Qed.






(** * More of the script *)

(** ** What runs commands and what opens sockets *)

Lemma keeps_ret_any {X A} (f : World -> X) (a : A) : keeps f (ret a).
Proof. intros w. reflexivity. Qed.

Lemma keeps_bind_any {X A B} (f : World -> X) (m : M A) (k : A -> M B) :
  keeps f m -> (forall a, keeps f (k a)) -> keeps f (bind m k).
Proof. intros Hm Hk w. rewrite bind_eq, Hk, Hm. reflexivity. Qed.

Lemma keeps_when_any {X} (f : World -> X) (b : bool) (m : M unit) :
  keeps f m -> keeps f (when b m).
Proof. intros Hm. destruct b; [exact Hm | apply keeps_ret_any]. Qed.

Lemma keeps_for_each_any {X A} (f : World -> X) (l : list A) (body : A -> M unit) :
  (forall x, keeps f (body x)) -> keeps f (for_each l body).
Proof.
  intros Hbody. induction l as [|x l IH]; simpl; [apply keeps_ret_any|].
  apply keeps_bind_any; [apply Hbody | intros _; exact IH].
Qed.

Lemma keeps_fold_each_any {X A S} (f : World -> X) (l : list A) (body : S -> A -> M S) :
  (forall s x, keeps f (body s x)) -> forall s, keeps f (fold_each l s body).
Proof.
  intros Hbody. induction l as [|x l IH]; intros s; simpl; [apply keeps_ret_any|].
  apply keeps_bind_any; [apply Hbody | intros s'; apply IH].
Qed.

Lemma keeps_try_each_any {X A} (f : World -> X) (l : list A)
    (body : A -> M (outcome unit)) :
  (forall x, keeps f (body x)) -> keeps f (try_each l body).
Proof.
  intros Hbody. induction l as [|x l IH]; simpl; [apply keeps_ret_any|].
  apply keeps_bind_any; [apply Hbody | intros [u|e]; [exact IH | apply keeps_ret_any]].
Qed.

Lemma keeps_try_fold_any {X A S} (f : World -> X) (l : list A)
    (body : S -> A -> M (outcome S)) :
  (forall s x, keeps f (body s x)) -> forall s, keeps f (try_fold l s body).
Proof.
  intros Hbody. induction l as [|x l IH]; intros s; simpl; [apply keeps_ret_any|].
  apply keeps_bind_any; [apply Hbody | intros [s'|e]; [apply IH | apply keeps_ret_any]].
Qed.

Lemma print_keeps_calls (line : string) : keeps calls (print line).
Proof. intros w. reflexivity. Qed.

Lemma print_keeps_probed (line : string) : keeps probed (print line).
Proof. intros w. reflexivity. Qed.

Lemma exists_keeps_calls (host : Host) (p : Path) : keeps calls (exists_ host p).
Proof. intros w. reflexivity. Qed.

Lemma exists_keeps_probed (host : Host) (p : Path) : keeps probed (exists_ host p).
Proof. intros w. reflexivity. Qed.

Lemma probe_keeps_calls (host : Host) (port : Z) : keeps calls (probe host port).
Proof. intros w. reflexivity. Qed.

Lemma input_keeps_calls (prompt : string) : keeps calls (input prompt).
Proof. intros w. unfold input. destruct (stdin w) as [|[text|] rest]; reflexivity. Qed.

Lemma input_keeps_probed (prompt : string) : keeps probed (input prompt).
Proof. intros w. unfold input. destruct (stdin w) as [|[text|] rest]; reflexivity. Qed.

Lemma run_command_keeps_probed (host : Host) (self : ServiceManager) (command : string)
    (check capture_output : bool) :
  keeps probed (run_command host self command check capture_output).
Proof. intros w. rewrite run_command_eq. reflexivity. Qed.

Create HintDb logs_kept discriminated.
#[local] Hint Constants Opaque : logs_kept.
#[local] Hint Variables Opaque : logs_kept.
#[local] Hint Resolve print_keeps_calls print_keeps_probed exists_keeps_calls
  exists_keeps_probed probe_keeps_calls input_keeps_calls input_keeps_probed
  run_command_keeps_probed : logs_kept.

(** Takes a computation apart, as [keeps] does, for any of the logs. *)
Ltac frame :=
  repeat lazymatch goal with
    | |- keeps _ (ret _) => apply keeps_ret_any
    | |- keeps _ (bind _ _) => apply keeps_bind_any; [|intros ?]
    | |- keeps _ (when _ _) => apply keeps_when_any
    | |- keeps _ (for_each _ _) => apply keeps_for_each_any; intros ?
    | |- keeps _ (fold_each _ _ _) => apply keeps_fold_each_any; intros ? ?
    | |- keeps _ (try_each _ _) => apply keeps_try_each_any; intros ?
    | |- keeps _ (try_fold _ _ _) => apply keeps_try_fold_any; intros ? ?
    | |- keeps _ (if ?b then _ else _) => destruct b
    | |- keeps _ (match ?x with _ => _ end) => destruct x
    | |- keeps _ _ => solve [auto 1 with logs_kept nocore]
    end.

Lemma report_keeps_calls (r : Z * option string * option string)
    (ok_line failed_line : string) :
  keeps calls (report r ok_line failed_line).
Proof. unfold report. frame. Qed.
#[local] Hint Resolve report_keeps_calls : logs_kept.

Lemma report_keeps_probed (r : Z * option string * option string)
    (ok_line failed_line : string) :
  keeps probed (report r ok_line failed_line).
Proof. unfold report. frame. Qed.
#[local] Hint Resolve report_keeps_probed : logs_kept.

Lemma check_files_keeps_calls (host : Host) (files : list Path) :
  keeps calls (check_files host files).
Proof. induction files as [|file_path files IH]; simpl; frame. Qed.
#[local] Hint Resolve check_files_keeps_calls : logs_kept.

Lemma check_files_keeps_probed (host : Host) (files : list Path) :
  keeps probed (check_files host files).
Proof. induction files as [|file_path files IH]; simpl; frame. Qed.
#[local] Hint Resolve check_files_keeps_probed : logs_kept.

Lemma print_menu_keeps_calls : keeps calls print_menu.
Proof. unfold print_menu. frame. Qed.
#[local] Hint Resolve print_menu_keeps_calls : logs_kept.

Lemma print_numbered_keeps_calls (entries : list (string * string)) :
  forall i, keeps calls (print_numbered i entries).
Proof.
  induction entries as [|[service service_name] entries IH]; intros i; simpl; frame.
Qed.
#[local] Hint Resolve print_numbered_keeps_calls : logs_kept.

Lemma show_status_keeps_calls (self : ServiceManager) (status : gmap pykey pyjson) :
  keeps calls (show_status self status).
Proof. unfold show_status. frame. Qed.
#[local] Hint Resolve show_status_keeps_calls : logs_kept.

Lemma get_service_status_keeps_probed (host : Host) (self : ServiceManager) :
  keeps probed (get_service_status host self).
Proof. unfold get_service_status, structured_pass, text_pass. frame. Qed.
#[local] Hint Resolve get_service_status_keeps_probed : logs_kept.

Lemma test_basic_environment_keeps_probed (host : Host) (self : ServiceManager) :
  keeps probed (test_basic_environment host self).
Proof. unfold test_basic_environment. frame. Qed.
#[local] Hint Resolve test_basic_environment_keeps_probed : logs_kept.

(** ** The pre-flight checks and the environment check *)

Lemma triple_unchecked (p : proc) (capture_output : bool) :
  (fst (fst (triple (subprocess_run p false capture_output))) =? 0) = exits_0 p.
Proof. destruct p; reflexivity. Qed.

Lemma check_docker_calls (host : Host) (self : ServiceManager) (w : World) :
  calls (snd (check_docker host self w))
  = if exits_0 (shell host (calls w) "docker --version")
    then "docker info" :: "docker --version" :: calls w
    else "docker --version" :: calls w.
Proof.
  unfold check_docker. rewrite !bind_eq, print_eq, run_command_eq. cbn [fst snd].
  autorewrite with world.
  destruct (shell host (calls w) "docker --version") as [returncode out err|message];
    cbn [subprocess_run triple andb exits_0]; [|reflexivity].
  destruct (returncode =? 0); [|reflexivity].
  rewrite !bind_eq, print_eq, run_command_eq. cbn [fst snd].
  autorewrite with world.
  destruct (triple _) as [[returncode' stdout'] stderr'].
  destruct (returncode' =? 0); reflexivity.
Qed.

Lemma check_docker_keeps_probed (host : Host) (self : ServiceManager) :
  keeps probed (check_docker host self).
Proof. unfold check_docker. frame. Qed.

(** X1: [check_docker] answers true exactly when [docker --version] and then
    [docker info] both exit with code 0.  It asks [docker info] only after
    [docker --version] succeeded, runs nothing else, and opens no socket. *)
Theorem check_docker_probes (host : Host) (self : ServiceManager) (w : World) :
  fst (check_docker host self w)
  = exits_0 (shell host (calls w) "docker --version")
    && exits_0 (shell host ("docker --version" :: calls w) "docker info") /\
  calls (snd (check_docker host self w))
  = (if exits_0 (shell host (calls w) "docker --version")
     then "docker info" :: "docker --version" :: calls w
     else "docker --version" :: calls w) /\
  probed (snd (check_docker host self w)) = probed w /\
  stdin (snd (check_docker host self w)) = stdin w.
Proof.
  split; [apply check_docker_result|].
  split; [apply check_docker_calls|].
  split; [apply check_docker_keeps_probed | apply keeps_check_docker].
Qed.

Lemma check_files_result (host : Host) (files : list Path) :
  forall w,
    fst (check_files host files w) = forallb (path_exists host (calls w)) files.
Proof.
  induction files as [|file_path files IH]; intros w; [reflexivity|].
  cbn [check_files forallb]. rewrite bind_eq. unfold exists_ at 1 2. cbn [fst snd].
  destruct (path_exists host (calls w) file_path); rewrite bind_eq, print_eq; cbn [fst snd];
    [|reflexivity].
  rewrite IH. reflexivity.
Qed.

(** What the environment check answers and what it runs. *)
Lemma test_basic_environment_events (host : Host) (self : ServiceManager) (w : World) :
  let files_ok := forallb (path_exists host (calls w)) (required_files self) in
  fst (test_basic_environment host self w)
  = files_ok && exits_0 (shell host (calls w) (config_command self)) /\
  calls (snd (test_basic_environment host self w))
  = if files_ok then config_command self :: calls w else calls w.
Proof.
  intros files_ok. unfold test_basic_environment, config_command.
  rewrite !bind_eq, !print_eq. cbn [fst snd].
  set (w0 := say "📁 파일 구조 테스트 중.." (say rule (say "🧪 기본 환경 테스트 시작..." w))).
  rewrite (check_files_result host (required_files self) w0).
  change (calls w0) with (calls w). fold files_ok.
  assert (calls (snd (check_files host (required_files self) w0)) = calls w) as Hcalls
    by apply (check_files_keeps_calls host (required_files self) w0).
  destruct files_ok; cbn [andb]; [|split; [reflexivity | exact Hcalls]].
  rewrite !bind_eq, print_eq, run_command_eq. cbn [fst snd].
  autorewrite with world. rewrite Hcalls.
  pose proof (triple_unchecked (shell host (calls w) (compose self "config")) false) as Hrc.
  destruct (triple _) as [[returncode stdout] stderr]. cbn [fst] in Hrc. rewrite <- Hrc.
  destruct (returncode =? 0); rewrite ?bind_eq, ?print_eq; cbn [fst snd ret];
    (split; [reflexivity|]).
  - autorewrite with world. rewrite Hcalls. reflexivity.
  - rewrite (keeps_when_any calls _ _ (print_keeps_calls _)).
    autorewrite with world. rewrite Hcalls. reflexivity.
Qed.

(** X2: [test_basic_environment] answers true exactly when the four required
    files are there and [docker compose config] exits with code 0.  If a
    file is missing it runs no command at all; otherwise [config] is the one
    command it runs.  It opens no socket and reads nothing. *)
Theorem test_basic_environment_checks (host : Host) (self : ServiceManager) (w : World) :
  let files_ok := forallb (path_exists host (calls w)) (required_files self) in
  length (required_files self) = 4%nat /\
  fst (test_basic_environment host self w)
  = files_ok && exits_0 (shell host (calls w) (compose self "config")) /\
  calls (snd (test_basic_environment host self w))
  = (if files_ok then compose self "config" :: calls w else calls w) /\
  probed (snd (test_basic_environment host self w)) = probed w /\
  stdin (snd (test_basic_environment host self w)) = stdin w.
Proof.
  intros files_ok. split; [reflexivity|].
  destruct (test_basic_environment_events host self w) as [Hr Hc].
  split; [exact Hr|]. split; [exact Hc|].
  split; [apply test_basic_environment_keeps_probed | apply keeps_test_basic_environment].
Qed.

(** X3: [remove_service] and [stop_all_services] are one command each
    ([rm -f] with the key, [down --remove-orphans]) and answer true exactly
    when it exits with code 0; a command that cannot be run counts as
    failed. *)
Theorem teardown_operations (host : Host) (self : ServiceManager) (service : string)
    (w : World) :
  (fst (remove_service host self service w)
   = exits_0 (shell host (calls w) (compose self ("rm -f " +:+ service))) /\
   calls (snd (remove_service host self service w))
   = compose self ("rm -f " +:+ service) :: calls w) /\
  (fst (stop_all_services host self w)
   = exits_0 (shell host (calls w) (compose self "down --remove-orphans")) /\
   calls (snd (stop_all_services host self w))
   = compose self "down --remove-orphans" :: calls w).
Proof.
  split.
  - unfold remove_service. split; apply one_command.
  - unfold stop_all_services. split; apply one_command.
Qed.

(** ** The status as a function of the two outputs *)

(** X4: the status [get_service_status] returns is a function of the two
    outputs alone.  If [ps --format json] exits with code 0 and prints
    something that yields entries, they are the status; otherwise the status
    is what the plain-text pass makes of [ps], and it is empty when that
    gives no usable output either.  The plain [ps] is run exactly when the
    structured pass left no entry; no socket is opened, nothing is read. *)
Theorem get_service_status_summary (host : Host) (self : ServiceManager) (w : World) :
  let structured :=
    match usable (shell host (calls w) (compose self "ps --format json")) with
    | Some out => fst (json_lines host (lines_of out) ∅)
    | None => ∅
    end in
  fst (get_service_status host self w)
  = (if is_empty structured then
       match usable (shell host (compose self "ps --format json" :: calls w)
                       (compose self "ps")) with
       | Some out => text_lines self (tl (lines_of out)) ∅
       | None => ∅
       end
     else structured) /\
  calls (snd (get_service_status host self w))
  = (if is_empty structured
     then compose self "ps" :: compose self "ps --format json" :: calls w
     else compose self "ps --format json" :: calls w) /\
  probed (snd (get_service_status host self w)) = probed w /\
  stdin (snd (get_service_status host self w)) = stdin w.
Proof.
  intros structured. split; [apply get_service_status_value|].
  split; [|split; [apply get_service_status_keeps_probed | apply keeps_get_service_status]].
  destruct (fallback_iff_no_entry host self w) as [_ H]. rewrite H.
  pose proof (structured_pass_value host self (say "🔍 서비스 상태 확인 중.." w)) as Hs.
  autorewrite with world in Hs. rewrite Hs. reflexivity.
Qed.

Lemma status_line_absent (entries : list (string * string)) :
  until_raise (map (status_line ∅) entries)
  = (map (fun entry => "⏸️ " +:+ snd entry +:+ ": 중지됨") entries, None).
Proof.
  induction entries as [|[service service_name] entries IH]; [reflexivity|].
  cbn [map]. rewrite until_raise_cons. unfold status_line at 1.
  rewrite lookup_empty, IH. reflexivity.
Qed.

(** X5: when neither [ps] command gives usable output (a non-zero exit, a
    command that cannot be run, or no output), the status is empty, and
    [show_service_status] prints the stopped line for every registered
    service and returns. *)
Theorem no_usable_output_all_stopped (host : Host) (self : ServiceManager) (w : World) :
  usable (shell host (calls w) (compose self "ps --format json")) = None ->
  usable (shell host (compose self "ps --format json" :: calls w) (compose self "ps"))
  = None ->
  fst (get_service_status host self w) = ∅ /\
  fst (show_service_status host self w) = Return tt /\
  printed (snd (show_service_status host self w))
  = (rule :: rev (map (fun entry => "⏸️ " +:+ snd entry +:+ ": 중지됨") (services self))
       ++ rule :: "📋 서비스 상태:" :: printed (snd (get_service_status host self w)))%list.
Proof.
  intros Hjson Hps.
  assert (fst (get_service_status host self w) = ∅) as Hempty.
  { rewrite get_service_status_value.
    unfold status_after, structured_status, ps_json_command, ps_command.
    rewrite Hjson, is_empty_empty, Hps. reflexivity. }
  split; [exact Hempty|].
  unfold show_service_status. rewrite bind_eq, Hempty. unfold show_status.
  do 2 (rewrite bind_eq, print_eq; cbn [fst snd]). rewrite bind_eq.
  destruct (try_each_print (status_line ∅) (services self)
              (say rule (say "📋 서비스 상태:" (snd (get_service_status host self w)))))
    as (Hr & Hp & _).
  cbv zeta in Hr, Hp. rewrite status_line_absent in Hr, Hp. cbn [fst snd] in Hr, Hp.
  rewrite Hr, bind_eq, print_eq. cbn [fst snd ret].
  split; [reflexivity|]. rewrite printed_say, Hp. reflexivity.
Qed.

Lemma no_usable_output_all_stopped_witness :
  fst (get_service_status Sample.broken Sample.manager (Sample.fresh [])) = ∅ /\
  printed (snd (show_service_status Sample.broken Sample.manager (Sample.fresh [])))
  = ["==================================";
     "⏸️ Redis (Cache): 중지됨";
     "⏸️ Nginx (Reverse Proxy): 중지됨";
     "⏸️ Database Server (PostgreSQL): 중지됨";
     "⏸️ API Server (FastAPI): 중지됨";
     "⏸️ Page Server (Next.js): 중지됨";
     "==================================";
     "📋 서비스 상태:";
     "📋 일반 형식으로 서비스 상태 확인 중..";
     "🔍 서비스 상태 확인 중.."].
Proof.
  destruct (no_usable_output_all_stopped Sample.broken Sample.manager (Sample.fresh []))
    as (A & _ & B); [reflexivity | reflexivity |].
  split; [exact A|]. rewrite B. vm_compute. reflexivity.
Defined.

(** ** The structured pass, line by line *)

Lemma json_lines_step (host : Host) (line : string) (rest : list string)
    (status : gmap pykey pyjson) :
  harmless host line = true ->
  json_lines host (line :: rest) status
  = json_lines host rest
      match named_service host line with
      | Some key => <[key := given_state host line]> status
      | None => status
      end.
Proof.
  intros Hline. cbn [json_lines]. unfold harmless in Hline.
  unfold named_service, given_state.
  destruct (Py.truthy (Py.strip line)); cbn [negb orb] in Hline; [|reflexivity].
  destruct (json_loads host (Py.strip line)) as [[]| |message];
    try discriminate Hline; [|reflexivity].
  cbv zeta in Hline.
  destruct (truth (default (PyStr EmptyString) (items !! "Service")));
    cbn [negb orb] in Hline; [|reflexivity].
  apply bool_decide_eq_true in Hline as [key Hkey]. rewrite Hkey. reflexivity.
Qed.

Lemma json_lines_stops (host : Host) (line : string) (rest : list string)
    (status : gmap pykey pyjson) :
  harmless host line = false ->
  exists e, json_lines host (line :: rest) status = (status, Some e).
Proof.
  intros Hline. cbn [json_lines]. unfold harmless in Hline.
  destruct (Py.truthy (Py.strip line)); cbn [negb orb] in Hline; [|discriminate Hline].
  destruct (json_loads host (Py.strip line)) as [[]| |message];
    try discriminate Hline; try (eexists; reflexivity).
  cbv zeta in Hline.
  destruct (truth (default (PyStr EmptyString) (items !! "Service")));
    cbn [negb orb] in Hline; [|discriminate Hline].
  apply bool_decide_eq_false in Hline.
  destruct (key_of (default (PyStr EmptyString) (items !! "Service"))) as [key|] eqn:Hkey;
    [exfalso; apply Hline; eexists; reflexivity|].
  eexists. reflexivity.
Qed.

(** Over harmless lines the loop is a fold: each line that names a service
    writes its state, and nothing is raised. *)
Lemma json_lines_harmless (host : Host) (lines : list string) :
  forall status : gmap pykey pyjson,
    forallb (harmless host) lines = true ->
    json_lines host lines status
    = (fold_left
         (fun status line =>
            match named_service host line with
            | Some key => <[key := given_state host line]> status
            | None => status
            end)
         lines status,
       None).
Proof.
  induction lines as [|line lines IH]; intros status H; [reflexivity|].
  cbn [forallb] in H. apply andb_prop in H as [Hline Hrest].
  rewrite json_lines_step by exact Hline. cbn [fold_left]. apply IH, Hrest.
Qed.

Lemma fold_keeps_other_services (host : Host) (key : pykey) (lines : list string) :
  forall status : gmap pykey pyjson,
    (forall later, In later lines -> named_service host later <> Some key) ->
    fold_left
      (fun status line =>
         match named_service host line with
         | Some name => <[name := given_state host line]> status
         | None => status
         end)
      lines status !! key
    = status !! key.
Proof.
  induction lines as [|line lines IH]; intros status H; [reflexivity|].
  cbn [fold_left]. rewrite IH by (intros later Hin; apply H; right; exact Hin).
  pose proof (H line (or_introl eq_refl)) as Hline.
  destruct (named_service host line) as [name|]; [|reflexivity].
  apply lookup_insert_ne. congruence.
Qed.

(** X6: the lines the structured pass gets over are the blank ones, those
    that do not decode, and the objects whose service name is false or can
    be a key.  When every line is one of these, nothing is raised, and a
    line that names a service decides that service's state, whatever its
    type, unless a later line names it again.  Any other line ends the
    pass: the entries made before it stay, the lines after it are not
    read. *)
Theorem structured_pass_of_harmless_lines (host : Host) :
  (forall (before after : list string) (line : string) (key : pykey)
          (status : gmap pykey pyjson),
      forallb (harmless host) (before ++ line :: after) = true ->
      named_service host line = Some key ->
      (forall later, In later after -> named_service host later <> Some key) ->
      snd (json_lines host (before ++ line :: after) status) = None /\
      fst (json_lines host (before ++ line :: after) status) !! key
      = Some (given_state host line)) /\
  (forall (before after : list string) (line : string) (status : gmap pykey pyjson),
      forallb (harmless host) before = true ->
      harmless host line = false ->
      exists e,
        json_lines host (before ++ line :: after) status
        = (fst (json_lines host before status), Some e)).
Proof.
  split.
  - intros before after line key status Hharmless Hname Hafter.
    rewrite (json_lines_harmless host _ status Hharmless). cbn [fst snd].
    split; [reflexivity|].
    rewrite fold_left_app. cbn [fold_left].
    rewrite fold_keeps_other_services by exact Hafter.
    rewrite Hname. apply lookup_insert_eq.
  - intros before after line status Hbefore Hline.
    rewrite (json_lines_harmless host before status Hbefore). cbn [fst].
    revert status. induction before as [|first before IH]; intros status.
    + apply json_lines_stops, Hline.
    + cbn [forallb] in Hbefore. apply andb_prop in Hbefore as [Hfirst Hbefore].
      cbn [app]. rewrite json_lines_step by exact Hfirst. cbn [fold_left].
      apply IH, Hbefore.
Qed.

Lemma structured_pass_of_harmless_lines_witness :
  let host := Sample.obliging EmptyString in
  let lines := [Sample.container "nginx" "exited"; "not json";
                Sample.container "nginx" "running"; EmptyString;
                Sample.numbered_state "redis" 1] in
  (snd (json_lines host lines ∅) = None /\
   fst (json_lines host lines ∅) !! KStr "nginx" = Some (PyStr "running")) /\
  harmless host (Sample.listed_service "nginx" "running") = false /\
  exists e,
    json_lines host
      ([Sample.container "redis" "running"]
         ++ Sample.listed_service "nginx" "running"
         :: [Sample.container "nginx" "running"]) ∅
    = (fst (json_lines host [Sample.container "redis" "running"] ∅), Some e).
Proof.
  intros host lines.
  destruct (structured_pass_of_harmless_lines host) as [A B].
  split; [|split; [reflexivity|]].
  - apply (A [Sample.container "nginx" "exited"; "not json"]
             [EmptyString; Sample.numbered_state "redis" 1]
             (Sample.container "nginx" "running") (KStr "nginx") ∅).
    + reflexivity.
    + reflexivity.
    + intros later [<-|[<-|[]]]; vm_compute; discriminate.
  - apply B; reflexivity.
Defined.

(** ** Status words and running states *)

Lemma lower_app (a b : string) : Py.lower (a +:+ b) = Py.lower a +:+ Py.lower b.
Proof. induction a as [|c a IH]; simpl; [reflexivity | rewrite IH; reflexivity]. Qed.

(** X7: text that the plain-text pass takes for up ("Up", "Running" or
    "Started" in it, as written) also counts as a running state for the
    display and for the service check, which compare in lower case. *)
Theorem status_word_implies_running (text : string) :
  has_status_word text = true -> is_running text = true.
Proof.
  intros H. apply has_status_word_spec in H as (word & before & after & Hin & ->).
  apply is_running_spec. rewrite !lower_app.
  exists (Py.lower word), (Py.lower before), (Py.lower after).
  split; [|reflexivity].
  destruct Hin as [<-|[<-|[<-|[]]]]; simpl; auto.
Qed.

Lemma status_word_implies_running_witness :
  has_status_word "servers-redis-1   Up 3 minutes" = true /\
  is_running "servers-redis-1   Up 3 minutes" = true /\
  has_status_word "UP" = false /\ is_running "UP" = true.
Proof.
  split; [reflexivity|]. split; [|split; reflexivity].
  apply status_word_implies_running. reflexivity.
Defined.

(** X8: every entry the plain-text fallback writes is counted as up by
    [test_services] and shown with the check mark by
    [show_service_status]; neither raises on it. *)
Theorem fallback_entries_shown_running (host : Host) (self : ServiceManager)
    (w : World) (service service_name : string) :
  is_Some (fst (text_pass host self ∅ w) !! KStr service) ->
  reported_up (fst (text_pass host self ∅ w)) service = Return true /\
  status_line (fst (text_pass host self ∅ w)) (service, service_name)
  = Return ("✅ " +:+ service_name +:+ ": Up").
Proof.
  intros [state Hstate].
  pose proof (text_pass_entries host self w (KStr service) state Hstate) as ->.
  unfold reported_up, status_line. rewrite Hstate. split; reflexivity.
Qed.

Lemma fallback_entries_shown_running_witness :
  let host := Sample.obliging ("NAME STATUS" +:+ Sample.nl +:+ "servers-redis-1 Started") in
  fst (text_pass host Sample.manager ∅ (Sample.fresh [])) !! KStr "redis"
  = Some (PyStr "Up") /\
  reported_up (fst (text_pass host Sample.manager ∅ (Sample.fresh []))) "redis"
  = Return true /\
  status_line (fst (text_pass host Sample.manager ∅ (Sample.fresh [])))
    ("redis", "Redis (Cache)")
  = Return "✅ Redis (Cache): Up".
Proof.
  intros host.
  assert (fst (text_pass host Sample.manager ∅ (Sample.fresh [])) !! KStr "redis"
          = Some (PyStr "Up")) as H by reflexivity.
  split; [exact H|].
  apply (fallback_entries_shown_running host Sample.manager (Sample.fresh [])
           "redis" "Redis (Cache)").
  rewrite H. eexists. reflexivity.
Defined.

(** ** The plain-text pass, line by line *)

(** A line either marks one key up or does nothing, whatever the status. *)
Lemma text_line_shape (self : ServiceManager) (line : string) :
  exists mark : option string,
    forall status : gmap pykey pyjson,
      text_line self status line
      = match mark with
        | Some key => <[KStr key := PyStr "Up"]> status
        | None => status
        end.
Proof.
  unfold text_line.
  destruct (Py.truthy (Py.strip line)); [|exists None; reflexivity].
  destruct (2 <=? length (Py.split line))%nat; [|exists None; reflexivity].
  destruct (has_status_word line); [|exists None; reflexivity].
  destruct (service_mapping self !! hd EmptyString (Py.split line)) as [mapped_key|].
  - exists (Some mapped_key). reflexivity.
  - exists (Some (hd EmptyString (Py.split line))). reflexivity.
Qed.

Lemma text_line_swap (self : ServiceManager) (a b : string)
    (status : gmap pykey pyjson) :
  text_line self (text_line self status a) b
  = text_line self (text_line self status b) a.
Proof.
  destruct (text_line_shape self a) as [[ka|] Ha], (text_line_shape self b) as [[kb|] Hb];
    rewrite ?Ha, ?Hb; try reflexivity.
  destruct (decide (ka = kb)) as [->|Hne]; [reflexivity|].
  apply insert_insert_ne. congruence.
Qed.

(** X9: the plain-text pass does not depend on the order of the lines: any
    rearrangement of the lines after the header gives the same status. *)
Theorem fallback_order_irrelevant (self : ServiceManager) (lines lines' : list string)
    (status : gmap pykey pyjson) :
  Permutation lines lines' ->
  text_lines self lines status = text_lines self lines' status.
Proof.
  intros H. revert status. unfold text_lines.
  induction H as [|x l l' _ IH|x y l|l l' l'' _ IH1 _ IH2]; intros status; cbn [fold_left].
  - reflexivity.
  - apply IH.
  - rewrite text_line_swap. reflexivity.
  - rewrite IH1. apply IH2.
Qed.

Lemma fallback_order_irrelevant_witness :
  text_lines Sample.manager
    ["servers-redis-1 Up"; "servers-nginx-1 Exited"; "servers-db-server-1 Up"] ∅
  = text_lines Sample.manager
      ["servers-db-server-1 Up"; "servers-redis-1 Up"; "servers-nginx-1 Exited"] ∅.
Proof.
  apply fallback_order_irrelevant.
  apply Permutation_sym, (Permutation_cons_app [_; _] []). reflexivity.
Defined.

(** ** Entries for services that are not registered *)

Lemma In_keys_has_key (d : list (string * string)) (k : string) :
  In k (keys d) <-> has_key d k = true.
Proof.
  unfold keys, has_key. rewrite existsb_exists, in_map_iff. split.
  - intros ([k' v] & <- & Hin). exists (k', v). split; [exact Hin | apply String.eqb_refl].
  - intros ([k' v] & Hin & Heq). apply String.eqb_eq in Heq. exists (k', v). auto.
Qed.

Lemma try_each_ext_in {A} (l : list A) (f g : A -> M (outcome unit)) :
  (forall x w, In x l -> f x w = g x w) ->
  forall w, try_each l f w = try_each l g w.
Proof.
  induction l as [|x l IH]; intros H w; [reflexivity|].
  cbn [try_each]. rewrite !bind_eq, (H x w (or_introl eq_refl)).
  destruct (fst (g x w)); [|reflexivity].
  apply IH. intros y w' Hin. apply H. right. exact Hin.
Qed.

(** X10: only the entries of registered services matter.  Two statuses that
    agree on the registered keys are displayed alike, line for line, and
    give the service check the same answers, service by service; an entry
    under any other key is never shown and never counted. *)
Theorem unregistered_entries_are_ignored (self : ServiceManager)
    (status status' : gmap pykey pyjson) (w : World) :
  (forall service, has_key (services self) service = true ->
                   status !! KStr service = status' !! KStr service) ->
  show_status self status w = show_status self status' w /\
  map (reported_up status) (keys (services self))
  = map (reported_up status') (keys (services self)).
Proof.
  intros H. split.
  - unfold show_status. rewrite !bind_eq, !print_eq. cbn [fst snd].
    rewrite (try_each_ext_in (services self) _
               (fun entry =>
                  match status_line status' entry with
                  | Return line => print line;; ret (Return tt)
                  | Raise e => ret (Raise e)
                  end)%io); [reflexivity|].
    intros [service service_name] w' Hin. unfold status_line.
    rewrite (H service); [reflexivity|].
    apply In_keys_has_key. unfold keys. apply in_map_iff.
    exists (service, service_name). auto.
  - apply map_ext_in. intros service Hin. unfold reported_up.
    rewrite (H service); [reflexivity|]. apply In_keys_has_key, Hin.
Qed.

Lemma unregistered_entries_are_ignored_witness :
  show_status Sample.manager
    {[ KStr "nginx" := PyStr "running"; KStr "scratch-1" := PyStr "Up";
       KNum 1 0 := PyInt 7 ]} (Sample.fresh [])
  = show_status Sample.manager {[ KStr "nginx" := PyStr "running" ]} (Sample.fresh []).
Proof.
  apply unregistered_entries_are_ignored.
  intros service H. unfold has_key in H. apply existsb_exists in H as ([k v] & Hin & Heq).
  apply String.eqb_eq in Heq. cbn [fst] in Heq. subst k.
  cbn in Hin. destruct Hin as [E|[E|[E|[E|[E|[]]]]]]; inversion E; subst; reflexivity.
Defined.

(** ** The commands of a bring-up, in order *)

Lemma bind_keeps_tail {X A B} (f : World -> X) (m : M A) (k : A -> M B) (w : World) :
  (forall a, keeps f (k a)) -> f (snd (bind m k w)) = f (snd (m w)).
Proof. intros Hk. rewrite bind_eq. apply Hk. Qed.

Lemma get_service_status_calls (host : Host) (self : ServiceManager) (w : World) :
  calls (snd (get_service_status host self w))
  = (status_commands host self (calls w) ++ calls w)%list.
Proof.
  destruct (fallback_iff_no_entry host self w) as [_ H]. rewrite H.
  pose proof (structured_pass_value host self (say "🔍 서비스 상태 확인 중.." w)) as Hs.
  autorewrite with world in Hs. rewrite Hs.
  unfold status_commands. fold (structured_status host self (calls w)).
  unfold ps_command, ps_json_command.
  destruct (is_empty (structured_status host self (calls w))); reflexivity.
Qed.

Lemma test_port_keeps_calls (host : Host) (entry : Z * string) :
  keeps calls (test_port host entry).
Proof. intros w. apply test_port_events. Qed.
#[local] Hint Resolve test_port_keeps_calls : logs_kept.

Lemma test_services_calls (host : Host) (self : ServiceManager) (w : World) :
  calls (snd (test_services host self w))
  = (status_commands host self (calls w) ++ calls w)%list.
Proof.
  unfold test_services. do 3 (rewrite bind_eq, print_eq; cbn [fst snd]).
  rewrite bind_keeps_tail by (intros status; frame).
  rewrite get_service_status_calls. autorewrite with world. reflexivity.
Qed.

(** X11: what [run_all_services] returns and runs, read off the machine.  It
    returns false unless the required files are there and [config], [build]
    and [up -d] exit with code 0, each asked after the one before; then it
    returns true, or raises what the service check raises on a state that
    is not a string.  With string states it returns true exactly when the
    files are there and the three commands exit with code 0.  The commands
    it runs are these, in this order, up to the first that fails, and after
    all three the commands of the status query; a missing file means no
    command at all. *)
Theorem run_all_services_trace (host : Host) (self : ServiceManager) (w : World) :
  let h := calls w in
  let files_ok := forallb (path_exists host h) (required_files self) in
  let config := compose self "config" in
  let build := compose self "build " in
  let up := compose self "up -d " in
  let config_ok := exits_0 (shell host h config) in
  let build_ok := exits_0 (shell host (config :: h) build) in
  let up_ok := exits_0 (shell host (build :: config :: h) up) in
  let status := status_after host self (up :: build :: config :: h) in
  let raised := snd (until_raise (map (reported_up status) (keys (services self)))) in
  fst (run_all_services host self w)
  = (if files_ok && config_ok && build_ok && up_ok
     then match raised with None => Return true | Some e => Raise e end
     else Return false) /\
  (strings_only self status = true ->
   fst (run_all_services host self w)
   = Return (files_ok && config_ok && build_ok && up_ok)) /\
  calls (snd (run_all_services host self w))
  = if negb files_ok then h
    else if negb config_ok then config :: h
    else if negb build_ok then build :: config :: h
    else if negb up_ok then up :: build :: config :: h
    else (status_commands host self (up :: build :: config :: h)
            ++ up :: build :: config :: h)%list.
Proof.
  intros h files_ok config build up config_ok build_ok up_ok status raised.
  enough (fst (run_all_services host self w)
          = (if files_ok && config_ok && build_ok && up_ok
             then match raised with None => Return true | Some e => Raise e end
             else Return false) /\
          calls (snd (run_all_services host self w))
          = if negb files_ok then h
            else if negb config_ok then config :: h
            else if negb build_ok then build :: config :: h
            else if negb up_ok then up :: build :: config :: h
            else (status_commands host self (up :: build :: config :: h)
                    ++ up :: build :: config :: h)%list) as [Hr Hc].
  { split; [exact Hr|]. split; [|exact Hc].
    intros Hs. rewrite Hr. apply reported_up_raises in Hs.
    unfold raised. rewrite Hs.
    destruct (files_ok && config_ok && build_ok && up_ok); reflexivity. }
  unfold run_all_services. do 2 (rewrite bind_eq, print_eq; cbn [fst snd]).
  set (w0 := say "🧪 기본 환경 테스트 실행 중.." (say "🚀 전체 서비스 실행 중.." w)).
  rewrite bind_eq.
  assert (fst (test_basic_environment host self w0) = files_ok && config_ok) as He
    by apply (test_basic_environment_events host self w0).
  assert (calls (snd (test_basic_environment host self w0))
          = if files_ok then config :: h else h) as Hc
    by apply (test_basic_environment_events host self w0).
  set (w1 := snd (test_basic_environment host self w0)) in *. rewrite He.
  destruct files_ok; cbn [andb negb] in *;
    [|rewrite bind_eq, print_eq; cbn [fst snd ret]; autorewrite with world; auto].
  destruct config_ok; cbn [andb negb] in *;
    [|rewrite bind_eq, print_eq; cbn [fst snd ret]; autorewrite with world; auto].
  rewrite bind_eq, print_eq. cbn [fst snd]. rewrite bind_eq.
  set (wb := say "🔨 전체 서비스 빌드 중.." w1).
  destruct (build_service_events host self EmptyString wb) as (Hbr & Hbc & _).
  change (compose self ("build " +:+ EmptyString)) with build in Hbr, Hbc.
  change (calls wb) with (calls w1) in Hbr, Hbc. rewrite Hc in Hbr, Hbc.
  fold build_ok in Hbr. rewrite Hbr.
  set (w2 := snd (build_service host self EmptyString wb)) in *.
  destruct build_ok; cbn [andb negb] in *;
    [|rewrite bind_eq, print_eq; cbn [fst snd ret]; autorewrite with world; auto].
  rewrite bind_eq, print_eq. cbn [fst snd]. rewrite bind_eq.
  set (ws := say "🚀 전체 서비스 실행 중.." w2).
  destruct (run_service_events host self EmptyString ws) as (Hur & Huc & _).
  change (compose self ("up -d " +:+ EmptyString)) with up in Hur, Huc.
  change (calls ws) with (calls w2) in Hur, Huc. rewrite Hbc in Hur, Huc.
  fold up_ok in Hur. rewrite Hur.
  set (w3 := snd (run_service host self EmptyString ws)) in *.
  destruct up_ok; cbn [andb negb] in *;
    [|rewrite bind_eq, print_eq; cbn [fst snd ret]; autorewrite with world; auto].
  rewrite bind_eq, print_eq. cbn [fst snd]. rewrite bind_eq.
  set (wt := say "🔍 서비스 실행 상태 확인 중.." w3).
  assert (calls wt = up :: build :: config :: h) as Hwt
    by (unfold wt; autorewrite with world; exact Huc).
  pose proof (test_services_value host self wt) as Hv. cbv zeta in Hv. rewrite Hwt in Hv.
  pose proof (test_services_calls host self wt) as Ht. rewrite Hwt in Ht.
  subst raised status. rewrite Hv.
  destruct (snd (until_raise _)) as [e|].
  - cbn [ret fst snd]. split; [reflexivity | exact Ht].
  - rewrite !bind_eq. cbn [fst snd ret]. split; [reflexivity|].
    rewrite print_eq. cbn [snd]. autorewrite with world.
    rewrite (keeps_when_any calls _ _ (print_keeps_calls _)). exact Ht.
Qed.

Lemma run_all_services_trace_witness :
  fst (run_all_services (Sample.obliging EmptyString) Sample.manager (Sample.fresh []))
  = Return true /\
  fst (run_all_services (Sample.obliging (Sample.numbered_state "nginx" 1))
         Sample.manager (Sample.fresh []))
  = Raise "'int' object has no attribute 'lower'".
Proof.
  split.
  - destruct (run_all_services_trace (Sample.obliging EmptyString) Sample.manager
                (Sample.fresh [])) as (_ & A & _).
    apply A. reflexivity.
  - destruct (run_all_services_trace (Sample.obliging (Sample.numbered_state "nginx" 1))
                Sample.manager (Sample.fresh [])) as (A & _ & _).
    exact A.
Defined.

(** X12: what [run_single_service] returns and runs, read off the machine.
    It returns false unless the key is registered, the required files are
    there, and [config], [build] and [up -d] of that service exit with code
    0, each asked after the one before; then it returns true, or raises
    what the service check raises on a state that is not a string.  With
    string states it returns true exactly when the key is registered, the
    files are there and the three commands exit with code 0.  An
    unregistered key or a missing file means no command at all; otherwise
    the commands run in this order up to the first that fails, and after
    all three the commands of the status query. *)
Theorem run_single_service_trace (host : Host) (self : ServiceManager)
    (service : string) (w : World) :
  let h := calls w in
  let known := has_key (services self) service in
  let files_ok := forallb (path_exists host h) (required_files self) in
  let config := compose self "config" in
  let build := compose self ("build " +:+ service) in
  let up := compose self ("up -d " +:+ service) in
  let config_ok := exits_0 (shell host h config) in
  let build_ok := exits_0 (shell host (config :: h) build) in
  let up_ok := exits_0 (shell host (build :: config :: h) up) in
  let status := status_after host self (up :: build :: config :: h) in
  let raised := snd (until_raise (map (reported_up status) (keys (services self)))) in
  fst (run_single_service host self service w)
  = (if known && files_ok && config_ok && build_ok && up_ok
     then match raised with None => Return true | Some e => Raise e end
     else Return false) /\
  (strings_only self status = true ->
   fst (run_single_service host self service w)
   = Return (known && files_ok && config_ok && build_ok && up_ok)) /\
  calls (snd (run_single_service host self service w))
  = if negb known then h
    else if negb files_ok then h
    else if negb config_ok then config :: h
    else if negb build_ok then build :: config :: h
    else if negb up_ok then up :: build :: config :: h
    else (status_commands host self (up :: build :: config :: h)
            ++ up :: build :: config :: h)%list.
Proof.
  intros h known files_ok config build up config_ok build_ok up_ok status raised.
  enough (fst (run_single_service host self service w)
          = (if known && files_ok && config_ok && build_ok && up_ok
             then match raised with None => Return true | Some e => Raise e end
             else Return false) /\
          calls (snd (run_single_service host self service w))
          = if negb known then h
            else if negb files_ok then h
            else if negb config_ok then config :: h
            else if negb build_ok then build :: config :: h
            else if negb up_ok then up :: build :: config :: h
            else (status_commands host self (up :: build :: config :: h)
                    ++ up :: build :: config :: h)%list) as [Hr Hc].
  { split; [exact Hr|]. split; [|exact Hc].
    intros Hs. rewrite Hr. apply reported_up_raises in Hs.
    unfold raised. rewrite Hs.
    destruct (known && files_ok && config_ok && build_ok && up_ok); reflexivity. }
  unfold run_single_service. fold known.
  destruct known; cbn [andb negb];
    [|rewrite bind_eq, print_eq; cbn [fst snd ret]; autorewrite with world; auto].
  do 2 (rewrite bind_eq, print_eq; cbn [fst snd]).
  set (w0 := say "🧪 기본 환경 테스트 실행 중.."
               (say ("🚀 " +:+ item (services self) service +:+ " 실행 중..") w)).
  rewrite bind_eq.
  assert (fst (test_basic_environment host self w0) = files_ok && config_ok) as He
    by apply (test_basic_environment_events host self w0).
  assert (calls (snd (test_basic_environment host self w0))
          = if files_ok then config :: h else h) as Hc
    by apply (test_basic_environment_events host self w0).
  set (w1 := snd (test_basic_environment host self w0)) in *. rewrite He.
  destruct files_ok; cbn [andb negb] in *;
    [|rewrite bind_eq, print_eq; cbn [fst snd ret]; autorewrite with world; auto].
  destruct config_ok; cbn [andb negb] in *;
    [|rewrite bind_eq, print_eq; cbn [fst snd ret]; autorewrite with world; auto].
  rewrite bind_eq.
  destruct (build_service_events host self service w1) as (Hbr & Hbc & _).
  fold build in Hbr, Hbc. rewrite Hc in Hbr, Hbc. fold build_ok in Hbr. rewrite Hbr.
  set (w2 := snd (build_service host self service w1)) in *.
  destruct build_ok; cbn [andb negb] in *; [|cbn [fst snd ret]; auto].
  rewrite bind_eq.
  destruct (run_service_events host self service w2) as (Hur & Huc & _).
  fold up in Hur, Huc. rewrite Hbc in Hur, Huc. fold up_ok in Hur. rewrite Hur.
  set (w3 := snd (run_service host self service w2)) in *.
  destruct up_ok; cbn [andb negb] in *; [|cbn [fst snd ret]; auto].
  rewrite bind_eq, print_eq. cbn [fst snd]. rewrite bind_eq.
  set (wt := say "🔍 서비스 실행 상태 확인 중.." w3).
  assert (calls wt = up :: build :: config :: h) as Hwt
    by (unfold wt; autorewrite with world; exact Huc).
  pose proof (test_services_value host self wt) as Hv. cbv zeta in Hv. rewrite Hwt in Hv.
  pose proof (test_services_calls host self wt) as Ht. rewrite Hwt in Ht.
  subst raised status. rewrite Hv.
  destruct (snd (until_raise _)) as [e|].
  - cbn [ret fst snd]. split; [reflexivity | exact Ht].
  - rewrite !bind_eq. cbn [fst snd ret]. split; [reflexivity|].
    rewrite (keeps_when_any calls _ _ (print_keeps_calls _)). exact Ht.
Qed.

Lemma run_single_service_trace_witness :
  fst (run_single_service (Sample.obliging EmptyString) Sample.manager "redis"
         (Sample.fresh []))
  = Return true /\
  fst (run_single_service (Sample.obliging (Sample.numbered_state "nginx" 1))
         Sample.manager "redis" (Sample.fresh []))
  = Raise "'int' object has no attribute 'lower'".
Proof.
  split.
  - destruct (run_single_service_trace (Sample.obliging EmptyString) Sample.manager
                "redis" (Sample.fresh [])) as (_ & A & _).
    apply A. reflexivity.
  - destruct (run_single_service_trace (Sample.obliging (Sample.numbered_state "nginx" 1))
                Sample.manager "redis" (Sample.fresh [])) as (A & _ & _).
    exact A.
Defined.

(** ** The menus, key by key *)

Lemma input_typed (prompt text : string) (rest : list key) (w : World) :
  stdin w = Line text :: rest ->
  fst (input prompt w) = Typed text /\
  stdin (snd (input prompt w)) = rest /\
  calls (snd (input prompt w)) = calls w.
Proof. intros H. unfold input. rewrite H. repeat split. Qed.

Lemma input_interrupted (prompt : string) (rest : list key) (w : World) :
  stdin w = CtrlC :: rest ->
  fst (input prompt w) = KeyboardInterrupt /\
  stdin (snd (input prompt w)) = rest /\
  calls (snd (input prompt w)) = calls w.
Proof. intros H. unfold input. rewrite H. repeat split. Qed.

Lemma input_at_eof (prompt : string) (w : World) :
  stdin w = [] ->
  fst (input prompt w) = EOFError /\
  stdin (snd (input prompt w)) = [] /\
  calls (snd (input prompt w)) = calls w.
Proof. intros H. unfold input. rewrite H. repeat split. Qed.

(** The world in which the selection menu asks for the choice. *)
Lemma selection_menu_eq (host : Host) (self : ServiceManager) (w : World) :
  exists w1,
    stdin w1 = stdin w /\ calls w1 = calls w /\
    show_service_selection_menu host self w
    = (typed <- input "선택하세요 (0-5): ";;
       match typed with
       | Typed text =>
           let choice := Py.strip text in
           if String.eqb choice "0" then ret tt
           else if Py.isdigit choice then
             match Py.int (int_max_str_digits host) choice with
             | Return number =>
                 if (1 <=? number) && (number <=? 5) then
                   let service_list := keys (services self) in
                   match nth_error service_list (Z.to_nat (number - 1)) with
                   | Some selected_service =>
                       r <- run_single_service host self selected_service;;
                       match r with
                       | Return _ => ret tt
                       | Raise e => print ("❌ 오류가 발생했습니다: " +:+ e)
                       end
                   | None =>
                       print ("❌ 오류가 발생했습니다: " +:+ "list index out of range")
                   end
                 else print "❌ 잘못된 선택입니다."
             | Raise e => print ("❌ 오류가 발생했습니다: " +:+ e)
             end
           else print "❌ 잘못된 선택입니다."
       | KeyboardInterrupt => print (String Py.newline "뒤로 돌아갑니다.")
       | EOFError => print ("❌ 오류가 발생했습니다: " +:+ eof_message)
       end)%io w1.
Proof.
  unfold show_service_selection_menu.
  do 2 (rewrite bind_eq, print_eq; cbn [fst snd]). rewrite bind_eq.
  do 2 (rewrite bind_eq, print_eq; cbn [fst snd]).
  eexists. split; [|split; [|reflexivity]].
  - autorewrite with world. rewrite (keeps_print_numbered (services self) 1).
    autorewrite with world. reflexivity.
  - autorewrite with world. rewrite (print_numbered_keeps_calls (services self) 1).
    autorewrite with world. reflexivity.
Qed.

Lemma nth_error_key_registered (d : list (string * string)) (i : nat) (key : string) :
  nth_error (keys d) i = Some key -> has_key d key = true.
Proof. intros H. apply In_keys_has_key. eapply nth_error_In, H. Qed.

(** X13: what the selection menu does with each answer in ASCII.  Anything
    but the digits for 1 to 5 (also "0", digits too many for [int], Ctrl-C
    and the end of the input) runs no command.  A valid number starts
    [run_single_service] for the service at that place of the registry,
    which is always a registered key: from this menu the workflow is never
    asked for an unknown service; what the workflow raises is reported and
    the menu returns.  A number beyond the registry runs no command. *)
Theorem selection_menu_choices (host : Host) (self : ServiceManager) (w : World) :
  (forall text rest,
      stdin w = Line text :: rest -> Py.isascii text = true ->
      chosen_number host (Py.strip text) = None ->
      calls (snd (show_service_selection_menu host self w)) = calls w /\
      stdin (snd (show_service_selection_menu host self w)) = rest) /\
  (forall rest,
      stdin w = CtrlC :: rest ->
      calls (snd (show_service_selection_menu host self w)) = calls w /\
      stdin (snd (show_service_selection_menu host self w)) = rest) /\
  (stdin w = [] ->
   calls (snd (show_service_selection_menu host self w)) = calls w) /\
  (forall text rest number,
      stdin w = Line text :: rest ->
      chosen_number host (Py.strip text) = Some number ->
      match nth_error (keys (services self)) (Z.to_nat (number - 1)) with
      | Some selected =>
          has_key (services self) selected = true /\
          exists w',
            calls w' = calls w /\ stdin w' = rest /\
            show_service_selection_menu host self w
            = (tt, match fst (run_single_service host self selected w') with
                   | Return _ => snd (run_single_service host self selected w')
                   | Raise e =>
                       say ("❌ 오류가 발생했습니다: " +:+ e)
                         (snd (run_single_service host self selected w'))
                   end)
      | None =>
          (length (services self) < 5)%nat /\
          calls (snd (show_service_selection_menu host self w)) = calls w /\
          stdin (snd (show_service_selection_menu host self w)) = rest
      end).
Proof.
  destruct (selection_menu_eq host self w) as (w1 & Hstdin & Hcalls & ->).
  split; [|split; [|split]].
  - intros text rest Hkeys _ Hchoice. rewrite <- Hstdin in Hkeys.
    destruct (input_typed "선택하세요 (0-5): " text rest w1 Hkeys) as (Ht & Hs & Hc).
    rewrite bind_eq, Ht. cbv zeta. unfold chosen_number in Hchoice.
    destruct (String.eqb (Py.strip text) "0");
      [cbn [ret snd]; rewrite Hs, Hc, Hcalls; split; reflexivity|].
    destruct (Py.isdigit (Py.strip text));
      [|rewrite print_eq; cbn [snd]; autorewrite with world;
        rewrite Hs, Hc, Hcalls; split; reflexivity].
    destruct (Py.int (int_max_str_digits host) (Py.strip text)) as [number|e];
      [|rewrite print_eq; cbn [snd]; autorewrite with world;
        rewrite Hs, Hc, Hcalls; split; reflexivity].
    destruct ((1 <=? number) && (number <=? 5)); [discriminate Hchoice|].
    rewrite print_eq. cbn [snd]. autorewrite with world.
    rewrite Hs, Hc, Hcalls. split; reflexivity.
  - intros rest Hkeys. rewrite <- Hstdin in Hkeys.
    destruct (input_interrupted "선택하세요 (0-5): " rest w1 Hkeys) as (Ht & Hs & Hc).
    rewrite bind_eq, Ht. cbn [snd print]. rewrite Hs, Hc, Hcalls. split; reflexivity.
  - intros Hkeys. rewrite <- Hstdin in Hkeys.
    destruct (input_at_eof "선택하세요 (0-5): " w1 Hkeys) as (Ht & Hs & Hc).
    rewrite bind_eq, Ht. cbn [snd print]. rewrite Hc, Hcalls. reflexivity.
  - intros text rest number Hkeys Hchoice. rewrite <- Hstdin in Hkeys.
    destruct (input_typed "선택하세요 (0-5): " text rest w1 Hkeys) as (Ht & Hs & Hc).
    rewrite bind_eq, Ht. cbv zeta. unfold chosen_number in Hchoice.
    assert (String.eqb (Py.strip text) "0" = false) as ->.
    { destruct (String.eqb_spec (Py.strip text) "0") as [E|]; [|reflexivity].
      rewrite E in Hchoice. vm_compute in Hchoice. discriminate Hchoice. }
    destruct (Py.isdigit (Py.strip text)); [|discriminate Hchoice].
    destruct (Py.int (int_max_str_digits host) (Py.strip text)) as [number'|e];
      [|discriminate Hchoice].
    destruct ((1 <=? number') && (number' <=? 5)) eqn:Hrange; [|discriminate Hchoice].
    injection Hchoice as ->. cbv zeta.
    destruct (nth_error (keys (services self)) (Z.to_nat (number - 1))) as [selected|] eqn:Hnth.
    + split; [eapply nth_error_key_registered, Hnth|].
      exists (snd (input "선택하세요 (0-5): " w1)).
      split; [rewrite Hc; exact Hcalls|]. split; [exact Hs|].
      rewrite bind_eq. destruct (fst (run_single_service host self selected _)); reflexivity.
    + split.
      * apply nth_error_None in Hnth. unfold keys in Hnth. rewrite length_map in Hnth.
        apply andb_prop in Hrange as [Hge Hle]. apply Z.leb_le in Hge, Hle. lia.
      * rewrite print_eq. cbn [snd]. autorewrite with world.
        rewrite Hs, Hc, Hcalls. split; reflexivity.
Qed.

Lemma selection_menu_choices_witness :
  let host := Sample.obliging EmptyString in
  calls (snd (show_service_selection_menu host Sample.manager (Sample.fresh [Line "7"])))
  = [] /\
  calls (snd (show_service_selection_menu host Sample.manager
                (Sample.fresh [Line (repeat_string "1" 4301)])))
  = [] /\
  calls (snd (show_service_selection_menu host Sample.manager (Sample.fresh [CtrlC])))
  = [] /\
  calls (snd (show_service_selection_menu host Sample.manager (Sample.fresh []))) = [] /\
  has_key (services Sample.manager) "nginx" = true.
Proof.
  intros host.
  destruct (selection_menu_choices host Sample.manager (Sample.fresh [Line "7"]))
    as (A & _ & _ & _).
  destruct (selection_menu_choices host Sample.manager
              (Sample.fresh [Line (repeat_string "1" 4301)])) as (A' & _ & _ & _).
  destruct (selection_menu_choices host Sample.manager (Sample.fresh [CtrlC]))
    as (_ & B & _ & _).
  destruct (selection_menu_choices host Sample.manager (Sample.fresh []))
    as (_ & _ & C & _).
  destruct (selection_menu_choices host Sample.manager (Sample.fresh [Line " 4 "]))
    as (_ & _ & _ & D).
  split; [apply (A "7" []); reflexivity|].
  split; [apply (A' (repeat_string "1" 4301) []); vm_compute; reflexivity|].
  split; [apply (B []); reflexivity|].
  split; [apply C; reflexivity|].
  specialize (D " 4 " [] 4 eq_refl eq_refl). cbn in D. apply D.
Defined.

(** The world in which a turn of the menu asks for the choice. *)
Lemma menu_turn_eq (host : Host) (self : ServiceManager) (w : World) :
  stdin (snd (print_menu w)) = stdin w /\
  calls (snd (print_menu w)) = calls w /\
  menu_turn host self w
  = (typed <- input "선택하세요 (0-6): ";;
     match typed with
     | Typed text =>
         let choice := Py.strip text in
         if String.eqb choice "0" then
           print "👋 프로그램을 종료합니다.";;
           ret Break
         else
           done <- menu_action host self choice;;
           match done with
           | Raise e =>
               print ("❌ 오류가 발생했습니다: " +:+ e);;
               ret Continue
           | Return _ =>
               typed <- input (String Py.newline "계속하려면 Enter를 누르세요...");;
               match typed with
               | Typed _ =>
                   print (String Py.newline
                            (repeat_string "=" 50 +:+ String Py.newline EmptyString));;
                   ret Continue
               | KeyboardInterrupt => interrupted
               | EOFError =>
                   print ("❌ 오류가 발생했습니다: " +:+ eof_message);;
                   ret Continue
               end
           end
     | KeyboardInterrupt => interrupted
     | EOFError =>
         print ("❌ 오류가 발생했습니다: " +:+ eof_message);;
         ret Continue
     end)%io (snd (print_menu w)).
Proof.
  split; [apply keeps_print_menu|]. split; [apply print_menu_keeps_calls|].
  unfold menu_turn. rewrite bind_eq. reflexivity.
Qed.




(** ** The end of the input, and a failed pre-flight check *)

Lemma menu_turn_at_eof (host : Host) (self : ServiceManager) (w : World) :
  stdin w = [] ->
  fst (menu_turn host self w) = Continue /\
  stdin (snd (menu_turn host self w)) = [] /\
  calls (snd (menu_turn host self w)) = calls w.
Proof.
  intros Hkeys. destruct (menu_turn_eq host self w) as (Hstdin & Hcalls & ->).
  rewrite <- Hstdin in Hkeys.
  destruct (input_at_eof "선택하세요 (0-6): " (snd (print_menu w)) Hkeys) as (Ht & Hs & Hc).
  rewrite bind_eq, Ht, bind_eq, print_eq. cbn [fst snd ret]. autorewrite with world.
  rewrite Hs, Hc, Hcalls. repeat split.
Qed.

Lemma show_menu_at_eof_calls (host : Host) (self : ServiceManager) (fuel : nat) :
  forall w, stdin w = [] -> calls (snd (show_menu host self fuel w)) = calls w.
Proof.
  induction fuel as [|fuel IH]; intros w Hkeys; [reflexivity|].
  cbn [show_menu]. rewrite bind_eq.
  destruct (menu_turn_at_eof host self w Hkeys) as (-> & Hs & Hc).
  rewrite IH by exact Hs. exact Hc.
Qed.

Lemma init_keeps_calls (host : Host) : keeps calls (init host).
Proof. unfold init. frame. Qed.

Lemma init_keeps_probed (host : Host) : keeps probed (init host).
Proof. unfold init. frame. Qed.

Lemma check_compose_file_keeps_calls (host : Host) (self : ServiceManager) :
  keeps calls (check_compose_file host self).
Proof. unfold check_compose_file. frame. Qed.

Lemma check_compose_file_keeps_probed (host : Host) (self : ServiceManager) :
  keeps probed (check_compose_file host self).
Proof. unfold check_compose_file. frame. Qed.

(** The three answers of the pre-flight checks, read off the machine. *)
Lemma preflight_answers (host : Host) (w : World) :
  let manager := fst (init host w) in
  let w0 := snd (init host w) in
  let w1 := snd (check_docker host manager w0) in
  fst (check_docker host manager w0)
  = exits_0 (shell host (calls w) "docker --version")
    && exits_0 (shell host ("docker --version" :: calls w) "docker info") /\
  calls w1
  = (if exits_0 (shell host (calls w) "docker --version")
     then "docker info" :: "docker --version" :: calls w
     else "docker --version" :: calls w) /\
  fst (check_compose_file host manager w1)
  = path_exists host (calls w1) (compose_file manager).
Proof.
  intros manager w0 w1.
  assert (calls w0 = calls w) as Hw0 by apply init_keeps_calls.
  split; [|split].
  - rewrite check_docker_result, Hw0. reflexivity.
  - unfold w1. rewrite check_docker_calls, Hw0. reflexivity.
  - apply check_compose_file_result.
Qed.

(** X15: with the input at its end the menu never returns: each read raises
    [EOFError], which the loop reports and survives.  It runs no command
    while it spins.  So the script started without a flag and with nothing
    to read does not exit once the pre-flight checks have passed. *)
Theorem menu_at_eof_never_returns (host : Host) (args : Args) (w : World) :
  stdin w = [] ->
  (forall self fuel,
      fst (show_menu host self fuel w) = None /\
      calls (snd (show_menu host self fuel w)) = calls w) /\
  (selected args = false ->
   exits_0 (shell host (calls w) "docker --version") = true ->
   exits_0 (shell host ("docker --version" :: calls w) "docker info") = true ->
   path_exists host ("docker info" :: "docker --version" :: calls w)
     (compose_file (fst (init host w))) = true ->
   forall fuel, fst (main host (Namespace args) fuel w) = None).
Proof.
  intros Hkeys. split.
  - intros self fuel. split; [apply show_menu_at_eof | apply show_menu_at_eof_calls];
      exact Hkeys.
  - intros Hsel Hversion Hinfo Hfile fuel.
    destruct (preflight_answers host w) as (Hd & Hc & Hf). cbv zeta in Hd, Hc, Hf.
    rewrite Hversion in Hd, Hc. rewrite Hinfo in Hd. rewrite Hc, Hfile in Hf.
    unfold main. cbv beta iota. rewrite !bind_eq. rewrite Hd. cbn [negb andb]. rewrite bind_eq, Hf.
    cbn [negb]. unfold selected in Hsel.
    repeat match type of Hsel with
           | (?a || ?b) = false => apply orb_false_elim in Hsel as [Hsel ?]
           end.
    repeat match goal with
           | H : ?flag args = false |- _ => rewrite H; clear H
           end.
    rewrite bind_eq, show_menu_at_eof; [reflexivity|].
    rewrite (keeps_check_compose_file host), (keeps_check_docker host), (keeps_init host).
    exact Hkeys.
Qed.

Lemma menu_at_eof_never_returns_witness :
  fst (main (Sample.obliging EmptyString) (Namespace Sample.no_flag) 1000 (Sample.fresh [])) = None /\
  fst (show_menu (Sample.obliging EmptyString) Sample.manager 1000 (Sample.fresh []))
  = None.
Proof.
  destruct (menu_at_eof_never_returns (Sample.obliging EmptyString) Sample.no_flag
              (Sample.fresh []) eq_refl) as [B A].
  split; [apply A; reflexivity | apply B].
Defined.

(** X16: when a pre-flight check fails, the script exits with status 1
    having run nothing but the probes of [check_docker]: no [docker compose]
    command, whatever flag was given; no socket is opened and nothing is
    read. *)
Theorem preflight_failure_runs_nothing_else (host : Host) (args : Args) (fuel : nat)
    (w : World) :
  let version_ok := exits_0 (shell host (calls w) "docker --version") in
  let info_ok := exits_0 (shell host ("docker --version" :: calls w) "docker info") in
  let file_ok :=
    path_exists host ("docker info" :: "docker --version" :: calls w)
      (compose_file (fst (init host w))) in
  version_ok && info_ok && file_ok = false ->
  fst (main host (Namespace args) fuel w) = Some 1 /\
  calls (snd (main host (Namespace args) fuel w))
  = (if version_ok
     then "docker info" :: "docker --version" :: calls w
     else "docker --version" :: calls w) /\
  probed (snd (main host (Namespace args) fuel w)) = probed w /\
  stdin (snd (main host (Namespace args) fuel w)) = stdin w.
Proof.
  intros version_ok info_ok file_ok Hfail.
  destruct (preflight_answers host w) as (Hd & Hc & Hf). cbv zeta in Hd, Hc, Hf.
  fold version_ok in Hd, Hc. fold info_ok in Hd.
  set (manager := fst (init host w)) in *. set (w0 := snd (init host w)) in *.
  set (w1 := snd (check_docker host manager w0)) in *.
  assert (probed w1 = probed w /\ stdin w1 = stdin w) as [Hp1 Hs1].
  { unfold w1. rewrite (check_docker_keeps_probed host manager w0),
      (keeps_check_docker host manager w0).
    split; [apply init_keeps_probed | apply keeps_init]. }
  unfold main. cbv beta iota. rewrite !bind_eq. fold manager w0. rewrite Hd. fold w1.
  destruct version_ok; cbn [andb negb] in *.
  - destruct info_ok; cbn [andb negb] in *.
    + rewrite bind_eq, Hf, Hc. fold file_ok. rewrite Hfail. cbn [negb].
      rewrite bind_eq, print_eq. cbn [fst snd ret]. autorewrite with world.
      rewrite (check_compose_file_keeps_calls host manager w1),
        (check_compose_file_keeps_probed host manager w1),
        (keeps_check_compose_file host manager w1), Hc, Hp1, Hs1.
      repeat split.
    + rewrite bind_eq, print_eq. cbn [fst snd ret]. autorewrite with world.
      rewrite Hc, Hp1, Hs1. repeat split.
  - rewrite bind_eq, print_eq. cbn [fst snd ret]. autorewrite with world.
    rewrite Hc, Hp1, Hs1. repeat split.
Qed.

Lemma preflight_failure_runs_nothing_else_witness :
  let host := Sample.machine (fun _ _ => Exited 127 EmptyString "docker: not found")
                             (fun _ => true) (fun _ => Errno 0) in
  main host (Namespace Sample.flag_all) 0 (Sample.fresh [])
  = (Some 1, snd (main host (Namespace Sample.flag_all) 0 (Sample.fresh []))) /\
  calls (snd (main host (Namespace Sample.flag_all) 0 (Sample.fresh []))) = ["docker --version"].
Proof.
  intros host.
  destruct (preflight_failure_runs_nothing_else host Sample.flag_all 0 (Sample.fresh []))
    as (A & B & _); [reflexivity|].
  split; [|exact B].
  rewrite <- A. destruct (main host (Namespace Sample.flag_all) 0 (Sample.fresh [])). reflexivity.
Defined.

(** ** The keys of the fallback status *)

Lemma text_line_mark (self : ServiceManager) (status : gmap pykey pyjson)
    (line : string) :
  text_line self status line
  = match mark self line with
    | Some key => <[KStr key := PyStr "Up"]> status
    | None => status
    end.
Proof.
  unfold mark. destruct (Nat.leb_spec 2 (length (Py.split line))) as [H|H]; cbn [andb].
  - rewrite text_line_of_tokens by exact H. unfold marks_every_line.
    destruct (has_status_word line); reflexivity.
  - unfold text_line. destruct (Py.truthy (Py.strip line)); [|reflexivity].
    destruct (Nat.leb_spec 2 (length (Py.split line))); [lia | reflexivity].
Qed.

Lemma text_lines_keys (self : ServiceManager) (lines : list string) (key : pykey) :
  forall status : gmap pykey pyjson,
    is_Some (text_lines self lines status !! key) <->
    is_Some (status !! key) \/
    exists line, In line lines /\ option_map KStr (mark self line) = Some key.
Proof.
  unfold text_lines. induction lines as [|line lines IH]; intros status; cbn [fold_left].
  - split; [auto | intros [H|(line & [] & _)]; exact H].
  - rewrite IH, text_line_mark. split.
    + intros [H|(l & Hin & Hl)].
      * destruct (mark self line) as [k|] eqn:Hmark; [|auto].
        destruct (decide (KStr k = key)) as [<-|Hne].
        -- right. exists line. split; [left; reflexivity | rewrite Hmark; reflexivity].
        -- rewrite lookup_insert_ne in H by exact Hne. auto.
      * right. exists l. split; [right; exact Hin | exact Hl].
    + intros [H|(l & [<-|Hin] & Hl)].
      * left. destruct (mark self line) as [k|]; [|exact H].
        destruct (decide (KStr k = key)) as [<-|Hne];
          [rewrite lookup_insert_eq; eauto | rewrite lookup_insert_ne by exact Hne; exact H].
      * left. destruct (mark self line) as [k|]; [|discriminate Hl].
        injection Hl as <-. rewrite lookup_insert_eq. eauto.
      * right. exists l. split; assumption.
Qed.

(** X17: the keys of the fallback status are exactly the names the lines
    mark: a key is in the status the plain-text pass builds from nothing if
    and only if it is a string, some line after the header has at least two
    tokens and a status word, and the key is its first token, through the
    alias table if it is a container name of the table. *)
Theorem fallback_keys (self : ServiceManager) (lines : list string) (key : pykey) :
  is_Some (text_lines self lines ∅ !! key) <->
  exists line,
    In line lines /\
    (2 <= length (Py.split line))%nat /\
    has_status_word line = true /\
    KStr (default (hd EmptyString (Py.split line))
                  (service_mapping self !! hd EmptyString (Py.split line))) = key.
Proof.
  rewrite text_lines_keys. split.
  - intros [H|(line & Hin & Hmark)].
    + rewrite lookup_empty in H. destruct H as [v H]. discriminate H.
    + exists line. split; [exact Hin|]. unfold mark, canonical in Hmark.
      destruct (Nat.leb_spec 2 (length (Py.split line))) as [Hlen|];
        [|discriminate Hmark].
      destruct (has_status_word line); [|discriminate Hmark].
      inversion Hmark. auto.
  - intros (line & Hin & Hlen & Hword & Hkey). right. exists line.
    split; [exact Hin|]. unfold mark, canonical.
    destruct (Nat.leb_spec 2 (length (Py.split line))); [|lia].
    rewrite Hword. cbn [andb option_map]. rewrite Hkey. reflexivity.
Qed.

Lemma fallback_keys_witness :
  let lines := ["servers-redis-1   Up 3 minutes"; "servers-nginx-1   Exited (0)";
                "scratch-1   Running"] in
  is_Some (text_lines Sample.manager lines ∅ !! KStr "redis") /\
  is_Some (text_lines Sample.manager lines ∅ !! KStr "scratch-1") /\
  text_lines Sample.manager lines ∅ !! KStr "nginx" = None.
Proof.
  intros lines. split; [|split].
  - apply fallback_keys. exists "servers-redis-1   Up 3 minutes".
    split; [left; reflexivity|]. split; [vm_compute; lia|].
    split; reflexivity.
  - apply fallback_keys. exists "scratch-1   Running".
    split; [right; right; left; reflexivity|]. split; [vm_compute; lia|].
    split; reflexivity.
  - reflexivity.
Defined.

(** ** The numbers of the selection menu *)

Lemma print_numbered_lines (entries : list (string * string)) :
  forall i w,
    printed (snd (print_numbered i entries w))
    = (rev (numbered i entries) ++ printed w)%list.
Proof.
  induction entries as [|[service service_name] entries IH]; intros i w; [reflexivity|].
  cbn [print_numbered numbered]. rewrite bind_eq, print_eq. cbn [fst snd].
  rewrite IH. autorewrite with world. cbn [rev]. rewrite <- app_assoc. reflexivity.
Qed.

Lemma numbered_nth (entries : list (string * string)) :
  forall i n,
    (n < length entries)%nat ->
    nth n (numbered i entries) EmptyString
    = pretty (i + Z.of_nat n) +:+ ". " +:+ snd (nth n entries (EmptyString, EmptyString)).
Proof.
  induction entries as [|[service service_name] entries IH]; intros i n H;
    [simpl in H; lia|].
  destruct n as [|n]; cbn [numbered nth snd].
  - rewrite Z.add_0_r. reflexivity.
  - rewrite IH by (simpl in H; lia). f_equal. f_equal. lia.
Qed.

Lemma keys_nth_error (entries : list (string * string)) (n : nat) :
  (n < length entries)%nat ->
  nth_error (keys entries) n = Some (fst (nth n entries (EmptyString, EmptyString))).
Proof.
  intros H. unfold keys. rewrite nth_error_map.
  rewrite (nth_error_nth' entries (EmptyString, EmptyString) H). reflexivity.
Qed.

(** X18: the number the selection menu prints next to a service is the
    answer that starts it: the lines are numbered from 1 in registry order,
    and for each of the first five the printed number, typed back, is plain
    ASCII, passes the check of the answer as that number, and selects the
    key of that same entry. *)
Theorem menu_numbers_select_their_service (host : Host) (self : ServiceManager)
    (n : nat) (w : World) :
  (n < length (services self))%nat -> (n < 5)%nat ->
  let answer := pretty (1 + Z.of_nat n) in
  printed (snd (print_numbered 1 (services self) w))
  = (rev (numbered 1 (services self)) ++ printed w)%list /\
  nth n (numbered 1 (services self)) EmptyString
  = answer +:+ ". " +:+ snd (nth n (services self) (EmptyString, EmptyString)) /\
  Py.isascii answer = true /\
  chosen_number host (Py.strip answer) = Some (1 + Z.of_nat n) /\
  nth_error (keys (services self)) (Z.to_nat (1 + Z.of_nat n - 1))
  = Some (fst (nth n (services self) (EmptyString, EmptyString))).
Proof.
  intros Hlen Hfive answer.
  split; [apply print_numbered_lines|].
  split; [apply numbered_nth, Hlen|].
  replace (Z.to_nat (1 + Z.of_nat n - 1)) with n by lia.
  split; [|split; [|apply keys_nth_error, Hlen]]; unfold answer, chosen_number;
    destruct n as [|[|[|[|[|n]]]]]; try lia; reflexivity.
Qed.

Lemma menu_numbers_select_their_service_witness :
  nth 3 (numbered 1 (services Sample.manager)) EmptyString = "4. Nginx (Reverse Proxy)" /\
  chosen_number (Sample.obliging EmptyString) (Py.strip "4") = Some 4 /\
  nth_error (keys (services Sample.manager)) 3 = Some "nginx".
Proof.
  destruct (menu_numbers_select_their_service (Sample.obliging EmptyString)
              Sample.manager 3 (Sample.fresh []))
    as (_ & A & _ & B & C); [simpl; lia | lia |].
  split; [exact A|]. split; [exact B | exact C].
Defined.

